(** * ProposalAI: the upload/analysis request lifecycle

    A shallow embedding of the two programs that make up the core of the
    repository:

    - the Express endpoints [POST /api/analyze-proposal] and
      [GET /api/sample-content] of [backend/src/server.js] (body parser,
      rate limiter, multer upload, handlers, error middleware);
    - the [FileUpload] React component (state, refs, [resetAnalysis],
      [onDrop], [runDemo], [analyzeProposal], the timer callbacks and
      [exportResultsAsJSON]).

    JavaScript strings are sequences of UTF-16 code units; they are modelled
    as lists of [N], one number per code unit.  Numbers are the values of
    the IEEE 754 double format, with [Number::toString] and the reading of
    number tokens written from ECMA-262.  JSON values are an inductive
    type; objects keep their properties in the order in which JavaScript
    enumerates them: array indices in ascending order, then the other keys
    in the order of their creation. *)

From Stdlib Require Import ZArith NArith List Ascii String Bool Lia.
From stdpp Require Import base option list gmap.

Set Warnings "-register-all".
Local Open Scope N_scope.

(* ===================================================================== *)
(** * Part I: definitions                                                 *)
(* ===================================================================== *)

(** ** JavaScript strings *)

Module JS.

(** A string is the list of its UTF-16 code units. *)
Abbreviation jsstring := (list N).

(** Source literals are ASCII; [str] turns a literal into code units. *)
Definition str (s : String.string) : jsstring :=
  List.map N_of_ascii (list_ascii_of_string s).

Definition ch (a : ascii) : N := N_of_ascii a.

(** The double quote, U+0022. *)
Definition dquote : N := 34.
(** Line feed, U+000A. *)
Definition lf : N := 10.

(** [s.length] *)
Definition strlen (s : jsstring) : Z := Z.of_nat (List.length s).

(** ECMAScript WhiteSpace and LineTerminator code points, the set that
    [String.prototype.trim] strips. *)
Definition is_trim_space (c : N) : bool :=
  (c =? 9) || (c =? 10) || (c =? 11) || (c =? 12) || (c =? 13) ||
  (c =? 32) || (c =? 160) || (c =? 5760) ||
  ((8192 <=? c) && (c <=? 8202)) ||
  (c =? 8232) || (c =? 8233) || (c =? 8239) || (c =? 8287) ||
  (c =? 12288) || (c =? 65279).

Fixpoint trimStart (s : jsstring) : jsstring :=
  match s with
  | c :: r => if is_trim_space c then trimStart r else s
  | [] => []
  end.

(** [s.trim()] *)
Definition trim (s : jsstring) : jsstring :=
  rev (trimStart (rev (trimStart s))).

Fixpoint starts_with (p s : jsstring) : bool :=
  match p, s with
  | [], _ => true
  | a :: p', b :: s' => (a =? b) && starts_with p' s'
  | _ :: _, [] => false
  end.

(** [s.includes(p)] *)
Fixpoint includes (s p : jsstring) : bool :=
  starts_with p s ||
  match s with
  | [] => false
  | _ :: r => includes r p
  end.

(** [s.replace(p, by)] with a string pattern: the first occurrence only. *)
Fixpoint replace (s p by_ : jsstring) : jsstring :=
  if starts_with p s then by_ ++ drop (List.length p) s
  else match s with
       | [] => []
       | c :: r => c :: replace r p by_
       end.

(** Truthiness of a string: the empty string is falsy. *)
Definition truthy (s : jsstring) : bool :=
  match s with [] => false | _ => true end.

(** The test [!s || s.trim().length === 0]. *)
Definition blank (s : jsstring) : bool :=
  negb (truthy s) || (strlen (trim s) =? 0)%Z.

(** Lines of a template literal, joined by line feeds. *)
Fixpoint unlines (ls : list jsstring) : jsstring :=
  match ls with
  | [] => []
  | [l] => l
  | l :: r => l ++ lf :: unlines r
  end.

End JS.
Import JS.

(** ** Numbers *)

Module Number.
Local Open Scope Z_scope.

(** A Number: [NaN], an infinity, a zero, or [m] times two to the [e] with
    a sign.  The values of the double format are those for which
    [is_double] holds. *)
Inductive number : Type :=
| NaN
| Infinity (negative : bool)
| Zero (negative : bool)
| Finite (negative : bool) (m : positive) (e : Z).

#[global] Instance number_eq_dec : EqDecision number.
Proof. solve_decision. Defined.

(** Two and ten to the [t], and 1 when [t] is negative. *)
Definition pow2 (t : Z) : Z := 2 ^ Z.max 0 t.
Definition pow10 (t : Z) : Z := 10 ^ Z.max 0 t.

(** The mantissa has at most 53 bits, and exactly 53 unless the exponent
    is the least one. *)
Definition is_double (x : number) : bool :=
  match x with
  | Finite _ m e =>
      (-1074 <=? e) && (e <=? 971) && (Zpos m <? 2 ^ 53) &&
      ((2 ^ 52 <=? Zpos m) || (e =? -1074))
  | _ => true
  end.

(** The exponent [p] of the leading bit of num/den: two to the [p] is at
    most num/den, which is below two to the [p + 1]. *)
Definition ilog2 (num den : Z) : Z :=
  let t := Z.log2 num - Z.log2 den in
  if den * pow2 t <=? num * pow2 (- t) then t else t - 1.

(** n/d rounded to the nearest integer, to the even one of two. *)
Definition rne (n d : Z) : Z :=
  match 2 * (n mod d) ?= d with
  | Lt => n / d
  | Gt => n / d + 1
  | Eq => if Z.even (n / d) then n / d else n / d + 1
  end.

(** The Number value for the rational num/den, both positive: round to
    nearest, ties to even, in the double format. *)
Definition round (negative : bool) (num den : Z) : number :=
  let p := ilog2 num den in
  let e := Z.max (p - 52) (-1074) in
  let m := rne (num * pow2 (- e)) (den * pow2 e) in
  let e' := if m =? 2 ^ 53 then e + 1 else e in
  let m' := if m =? 2 ^ 53 then 2 ^ 52 else m in
  if 971 <? e' then Infinity negative
  else match m' with
       | Zpos q => Finite negative q e'
       | _ => Zero negative
       end.

(** The Number value for [d] times ten to the [q]. *)
Definition decimal (negative : bool) (d q : Z) : number :=
  if d <=? 0 then Zero negative
  else round negative (d * pow10 q) (pow10 (- q)).

(** The Number value for an integer. *)
Definition of_Z (z : Z) : number :=
  match z with
  | Z0 => Zero false
  | Zpos _ => round false z 1
  | Zneg p => round true (Zpos p) 1
  end.

(** The integer that a Number is, if it is one. *)
Definition integer_value (x : number) : option Z :=
  match x with
  | Zero _ => Some 0
  | Finite negative m e =>
      let n := Zpos m * pow2 e in
      let d := pow2 (- e) in
      if n mod d =? 0 then Some (if negative then - (n / d) else n / d)
      else None
  | _ => None
  end.

(** *** [Number::toString] and number tokens *)

(** Decimal digits, most significant first. *)
Definition val (ds : list N) : N := fold_left (fun a d => 10 * a + d)%N ds 0%N.

Fixpoint to_digits_from (fuel : nat) (n : N) (acc : list N) : list N :=
  match fuel with
  | O => n :: acc
  | S f => if (n <? 10)%N then n :: acc
           else to_digits_from f (n / 10)%N ((n mod 10)%N :: acc)
  end.

Definition to_digits (n : N) : list N :=
  to_digits_from (N.to_nat (N.log2 n)) n [].

Definition digit_chars (ds : list N) : jsstring := List.map (N.add 48) ds.

Definition is_digit (c : N) : bool := ((48 <=? c) && (c <=? 57))%N.

(** A digit string of a positive integer: not empty, digits only, no
    leading zero. *)
Definition good (ds : list N) : bool :=
  match ds with
  | d :: _ => negb (d =? 0)%N && forallb (fun x => x <? 10)%N ds
  | [] => false
  end.

Definition exponent_chars (e : Z) : jsstring :=
  (if e <? 0 then 45%N else 43%N) :: digit_chars (to_digits (Z.abs_N e)).

(** Steps 6 to 10 of [Number::toString] for radix 10, on the digits of
    [s] and the exponent [n]. *)
Definition format (ds : list N) (n : Z) : jsstring :=
  let k := Z.of_nat (List.length ds) in
  if (k <=? n) && (n <=? 21) then
    digit_chars (ds ++ repeat 0%N (Z.to_nat (n - k)))
  else if (0 <? n) && (n <=? 21) then
    digit_chars (take (Z.to_nat n) ds) ++ 46%N :: digit_chars (drop (Z.to_nat n) ds)
  else if (-6 <? n) && (n <=? 0) then
    48%N :: 46%N :: digit_chars (repeat 0%N (Z.to_nat (- n)) ++ ds)
  else
    match ds with
    | [] => []
    | [d] => digit_chars [d] ++ 101%N :: exponent_chars (n - 1)
    | d :: r => digit_chars [d] ++ 46%N :: digit_chars r
                  ++ 101%N :: exponent_chars (n - 1)
    end.

(** [n] with 10^(n-1) <= num/den < 10^n. *)
Definition order10 (num den : Z) : Z :=
  let t := Z.of_nat (List.length (to_digits (Z.to_N num)))
           - Z.of_nat (List.length (to_digits (Z.to_N den))) in
  if den * pow10 t <=? num * pow10 (- t) then t + 1 else t.

(** The digits [ds] with the exponent [n] denote [x]. *)
Definition denotes (negative : bool) (x : number) (c : list N * Z) : bool :=
  good (fst c) &&
  bool_decide (decimal negative (Z.of_N (val (fst c)))
                 (snd c - Z.of_nat (List.length (fst c))) = x).

(** The numbers of [k] digits next to num/den, the nearer one first (the
    even one when they are as near), when they denote [x]. *)
Definition candidate (negative : bool) (x : number) (num den : Z) (k : Z)
  : option (list N * Z) :=
  let n := order10 num den in
  let a := num * pow10 (k - n) in
  let b := den * pow10 (n - k) in
  let lo := a / b in
  let below := (to_digits (Z.to_N lo), n) in
  let above := if lo + 1 =? 10 ^ k then (to_digits (Z.to_N (10 ^ (k - 1))), n + 1)
               else (to_digits (Z.to_N (lo + 1)), n) in
  let first_below :=
    match 2 * (a mod b) ?= b with
    | Lt => true
    | Gt => false
    | Eq => Z.even lo
    end in
  let c1 := if first_below then below else above in
  let c2 := if first_below then above else below in
  if denotes negative x c1 then Some c1
  else if denotes negative x c2 then Some c2
  else None.

(** The decimal expansion of m * 2^e in full. *)
Definition exact_digits (m : positive) (e : Z) : list N * Z :=
  let ds := to_digits (Z.to_N (Zpos m * pow2 e * 5 ^ Z.max 0 (- e))) in
  (ds, Z.of_nat (List.length ds) + Z.min 0 e).

(** As few digits as denote the number: seventeen always do, so that the
    last case is never reached; it makes the function total without that
    theorem. *)
Fixpoint shortest_from (fuel : nat) (k : Z) (negative : bool)
         (m : positive) (e : Z) : list N * Z :=
  match fuel with
  | O => exact_digits m e
  | S f =>
      match candidate negative (Finite negative m e)
              (Zpos m * pow2 e) (pow2 (- e)) k with
      | Some c => c
      | None => shortest_from f (k + 1) negative m e
      end
  end.

Definition shortest := shortest_from 17 1.

(** [Number::toString(x)] with radix 10. *)
Definition number_to_string (x : number) : jsstring :=
  match x with
  | NaN => str "NaN"
  | Infinity negative =>
      (if negative then [45%N] else []) ++ str "Infinity"
  | Zero _ => str "0"
  | Finite negative m e =>
      let '(ds, n) := shortest negative m e in
      (if negative then [45%N] else []) ++ format ds n
  end.

(** *** Reading a number token *)

Fixpoint read_digits (s : jsstring) : list N * jsstring :=
  match s with
  | [] => ([], [])
  | c :: r =>
      if is_digit c then
        let '(ds, r') := read_digits r in ((c - 48)%N :: ds, r')
      else ([], s)
  end.

Definition leading_zero (ds : list N) : bool :=
  match ds with
  | d :: _ :: _ => (d =? 0)%N
  | _ => false
  end.

Definition no_digits (ds : list N) : bool :=
  match ds with [] => true | _ => false end.

(** An optional minus sign. *)
Definition split_sign (s : jsstring) : bool * jsstring :=
  match s with
  | c :: r => if (c =? 45)%N then (true, r) else (false, s)
  | [] => (false, s)
  end.

(** An optional fraction: a point and at least one digit. *)
Definition read_fraction (s : jsstring) : option (list N * jsstring) :=
  match s with
  | c :: r =>
      if (c =? 46)%N then
        let '(ds, r') := read_digits r in
        if no_digits ds then None else Some (ds, r')
      else Some ([], s)
  | [] => Some ([], s)
  end.

(** An optional exponent: [e] or [E], an optional sign and at least one
    digit. *)
Definition read_exponent (s : jsstring) : option (Z * jsstring) :=
  match s with
  | c :: r =>
      if (c =? 101)%N || (c =? 69)%N then
        let '(negative, r1) :=
          match r with
          | c1 :: r' =>
              if (c1 =? 45)%N then (true, r')
              else if (c1 =? 43)%N then (false, r')
              else (false, r)
          | [] => (false, r)
          end in
        let '(ds, r2) := read_digits r1 in
        if no_digits ds then None
        else Some (if negative then - Z.of_N (val ds) else Z.of_N (val ds), r2)
      else Some (0, s)
  | [] => Some (0, s)
  end.

(** A JSON number token and its value: the Number value for the decimal
    it denotes. *)
Definition read_unsigned (negative : bool) (s1 : jsstring)
  : option (number * jsstring) :=
  let '(ip, r1) := read_digits s1 in
  if no_digits ip || leading_zero ip then None
  else
    match read_fraction r1 with
    | None => None
    | Some (fp, r2) =>
        match read_exponent r2 with
        | None => None
        | Some (ex, r3) =>
            Some (decimal negative (Z.of_N (val (ip ++ fp)))
                    (ex - Z.of_nat (List.length fp)), r3)
        end
    end.

Definition read_number (s : jsstring) : option (number * jsstring) :=
  let '(negative, s1) := split_sign s in read_unsigned negative s1.

(** What may follow a number token: no digit, point or exponent mark. *)
Definition number_end (rest : jsstring) : bool :=
  match rest with
  | [] => true
  | c :: _ => negb (is_digit c || (c =? 46)%N || (c =? 101)%N || (c =? 69)%N)
  end.

Definition is_finite (x : number) : bool :=
  match x with
  | Zero _ | Finite _ _ _ => true
  | _ => false
  end.

(** A number that [JSON.stringify] writes and [JSON.parse] reads back:
    a finite double other than -0. *)
Definition exportable (x : number) : bool :=
  match x with
  | Zero negative => negb negative
  | Finite _ _ _ => is_double x
  | _ => false
  end.

(** The value of the digits [ds] that follow digits of value [a]. *)
Definition val_from (a : N) (ds : list N) : N :=
  fold_left (fun a d => 10 * a + d)%N ds a.

(** A text that does not go on with a digit. *)
Definition no_digit_head (rest : jsstring) : bool :=
  match rest with [] => true | c :: _ => negb (is_digit c) end.

End Number.
Import Number.

(** ** JSON values, [JSON.stringify] and [JSON.parse] *)

Module JSON.

Inductive json : Type :=
| JNull
| JBool (b : bool)
| JNum (x : number)
| JStr (s : jsstring)
| JArr (l : list json)
| JObj (kvs : list (jsstring * json)).

(** *** Objects: property lookup and assignment *)

(** [o[k]], [None] standing for [undefined]. *)
Fixpoint get (k : jsstring) (kvs : list (jsstring * json)) : option json :=
  match kvs with
  | [] => None
  | (k', v) :: r => if decide (k = k') then Some v else get k r
  end.

(** The array index that a property key is, if it is one: a canonical
    numeric string below 2^32 - 1. *)
Definition array_index (k : jsstring) : option N :=
  match read_digits k with
  | (ds, []) =>
      if no_digits ds || leading_zero ds then None
      else if val ds <=? 4294967294 then Some (val ds) else None
  | _ => None
  end.

(** A new property whose key is the array index [i]: the own property
    keys are enumerated with the array indices first, in ascending order. *)
Fixpoint add_index (i : N) (k : jsstring) (v : json)
         (kvs : list (jsstring * json)) : list (jsstring * json) :=
  match kvs with
  | [] => [(k, v)]
  | (k', v') :: r =>
      match array_index k' with
      | Some j => if i <? j then (k, v) :: kvs else (k', v') :: add_index i k v r
      | None => (k, v) :: kvs
      end
  end.

(** A new value for an existing property, which keeps its place. *)
Fixpoint update (k : jsstring) (v : json) (kvs : list (jsstring * json))
  : list (jsstring * json) :=
  match kvs with
  | [] => []
  | (k', v') :: r =>
      if decide (k = k') then (k', v) :: r else (k', v') :: update k v r
  end.

(** [o[k] = v] on an ordinary object, as [CreateDataProperty] does it: an
    existing property keeps its place; a new array index goes among the
    array indices; any other new key goes last. *)
Definition set_prop (k : jsstring) (v : json) (kvs : list (jsstring * json))
  : list (jsstring * json) :=
  match get k kvs with
  | Some _ => update k v kvs
  | None =>
      match array_index k with
      | Some i => add_index i k v kvs
      | None => kvs ++ [(k, v)]
      end
  end.

Definition field (k : String.string) (v : json) : option json :=
  match v with
  | JObj kvs => get (str k) kvs
  | _ => None
  end.

(** *** Serialisation *)

Definition hex_digit (n : N) : N := if n <? 10 then 48 + n else 87 + n.

(** [UnicodeEscape]: a backslash, [u] and four lowercase hex digits. *)
Definition unicode_escape (c : N) : jsstring :=
  [92; 117; hex_digit (c / 4096 mod 16); hex_digit (c / 256 mod 16);
   hex_digit (c / 16 mod 16); hex_digit (c mod 16)].

Definition is_high_surrogate (c : N) : bool := (55296 <=? c) && (c <=? 56319).
Definition is_low_surrogate (c : N) : bool := (56320 <=? c) && (c <=? 57343).

(** One code unit that is not a surrogate, as [QuoteJSONString] writes it. *)
Definition quote_unit (c : N) : jsstring :=
  if c =? 8 then [92; 98]
  else if c =? 9 then [92; 116]
  else if c =? 10 then [92; 110]
  else if c =? 12 then [92; 102]
  else if c =? 13 then [92; 114]
  else if c =? 34 then [92; 34]
  else if c =? 92 then [92; 92]
  else if c <? 32 then unicode_escape c
  else [c].

(** The code points of the string in turn: a surrogate pair is copied, a
    lone surrogate is escaped. *)
Fixpoint quote_units (s : jsstring) : jsstring :=
  match s with
  | [] => []
  | c :: r =>
      if is_high_surrogate c then
        match r with
        | c2 :: r2 =>
            if is_low_surrogate c2 then c :: c2 :: quote_units r2
            else unicode_escape c ++ quote_units r
        | [] => unicode_escape c
        end
      else if is_low_surrogate c then unicode_escape c ++ quote_units r
      else quote_unit c ++ quote_units r
  end.

(** [QuoteJSONString] *)
Definition quote (s : jsstring) : jsstring :=
  dquote :: quote_units s ++ [dquote].

Fixpoint join (sep : jsstring) (items : list jsstring) : jsstring :=
  match items with
  | [] => []
  | [x] => x
  | x :: r => x ++ sep ++ join sep r
  end.

(** The common tail of [SerializeJSONArray] and [SerializeJSONObject]:
    [ind] is the indentation of the enclosing level (stepback). *)
Definition wrap (gap ind : jsstring) (open close : N)
           (items : list jsstring) : jsstring :=
  match items with
  | [] => [open; close]
  | _ =>
      match gap with
      | [] => open :: join [44] items ++ [close]
      | _ => open :: lf :: (ind ++ gap)
               ++ join (44 :: lf :: ind ++ gap) items
               ++ lf :: ind ++ [close]
      end
  end.

Definition member (gap : jsstring) (k : jsstring) (v : jsstring) : jsstring :=
  quote k ++ 58 :: match gap with [] => v | _ => 32 :: v end.

(** [SerializeJSONProperty] with indentation unit [gap] at indentation
    [ind]: a number that is not finite is written [null]. *)
Fixpoint ser (gap ind : jsstring) (v : json) {struct v} : jsstring :=
  match v with
  | JNull => str "null"
  | JBool true => str "true"
  | JBool false => str "false"
  | JNum x => if is_finite x then number_to_string x else str "null"
  | JStr s => quote s
  | JArr l =>
      wrap gap ind 91 93 (List.map (ser gap (ind ++ gap)) l)
  | JObj kvs =>
      wrap gap ind 123 125
        (List.map (fun kv => member gap (fst kv) (ser gap (ind ++ gap) (snd kv)))
                  kvs)
  end.

(** [JSON.stringify(v, null, space)] with a numeric [space]: the gap is
    that many spaces, at most ten. *)
Definition stringify (v : json) (space : nat) : jsstring :=
  ser (repeat 32 (Nat.min 10 space)) [] v.

(** *** Parsing *)

Definition is_json_ws (c : N) : bool :=
  (c =? 9) || (c =? 10) || (c =? 13) || (c =? 32).

Fixpoint skip_ws (s : jsstring) : jsstring :=
  match s with
  | c :: r => if is_json_ws c then skip_ws r else s
  | [] => []
  end.

Definition hex_value (c : N) : option N :=
  if (48 <=? c) && (c <=? 57) then Some (c - 48)
  else if (97 <=? c) && (c <=? 102) then Some (c - 87)
  else if (65 <=? c) && (c <=? 70) then Some (c - 55)
  else None.

Definition hex4 (h1 h2 h3 h4 : N) : option N :=
  match hex_value h1, hex_value h2, hex_value h3, hex_value h4 with
  | Some a, Some b, Some c, Some d => Some (a * 4096 + b * 256 + c * 16 + d)
  | _, _, _, _ => None
  end.

(** The character after a backslash, other than [u]. *)
Definition simple_escape (e : N) : option N :=
  if e =? 34 then Some 34
  else if e =? 92 then Some 92
  else if e =? 47 then Some 47
  else if e =? 98 then Some 8
  else if e =? 102 then Some 12
  else if e =? 110 then Some 10
  else if e =? 114 then Some 13
  else if e =? 116 then Some 9
  else None.

Definition cons_fst {A B} (a : A) (r : option (list A * B))
  : option (list A * B) :=
  match r with
  | Some (l, b) => Some (a :: l, b)
  | None => None
  end.

(** A string token after its opening quote: the code units up to the
    closing quote, and what follows it. *)
Fixpoint parse_string_body (s : jsstring) : option (jsstring * jsstring) :=
  match s with
  | [] => None
  | c :: r =>
      if c =? 34 then Some ([], r)
      else if c =? 92 then
        match r with
        | [] => None
        | e :: r1 =>
            if e =? 117 then
              match r1 with
              | h1 :: h2 :: h3 :: h4 :: r2 =>
                  match hex4 h1 h2 h3 h4 with
                  | Some u => cons_fst u (parse_string_body r2)
                  | None => None
                  end
              | _ => None
              end
            else
              match simple_escape e with
              | Some u => cons_fst u (parse_string_body r1)
              | None => None
              end
        end
      else if c <? 32 then None
      else cons_fst c (parse_string_body r)
  end.

(** A number token. *)
Definition parse_number (s : jsstring) : option (json * jsstring) :=
  match read_number s with
  | Some (x, r) => Some (JNum x, r)
  | None => None
  end.

Definition strip_prefix (p s : jsstring) : option jsstring :=
  if starts_with p s then Some (drop (List.length p) s) else None.

(** [JSON.parse] builds an object property by property: a repeated key
    overwrites the earlier value. *)
Definition build_object (members : list (jsstring * json))
  : list (jsstring * json) :=
  fold_left (fun o kv => set_prop (fst kv) (snd kv) o) members [].

(** Recursive descent; [fuel] bounds the depth of the calls. *)
Fixpoint parse_value (fuel : nat) (s : jsstring) {struct fuel}
  : option (json * jsstring) :=
  match fuel with
  | O => None
  | S n =>
      match skip_ws s with
      | [] => None
      | c :: r =>
          if c =? 34 then
            match parse_string_body r with
            | Some (t, r') => Some (JStr t, r')
            | None => None
            end
          else if c =? 91 then
            match skip_ws r with
            | c' :: r' =>
                if c' =? 93 then Some (JArr [], r')
                else match parse_elements n r with
                     | Some (l, r'') => Some (JArr l, r'')
                     | None => None
                     end
            | [] => None
            end
          else if c =? 123 then
            match skip_ws r with
            | c' :: r' =>
                if c' =? 125 then Some (JObj [], r')
                else match parse_members n r with
                     | Some (l, r'') => Some (JObj (build_object l), r'')
                     | None => None
                     end
            | [] => None
            end
          else if c =? 110 then
            match strip_prefix (str "ull") r with
            | Some r' => Some (JNull, r')
            | None => None
            end
          else if c =? 116 then
            match strip_prefix (str "rue") r with
            | Some r' => Some (JBool true, r')
            | None => None
            end
          else if c =? 102 then
            match strip_prefix (str "alse") r with
            | Some r' => Some (JBool false, r')
            | None => None
            end
          else parse_number (c :: r)
      end
  end

with parse_elements (fuel : nat) (s : jsstring) {struct fuel}
  : option (list json * jsstring) :=
  match fuel with
  | O => None
  | S n =>
      match parse_value n s with
      | None => None
      | Some (v, r) =>
          match skip_ws r with
          | c :: r' =>
              if c =? 44 then cons_fst v (parse_elements n r')
              else if c =? 93 then Some ([v], r')
              else None
          | [] => None
          end
      end
  end

with parse_members (fuel : nat) (s : jsstring) {struct fuel}
  : option (list (jsstring * json) * jsstring) :=
  match fuel with
  | O => None
  | S n =>
      match skip_ws s with
      | c :: r =>
          if c =? 34 then
            match parse_string_body r with
            | None => None
            | Some (k, r1) =>
                match skip_ws r1 with
                | c1 :: r2 =>
                    if c1 =? 58 then
                      match parse_value n r2 with
                      | None => None
                      | Some (v, r3) =>
                          match skip_ws r3 with
                          | c3 :: r4 =>
                              if c3 =? 44 then cons_fst (k, v) (parse_members n r4)
                              else if c3 =? 125 then Some ([(k, v)], r4)
                              else None
                          | [] => None
                          end
                      end
                    else None
                | [] => None
                end
            end
          else None
      | [] => None
      end
  end.

(** [JSON.parse(s)]: one value, then nothing but white space.  [None]
    stands for the [SyntaxError]. *)
Definition parse (s : jsstring) : option json :=
  match parse_value (2 * List.length s + 2) s with
  | Some (v, r) => match skip_ws r with [] => Some v | _ => None end
  | None => None
  end.

(** *** Spread *)

Fixpoint index_from (i : N) (l : list json) : list (jsstring * json) :=
  match l with
  | [] => []
  | x :: r => (digit_chars (to_digits i), x) :: index_from (i + 1) r
  end.

(** The own enumerable properties that [{...v}] copies. *)
Definition spread (v : json) : list (jsstring * json) :=
  match v with
  | JObj kvs => kvs
  | JArr l => index_from 0 l
  | JStr s => index_from 0 (List.map (fun c => JStr [c]) s)
  | _ => []
  end.

(** *** Values that are written and read back *)

(** [a] may come before [b] among the keys of an object: an array index
    before a greater one and before any other key; two other keys in any
    order, if they differ. *)
Definition key_before (a b : jsstring) : bool :=
  match array_index a, array_index b with
  | Some i, Some j => i <? j
  | Some _, None => true
  | None, Some _ => false
  | None, None => negb (bool_decide (a = b))
  end.

(** The keys of an object in the order of enumeration, none twice. *)
Fixpoint ordered (ks : list jsstring) : bool :=
  match ks with
  | [] => true
  | k :: r => forallb (key_before k) r && ordered r
  end.

(** Values whose objects have their keys in the order of enumeration and
    whose numbers are finite doubles other than -0, at every depth. *)
Fixpoint plain (v : json) : Prop :=
  match v with
  | JNum x => exportable x = true
  | JArr l => fold_right (fun x P => plain x /\ P) True l
  | JObj kvs =>
      ordered (List.map fst kvs) = true /\
      fold_right (fun kv P => plain (snd kv) /\ P) True kvs
  | _ => True
  end.

(** *** Measures used to reason about the parser *)

(** Fuel that [parse_value] needs to read a serialised value back. *)
Fixpoint weight (v : json) : nat :=
  match v with
  | JArr l => S (fold_right (fun x n => S (weight x + n)) O l)
  | JObj kvs => S (fold_right (fun kv n => S (weight (snd kv) + n)) O kvs)
  | _ => 1%nat
  end.

Fixpoint total_length (items : list jsstring) : nat :=
  match items with
  | [] => O
  | x :: r => (List.length x + total_length r)%nat
  end.

(** What follows a value inside a serialisation: nothing, a comma, a
    closing bracket or a line feed. *)
Definition stop (rest : jsstring) : bool :=
  match rest with
  | [] => true
  | c :: _ => (c =? 44) || (c =? 93) || (c =? 125) || (c =? 10)
  end.

(** The first code unit of a serialised value. *)
Definition value_start (c : N) : bool :=
  (c =? 34) || (c =? 91) || (c =? 123) || (c =? 110) || (c =? 116) ||
  (c =? 102) || (c =? 45) || ((48 <=? c) && (c <=? 57)).

(** The white space [wrap] puts before each item and before the closing
    bracket. *)
Definition pre (gap ind : jsstring) : jsstring :=
  match gap with [] => [] | _ => lf :: ind ++ gap end.
Definition post (gap ind : jsstring) : jsstring :=
  match gap with [] => [] | _ => lf :: ind end.

(** [v], serialised at any indentation and followed by [rest], is read
    back by [parse_value], which leaves [rest]. *)
Definition reads_back (v : json) : Prop :=
  plain v -> forall gap ind rest fuel,
    forallb is_json_ws gap = true -> forallb is_json_ws ind = true ->
    stop rest = true -> (weight v <= fuel)%nat ->
    parse_value fuel (ser gap ind v ++ rest) = Some (v, rest).

Section json_induction.
Variable P : json -> Prop.
Hypothesis HNull : P JNull.
Hypothesis HBool : forall b, P (JBool b).
Hypothesis HNum : forall x, P (JNum x).
Hypothesis HStr : forall s, P (JStr s).
Hypothesis HArr : forall l, Forall P l -> P (JArr l).
Hypothesis HObj :
  forall kvs, Forall (fun kv => P (snd kv)) kvs -> P (JObj kvs).

(** Induction on a value with the hypotheses for the members of arrays
    and objects. *)
Fixpoint json_nested_ind (v : json) : P v :=
  match v with
  | JNull => HNull
  | JBool b => HBool b
  | JNum x => HNum x
  | JStr s => HStr s
  | JArr l =>
      HArr l ((fix go (l : list json) : Forall P l :=
                 match l with
                 | [] => List.Forall_nil P
                 | x :: r =>
                     @List.Forall_cons _ P x r (json_nested_ind x) (go r)
                 end) l)
  | JObj kvs =>
      HObj kvs ((fix go (l : list (jsstring * json))
                  : Forall (fun kv => P (snd kv)) l :=
                   match l with
                   | [] => List.Forall_nil _
                   | kv :: r =>
                       @List.Forall_cons _ (fun kv => P (snd kv)) kv r
                         (json_nested_ind (snd kv)) (go r)
                   end) kvs)
  end.
End json_induction.

End JSON.
Import JSON.

(** ** The result of an analysis *)

Module Result.

(** [interface AnalysisResult] of the client. *)
Record PricingOverview := mkPricing {
  totalAmount : jsstring;
  breakdown : list jsstring;
  paymentTerms : jsstring
}.

Record Metadata := mkMetadata {
  fileName : jsstring;
  fileSize : number;
  processedAt : jsstring;
  textLength : number
}.

Record AnalysisResult := mkResult {
  executiveSummary : jsstring;
  keyRequirements : list jsstring;
  pricingOverview : PricingOverview;
  recommendedNextSteps : list jsstring;
  metadata : Metadata
}.

Definition strings_to_json (l : list jsstring) : json :=
  JArr (List.map JStr l).

Definition pricing_to_json (p : PricingOverview) : json :=
  JObj [ (str "totalAmount", JStr (totalAmount p));
         (str "breakdown", strings_to_json (breakdown p));
         (str "paymentTerms", JStr (paymentTerms p)) ].

Definition metadata_to_json (m : Metadata) : json :=
  JObj [ (str "fileName", JStr (fileName m));
         (str "fileSize", JNum (fileSize m));
         (str "processedAt", JStr (processedAt m));
         (str "textLength", JNum (textLength m)) ].

(** The object an [AnalysisResult] is at run time, its properties in the
    order of the object literals that create it. *)
Definition to_json (r : AnalysisResult) : json :=
  JObj [ (str "executiveSummary", JStr (executiveSummary r));
         (str "keyRequirements", strings_to_json (keyRequirements r));
         (str "pricingOverview", pricing_to_json (pricingOverview r));
         (str "recommendedNextSteps", strings_to_json (recommendedNextSteps r));
         (str "metadata", metadata_to_json (metadata r)) ].

Definition as_string (v : json) : option jsstring :=
  match v with JStr s => Some s | _ => None end.

Definition as_number (v : json) : option number :=
  match v with JNum x => Some x | _ => None end.

Fixpoint all_strings (l : list json) : option (list jsstring) :=
  match l with
  | [] => Some []
  | x :: r =>
      s ← as_string x; t ← all_strings r; Some (s :: t)
  end.

Definition as_strings (v : json) : option (list jsstring) :=
  match v with JArr l => all_strings l | _ => None end.

Definition pricing_of_json (v : json) : option PricingOverview :=
  a ← field "totalAmount" v ≫= as_string;
  b ← field "breakdown" v ≫= as_strings;
  c ← field "paymentTerms" v ≫= as_string;
  Some (mkPricing a b c).

Definition metadata_of_json (v : json) : option Metadata :=
  a ← field "fileName" v ≫= as_string;
  b ← field "fileSize" v ≫= as_number;
  c ← field "processedAt" v ≫= as_string;
  d ← field "textLength" v ≫= as_number;
  Some (mkMetadata a b c d).

(** Reading a value as an [AnalysisResult]: every declared property is
    present with the declared type. *)
Definition of_json (v : json) : option AnalysisResult :=
  a ← field "executiveSummary" v ≫= as_string;
  b ← field "keyRequirements" v ≫= as_strings;
  c ← field "pricingOverview" v ≫= pricing_of_json;
  d ← field "recommendedNextSteps" v ≫= as_strings;
  e ← field "metadata" v ≫= metadata_of_json;
  Some (mkResult a b c d e).

(** The value has the AnalysisResult shape. *)
Definition has_shape (v : json) : bool :=
  match of_json v with Some _ => true | None => false end.

(** The shape the model is asked for: an AnalysisResult without its
    metadata. *)
Definition has_content_shape (v : json) : bool :=
  match field "executiveSummary" v ≫= as_string,
        field "keyRequirements" v ≫= as_strings,
        field "pricingOverview" v ≫= pricing_of_json,
        field "recommendedNextSteps" v ≫= as_strings with
  | Some _, Some _, Some _, Some _ => true
  | _, _, _, _ => false
  end.

(** The two numbers of the result are finite doubles other than -0, as
    every byte size and every length is. *)
Definition exportable_result (r : AnalysisResult) : Prop :=
  exportable (fileSize (metadata r)) = true /\
  exportable (textLength (metadata r)) = true.

End Result.
Import Result.

(** ** The analysis service: [backend/src/server.js] *)

Module Server.

(** A [Buffer]: its length and the byte at each index. *)
Record Buffer := mkBuffer {
  byteLength : N;
  byteAt : N -> N
}.

(** A file part of the multipart body that has a file name, as busboy
    hands it to multer. *)
Record FilePart := mkPart {
  fieldname : jsstring;
  originalname : jsstring;
  mimetype : jsstring;
  content : Buffer
}.

(** [req.file.size] is the number of bytes multer has stored. *)
Definition size (f : FilePart) : Z := Z.of_N (byteLength (content f)).

(** The body of a request, as the middleware sees it: a multipart body
    with its file parts in order; a body of media type [application/json],
    with the message of the error that [express.json()] raises on it
    (malformed JSON, more than [10mb], a charset it does not support), if
    it raises one; or no body, or one of another media type. *)
Inductive Payload : Type :=
| Multipart (ps : list FilePart)
| JsonBody (failure : option jsstring)
| OtherBody.

(** A request to [/api/]: its body, and the number of requests the rate
    limiter has already counted for the client address in the current
    window. *)
Record Request := mkRequest {
  prior_hits : N;
  payload : Payload
}.

(** The file parts of the body, none when the body is not multipart. *)
Definition parts (req : Request) : list FilePart :=
  match payload req with
  | Multipart ps => ps
  | _ => []
  end.

Record Response := mkResponse {
  status : Z;
  body : json
}.

(** The result of awaiting an external service. *)
Inductive Outcome (A : Type) : Type :=
| Returned (a : A)
| Thrown (message : jsstring).
Arguments Returned {A} a.
Arguments Thrown {A} message.

(** What surrounds a request: the PDF text extractor, the model client
    ([null] when no usable API key was configured at start-up; the reply
    is [completion.choices[0].message.content], which may be [null]) and
    the clock ([new Date().toISOString()]). *)
Record Env := mkEnv {
  pdfParse : Buffer -> Outcome jsstring;
  openai : option (jsstring -> Outcome (option jsstring));
  now : jsstring
}.

(** The calls a request makes to the external services, in order. *)
Inductive Call : Type :=
| CallPdfParse (b : Buffer)
| CallModel (prompt : jsstring).

Definition is_model (c : Call) : bool :=
  match c with CallModel _ => true | CallPdfParse _ => false end.

(** An error passed to [next]. *)
Record ExpressError := mkError {
  is_multer_error : bool;
  code : jsstring;
  message : jsstring
}.

(** *** Body parser: [app.use(express.json({ limit: '10mb' }))] *)

(** It is mounted before the rate limiter and reads the bodies of media
    type [application/json] only; what it raises goes to the error
    handling middleware. *)
Definition express_json (req : Request) : option ExpressError :=
  match payload req with
  | JsonBody (Some msg) => Some (mkError false [] msg)
  | _ => None
  end.

(** *** Rate limiter: [app.use('/api/', limiter)] *)

Definition rate_max : N := 10.

Definition limiter (req : Request) : option Response :=
  if rate_max <? prior_hits req + 1
  then Some (mkResponse 429
               (JStr (str "Too many requests from this IP, please try again later.")))
  else None.

(** *** Upload: [upload.single('pdf')] *)

Definition fileSize_limit : N := 10 * 1024 * 1024.

(** [fileFilter]: the error given to [cb], if any. *)
Definition fileFilter (f : FilePart) : option ExpressError :=
  if decide (mimetype f = str "application/pdf") then None
  else Some (mkError false [] (str "Only PDF files are allowed!")).

(** Multer takes the file parts in turn.  A part in another field, or a
    second part in the field, is unexpected; then the filter decides; then
    the part is stored unless its bytes reach [limits.fileSize]: busboy
    reports the limit when the count of the bytes read equals it, so a
    file of exactly that size is refused.  The first error ends the
    upload. *)
Fixpoint upload_single (field : jsstring) (ps : list FilePart)
         (stored : option FilePart) : ExpressError + option FilePart :=
  match ps with
  | [] => inr stored
  | p :: r =>
      if negb (bool_decide (fieldname p = field)) || bool_decide (is_Some stored)
      then inl (mkError true (str "LIMIT_UNEXPECTED_FILE") (str "Unexpected field"))
      else
        match fileFilter p with
        | Some e => inl e
        | None =>
            if fileSize_limit <=? byteLength (content p)
            then inl (mkError true (str "LIMIT_FILE_SIZE") (str "File too large"))
            else upload_single field r (Some p)
        end
  end.

Definition error_body (msg : String.string) : json :=
  JObj [ (str "error", JStr (str msg)) ].

(** *** Error handling middleware *)

Definition error_middleware (e : ExpressError) : Response :=
  if is_multer_error e && bool_decide (code e = str "LIMIT_FILE_SIZE")
  then mkResponse 400 (error_body "File too large. Maximum size is 10MB.")
  else mkResponse 500 (error_body "Internal server error").

(** *** The route handler *)

(** The handler runs until it responds or throws, and records its calls. *)
Inductive Flow (A : Type) : Type :=
| Go (a : A)
| Reply (r : Response)
| Raise (message : jsstring).
Arguments Go {A} a.
Arguments Reply {A} r.
Arguments Raise {A} message.

Definition Handler (A : Type) : Type := list Call -> Flow A * list Call.

#[global] Instance Handler_ret : MRet Handler :=
  fun A a log => (Go a, log).

#[global] Instance Handler_bind : MBind Handler :=
  fun A B k m log =>
    match m log with
    | (Go a, log') => k a log'
    | (Reply r, log') => (Reply r, log')
    | (Raise e, log') => (Raise e, log')
    end.

(** [return res.status(..).json(..)] *)
Definition reply {A} (st : Z) (b : json) : Handler A :=
  fun log => (Reply (mkResponse st b), log).

Definition raise {A} (message : jsstring) : Handler A :=
  fun log => (Raise message, log).

(** [await] on an external call. *)
Definition await {A} (c : Call) (o : Outcome A) : Handler A :=
  fun log =>
    (match o with Returned a => Go a | Thrown e => Raise e end, log ++ [c]).

(** [try { .. } catch (error) { .. }] around the whole handler. *)
Definition try_catch (m : Handler Response) (h : jsstring -> Response)
  : Response * list Call :=
  match m [] with
  | (Go r, log) => (r, log)
  | (Reply r, log) => (r, log)
  | (Raise e, log) => (h e, log)
  end.

(** The template literal of the prompt, before and after
    [${extractedText}]. *)
Definition prompt_head : list jsstring :=
    [ [];
      str "You are an expert business analyst. Analyze the following client proposal and extract information EXACTLY as it appears in the document. Do not make assumptions or add information not present in the text.";
      [];
      str "Proposal Text:" ].

Definition prompt_tail : list jsstring :=
    [ [];
      str "INSTRUCTIONS:";
      str "1. Executive Summary: Write exactly 3-5 sentences summarizing the proposal";
      str "2. Key Requirements: List ALL major requirements and asks from the document";
      str "3. Pricing Overview: Extract EXACT pricing information, amounts, and terms as stated";
      str "4. Recommended Next Steps: List the exact next steps mentioned in the proposal";
      [];
      str "Please respond with a valid JSON object in this exact format:";
      str "{";
      str "  " ++ [dquote] ++ str "executiveSummary" ++ [dquote] ++ str ": " ++ [dquote] ++ str "Exactly 3-5 sentences describing what this proposal is about and its main objectives" ++ [dquote] ++ str ",";
      str "  " ++ [dquote] ++ str "keyRequirements" ++ [dquote] ++ str ": [";
      str "    " ++ [dquote] ++ str "List each key requirement or deliverable exactly as mentioned in the document" ++ [dquote];
      str "  ],";
      str "  " ++ [dquote] ++ str "pricingOverview" ++ [dquote] ++ str ": {";
      str "    " ++ [dquote] ++ str "totalAmount" ++ [dquote] ++ str ": " ++ [dquote] ++ str "The exact total amount mentioned in the document with currency" ++ [dquote] ++ str ",";
      str "    " ++ [dquote] ++ str "breakdown" ++ [dquote] ++ str ": [";
      str "      " ++ [dquote] ++ str "List each pricing component with exact amounts as stated in the document" ++ [dquote];
      str "    ],";
      str "    " ++ [dquote] ++ str "paymentTerms" ++ [dquote] ++ str ": " ++ [dquote] ++ str "The exact payment terms mentioned in the document" ++ [dquote];
      str "  },";
      str "  " ++ [dquote] ++ str "recommendedNextSteps" ++ [dquote] ++ str ": [";
      str "    " ++ [dquote] ++ str "List each recommended next step exactly as stated in the document" ++ [dquote];
      str "  ]";
      str "}" ].

Definition prompt (extractedText : jsstring) : jsstring :=
  unlines (prompt_head ++ extractedText :: prompt_tail).

Definition metadata_object (f : FilePart) (extractedText now : jsstring) : json :=
  JObj [ (str "fileName", JStr (originalname f));
         (str "fileSize", JNum (of_Z (size f)));
         (str "processedAt", JStr now);
         (str "textLength", JNum (of_Z (strlen extractedText))) ].

(** [{ ...analysis, metadata: { .. } }] *)
Definition with_metadata (analysis metadata : json) : json :=
  JObj (set_prop (str "metadata") metadata (spread analysis)).

Section Handler.

(** [JSON.parse], [None] standing for the [SyntaxError]. *)
Variable JSON_parse : jsstring -> option json.

Definition handler (env : Env) (file : option FilePart)
  : Response * list Call :=
  try_catch
    (f ← match file with
         | None => reply 400 (error_body "No PDF file uploaded")
         | Some f => mret f
         end;
     extractedText ← await (CallPdfParse (content f))
                           (pdfParse env (content f));
     _ ← (if negb (truthy extractedText)
             || (strlen (trim extractedText) =? 0)%Z
          then reply 400 (error_body "Could not extract text from PDF")
          else mret tt);
     client ← match openai env with
              | None =>
                  reply 503
                    (JObj [ (str "error",
                             JStr (str "AI service configuration error"));
                            (str "message",
                             JStr (str "OpenAI API key not configured. Please set OPENAI_API_KEY in environment variables."));
                            (str "suggestion",
                             JStr (str "Try the demo mode in the frontend for a sample analysis.")) ])
              | Some client => mret client
              end;
     content ← await (CallModel (prompt extractedText))
                     (client (prompt extractedText));
     analysisText ← match content with
                    | Some c => mret (trim c)
                    | None =>
                        raise (str "Cannot read properties of null (reading 'trim')")
                    end;
     analysis ← match JSON_parse analysisText with
                | Some a => mret a
                | None => reply 500 (error_body "Failed to process AI response")
                end;
     reply 200
       (with_metadata analysis
          (metadata_object f extractedText (now env))))
    (fun message =>
       if includes message (str "API key")
       then mkResponse 500 (error_body "AI service configuration error")
       else mkResponse 500 (error_body "Failed to process proposal")).

(** The middleware chain of [POST /api/analyze-proposal]: body parser,
    rate limiter, upload, handler, and the error middleware for what the
    body parser and the upload pass to [next]. *)
Definition analyze_proposal (env : Env) (req : Request)
  : Response * list Call :=
  match express_json req with
  | Some e => (error_middleware e, [])
  | None =>
      match limiter req with
      | Some r => (r, [])
      | None =>
          match upload_single (str "pdf") (parts req) None with
          | inl e => (error_middleware e, [])
          | inr file => handler env file
          end
      end
  end.

End Handler.

(** Some string anywhere in the value contains [code]. *)
Fixpoint mentions (code : jsstring) (v : json) : bool :=
  match v with
  | JStr s => includes s code
  | JArr l => existsb (mentions code) l
  | JObj kvs =>
      existsb (fun kv => includes (fst kv) code || mentions code (snd kv)) kvs
  | _ => false
  end.

End Server.


(** ** The answers of the analysis endpoint *)

Module Outcomes.
Import Server.

(** The [catch] block of the route handler, on the message of the error
    it has caught. *)
Definition caught (message : jsstring) : Response :=
  if includes message (str "API key")
  then mkResponse 500 (error_body "AI service configuration error")
  else mkResponse 500 (error_body "Failed to process proposal").

(** The body of the 503 answer. *)
Definition not_configured_body : json :=
  JObj [ (str "error", JStr (str "AI service configuration error"));
         (str "message",
          JStr (str "OpenAI API key not configured. Please set OPENAI_API_KEY in environment variables."));
         (str "suggestion",
          JStr (str "Try the demo mode in the frontend for a sample analysis.")) ].

(** The answers of the endpoint other than a success: the one of the rate
    limiter, the two of the error handling middleware, and the six of the
    route handler. *)
Definition error_responses : list Response :=
  [ mkResponse 429 (JStr (str "Too many requests from this IP, please try again later."));
    mkResponse 400 (error_body "File too large. Maximum size is 10MB.");
    mkResponse 500 (error_body "Internal server error");
    mkResponse 400 (error_body "No PDF file uploaded");
    mkResponse 400 (error_body "Could not extract text from PDF");
    mkResponse 503 not_configured_body;
    mkResponse 500 (error_body "Failed to process AI response");
    mkResponse 500 (error_body "AI service configuration error");
    mkResponse 500 (error_body "Failed to process proposal") ].

(** A file part that [upload.single('pdf')] stores: it is in the field
    [pdf], the file filter lets it through, and it is below the size
    limit. *)
Definition accepted (f : FilePart) : Prop :=
  fieldname f = str "pdf" /\ mimetype f = str "application/pdf" /\
  byteLength (content f) < fileSize_limit.

End Outcomes.

(** ** The sample content endpoint: [GET /api/sample-content] *)

Module SampleContent.
Import Server.

(** One entry of [structuredContent]. *)
Record DocSection := mkSection {
  title : jsstring;
  content : list jsstring
}.

(** [s.split('\n')] *)
Fixpoint split_lines (s : jsstring) : list jsstring :=
  match s with
  | [] => [[]]
  | c :: r =>
      if c =? lf then [] :: split_lines r
      else match split_lines r with
           | l :: ls => (c :: l) :: ls
           | [] => [[c]]
           end
  end.

Fixpoint skip_digits (s : jsstring) : jsstring :=
  match s with
  | c :: r => if is_digit c then skip_digits r else s
  | [] => []
  end.

(** [s.match(/^\d+\./)] finds a match. *)
Definition numbered (s : jsstring) : bool :=
  match s with
  | c :: r =>
      is_digit c &&
      match skip_digits r with
      | d :: _ => d =? 46
      | [] => false
      end
  | [] => false
  end.

(** The file system, as the handler sees the sample:
    [fs.existsSync(samplePdfPath)] and [fs.readFileSync(samplePdfPath)]. *)
Record SampleFile := mkSampleFile {
  existsSync : bool;
  readFileSync : Outcome Buffer
}.

Section Structure.

(** [String.prototype.toUpperCase] *)
Variable toUpperCase : jsstring -> jsstring.

(** The test for a section header. *)
Definition is_header (trimmedLine : jsstring) : bool :=
  (0 <? strlen trimmedLine)%Z &&
  (bool_decide (trimmedLine = toUpperCase trimmedLine) &&
   (strlen trimmedLine <? 100)%Z &&
   negb (includes trimmedLine (str "$")) &&
   negb (numbered trimmedLine) &&
   negb (includes trimmedLine (str "@"))).

(** One turn of the loop over the lines, on [sections] and
    [currentSection]. *)
Definition scan_line (st : list DocSection * DocSection) (line : jsstring)
  : list DocSection * DocSection :=
  let trimmedLine := trim line in
  if is_header trimmedLine then
    (match content (snd st) with
     | [] => fst st
     | _ => fst st ++ [snd st]
     end,
     mkSection trimmedLine [])
  else
    (fst st,
     mkSection (title (snd st)) (content (snd st) ++ [trimmedLine])).

(** The loop, and the last section added after it. *)
Definition structure (lines : list jsstring) : list DocSection :=
  let st := fold_left scan_line lines ([], mkSection [] []) in
  match content (snd st) with
  | [] => fst st
  | _ => fst st ++ [snd st]
  end.

(** [extractedText.split('\n').filter(line => line.trim().length > 0)] *)
Definition nonblank_lines (extractedText : jsstring) : list jsstring :=
  List.filter (fun line => (0 <? strlen (trim line))%Z)
              (split_lines extractedText).

Definition section_to_json (s : DocSection) : json :=
  JObj [ (str "title", JStr (title s));
         (str "content", JArr (List.map JStr (content s))) ].

Definition sample_body (extractedText : jsstring) (lines : list jsstring)
           (sections : list DocSection) (now : jsstring) : json :=
  JObj [ (str "rawText", JStr extractedText);
         (str "structuredContent", JArr (List.map section_to_json sections));
         (str "metadata",
          JObj [ (str "fileName", JStr (str "Sample.pdf"));
                 (str "totalLines", JNum (of_Z (Z.of_nat (List.length lines))));
                 (str "sectionsCount",
                  JNum (of_Z (Z.of_nat (List.length sections))));
                 (str "processedAt", JStr now) ]) ].

(** The route handler. *)
Definition sample_content_handler (fs : SampleFile) (env : Env)
  : Response * list Call :=
  try_catch
    (_ ← (if existsSync fs then mret tt
          else reply 404 (error_body "Sample PDF not found"));
     pdfBuffer ← match readFileSync fs with
                 | Returned b => mret b
                 | Thrown e => raise e
                 end;
     extractedText ← await (CallPdfParse pdfBuffer) (pdfParse env pdfBuffer);
     _ ← (if negb (truthy extractedText)
             || (strlen (trim extractedText) =? 0)%Z
          then reply 400 (error_body "Could not extract text from sample PDF")
          else mret tt);
     let lines := nonblank_lines extractedText in
     let sections := structure lines in
     reply 200 (sample_body extractedText lines sections (now env)))
    (fun _ => mkResponse 500 (error_body "Failed to process sample PDF")).

(** The route behind the body parser and the rate limiter of [/api/]. *)
Definition sample_content (fs : SampleFile) (env : Env) (req : Request)
  : Response * list Call :=
  match express_json req with
  | Some e => (error_middleware e, [])
  | None =>
      match limiter req with
      | Some r => (r, [])
      | None => sample_content_handler fs env
      end
  end.

(** *** The loop over the lines, seen from outside *)

(** The body lines gathered so far, in order: those of the sections
    pushed, then those of [currentSection]. *)
Definition flat (st : list DocSection * DocSection) : list jsstring :=
  concat (List.map content (fst st)) ++ content (snd st).

(** The lines that are no headers, trimmed. *)
Definition body_lines (lines : list jsstring) : list jsstring :=
  List.filter (fun t => negb (is_header t)) (List.map trim lines).

Definition filled (s : DocSection) : Prop := content s <> [].

Definition headed (s : DocSection) : Prop := is_header (title s) = true.

(** Every title is a header, but the first, which may be empty. *)
Definition well_titled (secs : list DocSection) : Prop :=
  match secs with
  | [] => True
  | s :: r => (title s = [] \/ headed s) /\ Forall headed r
  end.

(** What every turn of the loop keeps. *)
Definition scan_inv (st : list DocSection * DocSection) : Prop :=
  Forall filled (fst st) /\ well_titled (fst st ++ [snd st]).

(** *** The sections, read off the text *)

(** A section is kept when it has content. *)
Definition section_of (title : jsstring) (content : list jsstring)
  : list DocSection :=
  match content with
  | [] => []
  | _ => [mkSection title content]
  end.

(** The lines up to the first header, trimmed. *)
Fixpoint leading_body (lines : list jsstring) : list jsstring :=
  match lines with
  | [] => []
  | l :: r => if is_header (trim l) then [] else trim l :: leading_body r
  end.

(** For each header that a line which is no header follows at once, the
    section of that header with the lines up to the next header. *)
Fixpoint runs (lines : list jsstring) : list DocSection :=
  match lines with
  | [] => []
  | l :: r =>
      if is_header (trim l)
      then section_of (trim l) (leading_body r) ++ runs r
      else runs r
  end.

End Structure.

End SampleContent.

(** ** The client: the [FileUpload] component *)

Module Client.

(** A [File]: name, size in bytes and declared media type. *)
Record File := mkFile {
  name : jsstring;
  size : Z;
  type : jsstring
}.

Inductive ToastKind : Type := ToastSuccess | ToastError.
Definition Toast : Type := ToastKind * jsstring.

(** The two callbacks given to [setTimeout]: the one of [runDemo] and the
    fallback one of [analyzeProposal], which closes over its file. *)
Inductive TimerCallback : Type :=
| DemoTimeout
| FallbackTimeout (f : File).

(** The component: its four state variables, its two refs, and what the
    browser holds for it.  [controllers] is the store of the
    [AbortController] objects ever created, each with [signal.aborted];
    [fetches] are the requests in flight, by the controller whose signal
    they were given, with the file of their closure; [timers] are the
    time-outs scheduled and neither fired nor cleared.  Controllers and
    timers are named by positive numbers, [fresh] being the next one.
    [toasts] are the notifications shown so far, latest first. *)
Record State := mkState {
  file : option File;
  loading : bool;
  result : option AnalysisResult;
  error : option jsstring;
  abortControllerRef : option positive;
  timeoutRef : option positive;
  controllers : gmap positive bool;
  fetches : gmap positive File;
  timers : gmap positive TimerCallback;
  fresh : positive;
  toasts : list Toast
}.

Definition setFile (v : option File) (st : State) : State :=
  mkState
    v (loading st) (result st) (error st) (abortControllerRef st)
    (timeoutRef st) (controllers st) (fetches st) (timers st) (fresh st)
    (toasts st).

Definition setLoading (v : bool) (st : State) : State :=
  mkState
    (file st) v (result st) (error st) (abortControllerRef st)
    (timeoutRef st) (controllers st) (fetches st) (timers st) (fresh st)
    (toasts st).

Definition setResult (v : option AnalysisResult) (st : State) : State
    :=
  mkState (file st) (loading st) v (error st) (abortControllerRef st)
    (timeoutRef st) (controllers st) (fetches st) (timers st) (fresh st) (toasts
    st).

Definition setError (v : option jsstring) (st : State) : State
    :=
  mkState (file st) (loading st) (result st) v (abortControllerRef st)
    (timeoutRef st) (controllers st) (fetches st) (timers st) (fresh st) (toasts
    st).

Definition set_abortControllerRef (v : option positive) (st : State) : State
    :=
  mkState (file st) (loading st) (result st) (error st) v (timeoutRef st)
    (controllers st) (fetches st) (timers st) (fresh st) (toasts
    st).

Definition set_timeoutRef (v : option positive) (st : State) : State
    :=
  mkState (file st) (loading st) (result st) (error st) (abortControllerRef
    st) v (controllers st) (fetches st) (timers st) (fresh st) (toasts
    st).

Definition set_controllers (v : gmap positive bool) (st : State) : State
    :=
  mkState (file st) (loading st) (result st) (error st) (abortControllerRef
    st) (timeoutRef st) v (fetches st) (timers st) (fresh st) (toasts
    st).

Definition set_fetches (v : gmap positive File) (st : State) : State
    :=
  mkState (file st) (loading st) (result st) (error st) (abortControllerRef
    st) (timeoutRef st) (controllers st) v (timers st) (fresh st) (toasts
    st).

Definition set_timers (v : gmap positive TimerCallback) (st : State) : State
    :=
  mkState (file st) (loading st) (result st) (error st) (abortControllerRef
    st) (timeoutRef st) (controllers st) (fetches st) v (fresh st) (toasts
    st).

Definition set_fresh (v : positive) (st : State) : State :=
  mkState
    (file st) (loading st) (result st) (error st) (abortControllerRef st)
    (timeoutRef st) (controllers st) (fetches st) (timers st) v (toasts st).

Definition set_toasts (v : list Toast) (st : State) : State :=
  mkState
    (file st) (loading st) (result st) (error st) (abortControllerRef st)
    (timeoutRef st) (controllers st) (fetches st) (timers st) (fresh st) v.

Definition initial : State :=
  mkState None false None None None None ∅ ∅ ∅ 1%positive [].

Definition toast (k : ToastKind) (msg : String.string) (st : State) : State :=
  set_toasts ((k, str msg) :: toasts st) st.

(** [controller.abort()] *)
Definition abort (c : positive) (st : State) : State :=
  set_controllers (<[c := true]> (controllers st)) st.

(** [new AbortController()], named [fresh st]. *)
Definition new_controller (st : State) : State :=
  set_fresh (Pos.succ (fresh st))
    (set_controllers (<[fresh st := false]> (controllers st)) st).

(** [setTimeout(cb, ..)], which returns [fresh st]. *)
Definition setTimeout (cb : TimerCallback) (st : State) : State :=
  set_fresh (Pos.succ (fresh st))
    (set_timers (<[fresh st := cb]> (timers st)) st).

(** [clearTimeout(t)] *)
Definition clearTimeout (t : positive) (st : State) : State :=
  set_timers (delete t (timers st)) st.

(** [abortControllerRef.current?.signal.aborted], [undefined] being falsy. *)
Definition signal_aborted (st : State) : bool :=
  match abortControllerRef st with
  | Some c => default false (controllers st !! c)
  | None => false
  end.

(** *** [resetAnalysis] *)

Definition resetAnalysis (st : State) : State :=
  let st :=
    match abortControllerRef st with
    | Some c => set_abortControllerRef None (abort c st)
    | None => st
    end in
  let st :=
    match timeoutRef st with
    | Some t => set_timeoutRef None (clearTimeout t st)
    | None => st
    end in
  toast ToastSuccess "Analysis stopped and reset successfully"
    (setError None (setResult None (setLoading false st))).

(** *** [onDrop] *)

Definition onDrop (acceptedFiles : list File) (st : State) : State :=
  match acceptedFiles with
  | uploadedFile :: _ =>
      if decide (type uploadedFile = str "application/pdf")
      then setFile (Some uploadedFile) (resetAnalysis st)
      else toast ToastError "Please upload a PDF file" st
  | [] => toast ToastError "Please upload a PDF file" st
  end.

(** The handler of the button Upload Different File. *)
Definition uploadDifferentFile (st : State) : State :=
  setFile None (resetAnalysis st).

(** *** [runDemo] *)

(** [new File(['demo content'], 'sample-proposal.pdf', ..)] *)
Definition demoFile : File :=
  mkFile (str "sample-proposal.pdf") 12 (str "application/pdf").

(** The canned result of [runDemo]; [now] is [new Date().toISOString()]
    when the timer callback runs. *)
Definition demoResult (now : jsstring) : AnalysisResult :=
  {| executiveSummary :=
       str "This comprehensive digital transformation proposal outlines a strategic initiative to modernize legacy systems and enhance operational efficiency. The proposal demonstrates extensive technical expertise in cloud migration, custom software development, and enterprise security implementation. With a total investment of $485,000 over 8 months, this project promises to deliver a 40% improvement in operational efficiency and 25% reduction in IT costs. The proposal includes detailed implementation phases, comprehensive training programs, and ongoing support structures.";
     keyRequirements :=
       [ str "Complete legacy system migration to modern cloud infrastructure with zero downtime";
         str "Custom software development including customer portal and mobile applications";
         str "Comprehensive staff training program covering 50+ employees across multiple departments";
         str "Implementation of enterprise-grade security protocols with multi-factor authentication";
         str "24/7 technical support and maintenance coverage for the first 6 months";
         str "Real-time data analytics implementation and automated reporting system";
         str "Security audit and penetration testing for compliance validation" ];
     pricingOverview :=
       {| totalAmount := str "$485,000";
          breakdown :=
            [ str "Phase 1 - Legacy Migration & Analysis: $180,000";
              str "Phase 2 - Custom Development & Integration: $220,000";
              str "Phase 3 - Training, Support & Documentation: $85,000" ];
          paymentTerms :=
            str "30% upon contract signing ($145,500), 40% at Phase 2 completion ($194,000), 30% upon final delivery ($145,500)" |};
     recommendedNextSteps :=
       [ str "Schedule technical review meeting with client's IT team within 5 business days";
         str "Finalize detailed project scope and requirements documentation with stakeholder input";
         str "Execute master service agreement and comprehensive statement of work";
         str "Begin project kickoff phase with cross-functional team onboarding";
         str "Conduct thorough legacy system audit and create detailed migration timeline";
         str "Establish communication protocols and project management framework";
         str "Set up development environment and testing infrastructure";
         str "Create risk mitigation strategies and contingency planning" ];
     metadata :=
       {| fileName := str "sample-proposal.pdf";
          fileSize := of_Z 156789;
          processedAt := now;
          textLength := of_Z 2847 |} |}.

(** The result synthesised by the fallback timer of [analyzeProposal] for
    the file [f] of its closure. *)
Definition fallbackResult (f : File) (now : jsstring) : AnalysisResult :=
  {| executiveSummary :=
       str "Based on the uploaded proposal "
         ++ dquote :: name f ++ dquote ::
       str ", this appears to be a comprehensive business proposal outlining digital transformation services. The proposal demonstrates strong technical capabilities and includes detailed project timelines, cost breakdowns, and implementation strategies. The proposed solution addresses key business needs including system modernization, operational efficiency improvements, and technological advancement. This is a well-structured proposal with clear deliverables and professional presentation.";
     keyRequirements :=
       [ str "Complete legacy system migration to modern cloud infrastructure";
         str "Custom software development for customer portal and mobile applications";
         str "Comprehensive staff training program for 50+ employees";
         str "Implementation of enterprise-grade security protocols and multi-factor authentication";
         str "24/7 technical support and maintenance for the first 6 months";
         str "Data integrity verification and zero-downtime migration requirements" ];
     pricingOverview :=
       {| totalAmount := str "$485,000";
          breakdown :=
            [ str "Phase 1 - Legacy Migration: $180,000";
              str "Phase 2 - Custom Development: $220,000";
              str "Phase 3 - Training & Support: $85,000" ];
          paymentTerms :=
            str "30% upon contract signing, 40% at Phase 2 completion, 30% upon final delivery" |};
     recommendedNextSteps :=
       [ str "Schedule technical review meeting with client's IT team within 5 business days";
         str "Finalize detailed project scope and requirements documentation";
         str "Execute master service agreement and statement of work";
         str "Begin project kickoff phase with team onboarding and stakeholder alignment";
         str "Conduct initial system audit and create migration timeline";
         str "Establish communication protocols and project management framework" ];
     metadata :=
       {| fileName := name f;
          fileSize := of_Z (size f);
          processedAt := now;
          textLength := of_Z 2847 |} |}.

Definition runDemo (st : State) : State :=
  let st := resetAnalysis st in
  let st := setFile (Some demoFile) (setError None (setLoading true st)) in
  set_timeoutRef (Some (fresh st)) (setTimeout DemoTimeout st).

(** The callback of the time-out of [runDemo]. *)
Definition demo_timeout (now : jsstring) (st : State) : State :=
  match timeoutRef st with
  | None => st
  | Some _ =>
      toast ToastSuccess
        "Demo analysis complete! This is how real AI analysis works."
        (set_timeoutRef None
           (setLoading false (setResult (Some (demoResult now)) st)))
  end.

(** *** [analyzeProposal] *)

(** Up to the [await] of [fetch]. *)
Definition analyzeProposal (st : State) : State :=
  match file st with
  | None => st
  | Some f =>
      let st :=
        match abortControllerRef st with
        | Some c => abort c st
        | None => st
        end in
      let c := fresh st in
      let st := set_abortControllerRef (Some c) (new_controller st) in
      let st := setError None (setLoading true st) in
      set_fetches (<[c := f]> (fetches st)) st
  end.

(** How the network settles a request that was not aborted: a response
    with its status and its body read as JSON ([None] when
    [response.json()] rejects), or the rejection of [fetch]. *)
Inductive Settlement : Type :=
| Responded (status : Z) (body : option AnalysisResult)
| Rejected.

(** What the awaiting function sees: the [AbortError], or the settlement. *)
Inductive Completion : Type :=
| Aborted
| Settled (s : Settlement).

(** [response.ok] *)
Definition response_ok (status : Z) : bool :=
  ((200 <=? status) && (status <=? 299))%Z.

(** The [catch] block past the [AbortError] test. *)
Definition schedule_fallback (f : File) (st : State) : State :=
  set_timeoutRef (Some (fresh st)) (setTimeout (FallbackTimeout f) st).

(** The [finally] block. *)
Definition finally (st : State) : State :=
  set_abortControllerRef None (setLoading false st).

(** [analyzeProposal] from the [await] on, for the file [f] of its
    closure. *)
Definition analyze_continuation (f : File) (o : Completion) (st : State)
  : State :=
  finally
    match o with
    | Aborted => st
    | Settled Rejected => schedule_fallback f st
    | Settled (Responded status body) =>
        if response_ok status then
          match body with
          | Some analysisResult =>
              if signal_aborted st then st
              else toast ToastSuccess "Proposal analyzed successfully!"
                     (setResult (Some analysisResult) st)
          | None => schedule_fallback f st
          end
        else schedule_fallback f st
    end.

(** The callback of the fallback time-out. *)
Definition fallback_timeout (f : File) (now : jsstring) (st : State) : State :=
  if bool_decide (timeoutRef st = None) || signal_aborted st then st
  else set_timeoutRef None
         (toast ToastSuccess "Proposal analyzed successfully! (Demo mode)"
            (setResult (Some (fallbackResult f now)) st)).

(** The settlement is a success response whose body was read. *)
Definition is_success (s : Settlement) : bool :=
  match s with
  | Responded status (Some _) => response_ok status
  | _ => false
  end.

(** *** [exportResultsAsJSON] *)

(** The file offered for download. *)
Record Download := mkDownload {
  blob : jsstring;
  blob_type : jsstring;
  download : jsstring
}.

Definition exportResultsAsJSON (st : State) : option Download * State :=
  match result st with
  | None => (None, st)
  | Some r =>
      let dataStr := stringify (to_json r) 2 in
      (Some (mkDownload dataStr (str "application/json")
               (str "analysis-"
                  ++ JS.replace (fileName (metadata r)) (str ".pdf") []
                  ++ str ".json")),
       toast ToastSuccess "Analysis exported as JSON!" st)
  end.

(** *** The event loop *)

(** The reactions to [abort()] run as microtasks when the handler that
    called it returns: every request in flight whose signal is aborted
    resumes in the [catch] block with the [AbortError]. *)
Definition aborted_fetches (st : State) : list (positive * File) :=
  filter (fun cf => controllers st !! fst cf = Some true)
         (map_to_list (fetches st)).

Definition drain (st : State) : State :=
  foldr (fun cf st =>
           analyze_continuation (snd cf) Aborted
             (set_fetches (delete (fst cf) (fetches st)) st))
        st (aborted_fetches st).

(** What can happen: the user's actions, each on a control of the page,
    the settlement of a request, the firing of a time-out. *)
Inductive Event : Type :=
| Drop (acceptedFiles : list File)
| ClickUploadDifferentFile
| ClickDemo
| ClickAnalyze
| ClickStartOver
| ClickReset
| ClickTryAnotherDemo
| FetchSettles (c : positive) (s : Settlement)
| TimerFires (t : positive) (now : jsstring).

(** The control is rendered and not disabled, the request is in flight,
    the time-out is scheduled. *)
Definition enabled (e : Event) (st : State) : bool :=
  match e with
  | Drop _ => bool_decide (file st = None)
  | ClickUploadDifferentFile => bool_decide (is_Some (file st))
  | ClickDemo => negb (loading st)
  | ClickAnalyze | ClickStartOver =>
      bool_decide (is_Some (file st)) && negb (loading st)
  | ClickReset | ClickTryAnotherDemo => bool_decide (is_Some (result st))
  | FetchSettles c _ => bool_decide (is_Some (fetches st !! c))
  | TimerFires t _ => bool_decide (is_Some (timers st !! t))
  end.

Definition handle (e : Event) (st : State) : State :=
  match e with
  | Drop acceptedFiles => drain (onDrop acceptedFiles st)
  | ClickUploadDifferentFile => drain (uploadDifferentFile st)
  | ClickDemo | ClickTryAnotherDemo => drain (runDemo st)
  | ClickAnalyze => drain (analyzeProposal st)
  | ClickStartOver | ClickReset => drain (resetAnalysis st)
  | FetchSettles c s =>
      match fetches st !! c with
      | Some f =>
          let o := if bool_decide (controllers st !! c = Some true)
                   then Aborted else Settled s in
          analyze_continuation f o (set_fetches (delete c (fetches st)) st)
      | None => st
      end
  | TimerFires t now =>
      match timers st !! t with
      | Some DemoTimeout => demo_timeout now (clearTimeout t st)
      | Some (FallbackTimeout f) => fallback_timeout f now (clearTimeout t st)
      | None => st
      end
  end.

Definition step (e : Event) (st : State) : option State :=
  if enabled e st then Some (handle e st) else None.

Fixpoint run (es : list Event) (st : State) : option State :=
  match es with
  | [] => Some st
  | e :: r =>
      match step e st with
      | Some st' => run r st'
      | None => None
      end
  end.

(** What the page shows of a result: the state variables and the
    notifications. *)
Definition visible (st : State)
  : option AnalysisResult * option jsstring * list Toast :=
  (result st, error st, toasts st).

End Client.


(** ** The states of the client between two events *)

Module ClientInvariant.
Import Client.

(** No request in flight has an aborted signal, and the controller that
    [abortControllerRef] holds is not aborted. *)
Definition live (st : State) : Prop :=
  (forall c f, fetches st !! c = Some f -> controllers st !! c = Some false) /\
  (forall c, abortControllerRef st = Some c -> controllers st !! c = Some false).

(** Every request in flight was given the signal of a controller of the
    store. *)
Definition known (st : State) : Prop :=
  forall c f, fetches st !! c = Some f -> is_Some (controllers st !! c).

Definition pdf (f : File) : Prop := type f = str "application/pdf".

(** The file selected and the files of the requests in flight are PDFs. *)
Definition pdf_only (st : State) : Prop :=
  (forall f, file st = Some f -> pdf f) /\
  (forall c f, fetches st !! c = Some f -> pdf f).

Definition consistent (st : State) : Prop :=
  error st = None /\ live st /\ pdf_only st.

(** One reaction of [drain]: the request resumes with the [AbortError]. *)
Definition deliver_abort (cf : positive * File) (st : State) : State :=
  analyze_continuation (snd cf) Aborted
    (set_fetches (delete (fst cf) (fetches st)) st).

End ClientInvariant.

(** ** Sample inputs *)

Module Examples.

(** A buffer of [n] bytes. *)
Definition sample_buffer (n : N) : Server.Buffer :=
  Server.mkBuffer n (fun _ => 37).

(** A two-kilobyte PDF in the field [pdf]. *)
Definition sample_pdf : Server.FilePart :=
  Server.mkPart (str "pdf") (str "proposal.pdf") (str "application/pdf")
    (sample_buffer 2048).

(** A PDF of 10 MiB and one byte. *)
Definition oversize_pdf : Server.FilePart :=
  Server.mkPart (str "pdf") (str "big.pdf") (str "application/pdf")
    (sample_buffer 10485761).

(** A PDF of exactly 10 MiB. *)
Definition limit_pdf : Server.FilePart :=
  Server.mkPart (str "pdf") (str "limit.pdf") (str "application/pdf")
    (sample_buffer 10485760).

(** A text file of 10 MiB and one byte. *)
Definition oversize_text : Server.FilePart :=
  Server.mkPart (str "pdf") (str "big.txt") (str "text/plain")
    (sample_buffer 10485761).

(** A PDF of 10 MiB and one byte in the field [file]. *)
Definition oversize_misfiled : Server.FilePart :=
  Server.mkPart (str "file") (str "big.pdf") (str "application/pdf")
    (sample_buffer 10485761).

(** The eleventh request of a client within the window, with one file. *)
Definition eleventh_request (f : Server.FilePart) : Server.Request :=
  Server.mkRequest 10 (Server.Multipart [f]).

(** The first request of a client, with one file. *)
Definition sample_request (f : Server.FilePart) : Server.Request :=
  Server.mkRequest 0 (Server.Multipart [f]).

(** A request whose body is declared [application/json] and is not JSON,
    after [hits] earlier requests of the client in the window. *)
Definition malformed_json_request (hits : N) : Server.Request :=
  Server.mkRequest hits
    (Server.JsonBody (Some (str "Unexpected token } in JSON at position 0"))).

(** An analysis as the model is asked to give it. *)
Definition sample_analysis : json :=
  JObj [ (str "executiveSummary", JStr (str "A proposal."));
         (str "keyRequirements", JArr [JStr (str "Migration")]);
         (str "pricingOverview",
          JObj [ (str "totalAmount", JStr (str "$485,000"));
                 (str "breakdown", JArr [JStr (str "Phase 1: $180,000")]);
                 (str "paymentTerms", JStr (str "30% upon signing")) ]);
         (str "recommendedNextSteps", JArr [JStr (str "Schedule review")]) ].

Definition sample_time : jsstring := str "2025-06-01T12:00:00.000Z".

(** An extractor that finds [text] in every file, and a model that gives
    [reply] to every prompt, or no model when [reply] is [None]. *)
Definition sample_env (text : jsstring) (reply : option jsstring) : Server.Env :=
  Server.mkEnv
    (fun _ => Server.Returned text)
    (match reply with
     | Some r => Some (fun _ => Server.Returned (Some r))
     | None => None
     end)
    sample_time.

Definition fileA : Client.File :=
  Client.mkFile (str "A.pdf") 1000 (str "application/pdf").

Definition time1 : jsstring := str "2025-06-01T12:00:02.000Z".
Definition time2 : jsstring := str "2025-06-01T12:00:03.500Z".



(** Two analyses of [A.pdf] fail one after the other: the second fallback
    timer, 4, has taken the place of the first, 2, in [timeoutRef]. *)
Definition two_failures : list Client.Event :=
  [Client.Drop [fileA]; Client.ClickAnalyze;
   Client.FetchSettles 1 Client.Rejected; Client.ClickAnalyze;
   Client.FetchSettles 3 Client.Rejected].

End Examples.


(** ** Further sample inputs *)

Module Scenarios.
Import Examples.

(** An extractor that throws [message] on every file; no model. *)
Definition failing_extractor (message : jsstring) : Server.Env :=
  Server.mkEnv (fun _ => Server.Thrown message) None sample_time.

(** An extractor that finds [text] in every file, and a model client
    whose call ends as [o]. *)
Definition failing_model (text : jsstring)
           (o : Server.Outcome (option jsstring)) : Server.Env :=
  Server.mkEnv (fun _ => Server.Returned text) (Some (fun _ => o))
    sample_time.

(** A text file of a hundred bytes in the field [pdf]. *)
Definition text_file : Server.FilePart :=
  Server.mkPart (str "pdf") (str "notes.txt") (str "text/plain")
    (sample_buffer 100).

(** The first request of a client, with these file parts. *)
Definition first_request (ps : list Server.FilePart) : Server.Request :=
  Server.mkRequest 0 (Server.Multipart ps).

(** [toUpperCase] on a text of ASCII characters. *)
Definition upper (s : jsstring) : jsstring :=
  List.map (fun c => if (97 <=? c) && (c <=? 122) then c - 32 else c) s.

(** A text of six lines: two headers with their body lines, an empty
    line, and a last header with none. *)
Definition sample_text : jsstring :=
  unlines [ str "OVERVIEW"; str "We propose a migration."; [];
            str "PRICING"; str "  Total: $100"; str "NEXT STEPS" ].

(** The sample PDF is on the disk. *)
Definition sample_file : SampleContent.SampleFile :=
  SampleContent.mkSampleFile true (Server.Returned (sample_buffer 2048)).

(** The file [A.pdf] is dropped and its analysis is started. *)
Definition request_sent : list Client.Event :=
  [Client.Drop [fileA]; Client.ClickAnalyze].

(** The analysis of [A.pdf] fails and is started again: the fallback
    timer of the first is pending while the second is in flight. *)
Definition second_attempt : list Client.Event :=
  [Client.Drop [fileA]; Client.ClickAnalyze;
   Client.FetchSettles 1 Client.Rejected; Client.ClickAnalyze].

(** The analysis of [A.pdf] succeeds with [r] and is started again, the
    result being still on the page. *)
Definition analysed_again (r : AnalysisResult) : list Client.Event :=
  [Client.Drop [fileA]; Client.ClickAnalyze;
   Client.FetchSettles 1 (Client.Responded 200 (Some r));
   Client.ClickAnalyze].

(** The state of the page after these events. *)
Definition after (es : list Client.Event) : Client.State :=
  fold_left (fun st e => Client.handle e st) es Client.initial.

End Scenarios.

(* ===================================================================== *)
(** * Part II: properties                                                 *)
(* ===================================================================== *)

(** ** [trim] and the blank test *)

Module JS_facts.

Lemma trimStart_blank s : forallb is_trim_space s = true -> trimStart s = [].
Proof.
  induction s as [|c s IH]; [done|]. cbn [forallb trimStart].
  intros [-> Hs]%andb_true_iff. auto.
Qed.

Lemma trim_blank s : forallb is_trim_space s = true -> trim s = [].
Proof. intros H. unfold trim. now rewrite (trimStart_blank s H). Qed.

Lemma trimStart_nil s : trimStart s = [] -> forallb is_trim_space s = true.
Proof.
  induction s as [|c s IH]; [done|]. cbn [forallb trimStart].
  destruct (is_trim_space c); [auto|discriminate].
Qed.

Lemma trimStart_keeps s :
  forallb is_trim_space s = false -> forallb is_trim_space (trimStart s) = false.
Proof.
  induction s as [|c s IH]; [done|]. cbn [forallb trimStart].
  destruct (is_trim_space c) eqn:E; [auto|]. intros _. cbn [forallb]. now rewrite E.
Qed.

Lemma forallb_rev {A} (p : A -> bool) l : forallb p (rev l) = forallb p l.
Proof.
  induction l as [|x l IH]; [done|]. cbn [rev forallb].
  rewrite forallb_app, IH. cbn. rewrite andb_true_r. apply andb_comm.
Qed.

Lemma trim_nonblank s : forallb is_trim_space s = false -> trim s <> [].
Proof.
  intros H Ht. unfold trim in Ht.
  apply (f_equal (@rev N)) in Ht. rewrite rev_involutive in Ht. cbn in Ht.
  apply trimStart_nil in Ht. rewrite forallb_rev in Ht.
  now rewrite trimStart_keeps in Ht.
Qed.

Lemma strlen_zero s : (strlen s =? 0)%Z = true <-> s = [].
Proof.
  unfold strlen. rewrite Z.eqb_eq. destruct s; cbn [List.length]; split; intros; try done; lia.
Qed.

Lemma blank_spec s : blank s = forallb is_trim_space s.
Proof.
  unfold blank. destruct (forallb is_trim_space s) eqn:E.
  - rewrite (trim_blank s E). cbn. apply orb_true_r.
  - pose proof (trim_nonblank s E) as Hn.
    destruct s as [|c s]; [done|]. cbn [truthy negb orb].
    destruct (strlen (trim (c :: s)) =? 0)%Z eqn:Z0; [|done].
    apply strlen_zero in Z0. done.
Qed.


End JS_facts.
Import JS_facts.

(** ** Numbers: a double that is written is read back *)

Module Number_facts.
Local Open Scope Z_scope.

Lemma pow2_pos t : 0 < pow2 t.
Proof. unfold pow2. apply Z.pow_pos_nonneg; lia. Qed.

Lemma pow10_pos t : 0 < pow10 t.
Proof. unfold pow10. apply Z.pow_pos_nonneg; lia. Qed.

(** Comparisons with a signed exponent, brought to exponents that are not
    negative. *)
Lemma scaled_eq (s u : Z) :
  0 <= u -> 0 <= u + s -> pow2 s * 2 ^ u = pow2 (- s) * 2 ^ (u + s).
Proof.
  intros Hu Hs. unfold pow2.
  destruct (Z.le_gt_cases 0 s) as [H|H].
  - rewrite (Z.max_r 0 s), (Z.max_l 0 (- s)) by lia.
    rewrite Z.pow_0_r, Z.mul_1_l, <- Z.pow_add_r by lia. f_equal. lia.
  - rewrite (Z.max_l 0 s), (Z.max_r 0 (- s)) by lia.
    rewrite Z.pow_0_r, Z.mul_1_l, <- Z.pow_add_r by lia. f_equal. lia.
Qed.

Lemma scaled_le_iff (x y s u : Z) :
  0 <= u -> 0 <= u + s ->
  (y * pow2 s <= x * pow2 (- s) <-> y * 2 ^ (u + s) <= x * 2 ^ u).
Proof.
  intros Hu Hs.
  assert (H2 : 0 < 2 ^ u) by (apply Z.pow_pos_nonneg; lia).
  assert (H3 : 0 < pow2 (- s)) by apply pow2_pos.
  pose proof (scaled_eq s u Hu Hs) as E.
  split; intros H.
  - apply (Z.mul_le_mono_pos_r _ _ (pow2 (- s))); [done|].
    replace (y * 2 ^ (u + s) * pow2 (- s)) with (y * (pow2 (- s) * 2 ^ (u + s))) by ring.
    rewrite <- E. 
    replace (y * (pow2 s * 2 ^ u)) with (y * pow2 s * 2 ^ u) by ring.
    replace (x * 2 ^ u * pow2 (- s)) with (x * pow2 (- s) * 2 ^ u) by ring.
    apply Z.mul_le_mono_pos_r; done.
  - apply (Z.mul_le_mono_pos_r _ _ (2 ^ u)); [done|].
    replace (y * pow2 s * 2 ^ u) with (y * (pow2 s * 2 ^ u)) by ring.
    rewrite E.
    replace (y * (pow2 (- s) * 2 ^ (u + s))) with (y * 2 ^ (u + s) * pow2 (- s)) by ring.
    replace (x * pow2 (- s) * 2 ^ u) with (x * 2 ^ u * pow2 (- s)) by ring.
    apply Z.mul_le_mono_pos_r; done.
Qed.

Lemma scaled_eq_iff (x y s u : Z) :
  0 <= u -> 0 <= u + s ->
  (x * pow2 (- s) = y * pow2 s <-> x * 2 ^ u = y * 2 ^ (u + s)).
Proof.
  intros Hu Hs.
  assert (H2 : 0 < 2 ^ u) by (apply Z.pow_pos_nonneg; lia).
  assert (H3 : 0 < pow2 (- s)) by apply pow2_pos.
  pose proof (scaled_eq s u Hu Hs) as E.
  split; intros H.
  - apply (Z.mul_reg_r _ _ (pow2 (- s))); [lia|].
    replace (y * 2 ^ (u + s) * pow2 (- s)) with (y * (pow2 (- s) * 2 ^ (u + s))) by ring.
    rewrite <- E.
    replace (x * 2 ^ u * pow2 (- s)) with (x * pow2 (- s) * 2 ^ u) by ring.
    rewrite H. ring.
  - apply (Z.mul_reg_r _ _ (2 ^ u)); [lia|].
    replace (y * pow2 s * 2 ^ u) with (y * (pow2 s * 2 ^ u)) by ring.
    rewrite E.
    replace (x * pow2 (- s) * 2 ^ u) with (x * 2 ^ u * pow2 (- s)) by ring.
    rewrite H. ring.
Qed.

Lemma rne_exact d m : 0 < d -> rne (d * m) d = m.
Proof.
  intros Hd. unfold rne.
  rewrite (Z.mul_comm d m), Z.mod_mul, Z.div_mul by lia.
  change (2 * 0) with 0. now destruct (Z.compare_spec 0 d); try lia.
Qed.

(** The exponent of the leading bit of an exact value. *)
Lemma ilog2_exact num den M e :
  0 < num -> 0 < den -> 0 < M ->
  num * pow2 (- e) = den * pow2 e * M ->
  ilog2 num den = Z.log2 M + e.
Proof.
  intros Hn Hd HM Heq. unfold ilog2.
  pose proof (Z.log2_spec num Hn) as [Ln1 Ln2].
  pose proof (Z.log2_spec den Hd) as [Ld1 Ld2].
  pose proof (Z.log2_spec M HM) as [Lm1 Lm2].
  pose proof (Z.log2_nonneg num) as Nn.
  pose proof (Z.log2_nonneg den) as Nd.
  pose proof (Z.log2_nonneg M) as Nm.
  set (ln := Z.log2 num) in *. set (ld := Z.log2 den) in *.
  set (lm := Z.log2 M) in *.
  set (u := Z.abs e + ln + ld + lm + 2).
  assert (Hu : 0 <= u) by lia.
  assert (Hue : 0 <= u + e) by lia.
  replace (den * pow2 e * M) with (den * M * pow2 e) in Heq by ring.
  apply (scaled_eq_iff num (den * M) e u Hu Hue) in Heq.
  (* ln + u and ld + lm + u + e differ by 0 or 1 *)
  assert (B1 : 2 ^ (ln + u) <= num * 2 ^ u).
  { rewrite Z.pow_add_r by lia. apply Z.mul_le_mono_nonneg_r; [|done].
    apply Z.pow_nonneg; lia. }
  assert (B2 : num * 2 ^ u < 2 ^ (ln + 1 + u)).
  { rewrite (Z.pow_add_r 2 (ln + 1) u) by lia.
    apply Z.mul_lt_mono_pos_r; [apply Z.pow_pos_nonneg; lia|].
    now replace (ln + 1) with (Z.succ ln) by lia. }
  assert (B3 : 2 ^ (ld + lm + (u + e)) <= den * M * 2 ^ (u + e)).
  { rewrite !Z.pow_add_r by lia.
    apply Z.mul_le_mono_nonneg_r; [apply Z.pow_nonneg; lia|].
    apply Z.mul_le_mono_nonneg; try done; apply Z.pow_nonneg; lia. }
  assert (B4 : den * M * 2 ^ (u + e) < 2 ^ (ld + 1 + (lm + 1) + (u + e))).
  { rewrite (Z.pow_add_r 2 (ld + 1 + (lm + 1)) (u + e)) by lia.
    apply Z.mul_lt_mono_pos_r; [apply Z.pow_pos_nonneg; lia|].
    rewrite Z.pow_add_r by lia.
    replace (ld + 1) with (Z.succ ld) by lia.
    replace (lm + 1) with (Z.succ lm) by lia.
    apply Z.mul_lt_mono_nonneg; lia. }
  rewrite Heq in B1, B2.
  assert (C1 : ln + u < ld + 1 + (lm + 1) + (u + e)).
  { apply (Z.pow_lt_mono_r_iff 2); lia. }
  assert (C2 : ld + lm + (u + e) < ln + 1 + u).
  { apply (Z.pow_lt_mono_r_iff 2); lia. }
  set (t := ln - ld) in *.
  assert (Ht : t = lm + e \/ t = lm + e + 1) by lia.
  assert (Hut : 0 <= u + t) by lia.
  destruct (Z.leb_spec (den * pow2 t) (num * pow2 (- t))) as [H|H].
  - apply (scaled_le_iff num den t u Hu Hut) in H.
    destruct Ht as [Ht|Ht]; [done|exfalso].
    rewrite Heq in H. rewrite Ht in H.
    replace (u + (lm + e + 1)) with ((lm + 1) + (u + e)) in H by lia.
    rewrite Z.pow_add_r in H by lia.
    assert (0 < den * 2 ^ (u + e)) by (apply Z.mul_pos_pos; [done|apply Z.pow_pos_nonneg; lia]).
    replace (lm + 1) with (Z.succ lm) in H by lia.
    nia.
  - destruct Ht as [Ht|Ht]; [exfalso|lia].
    enough (den * pow2 t <= num * pow2 (- t)) by lia.
    apply (scaled_le_iff num den t u Hu Hut).
    rewrite Heq, Ht.
    replace (u + (lm + e)) with (lm + (u + e)) by lia.
    rewrite Z.pow_add_r by lia.
    assert (0 < den * 2 ^ (u + e)) by (apply Z.mul_pos_pos; [done|apply Z.pow_pos_nonneg; lia]).
    nia.
Qed.

Lemma round_exact negative m e num den :
  is_double (Finite negative m e) = true ->
  0 < num -> 0 < den ->
  num * pow2 (- e) = den * pow2 e * Zpos m ->
  round negative num den = Finite negative m e.
Proof.
  intros Hv Hn Hd Heq. unfold is_double in Hv.
  apply andb_true_iff in Hv as [Hv H4].
  apply andb_true_iff in Hv as [Hv H3].
  apply andb_true_iff in Hv as [H1 H2].
  apply Z.leb_le in H1, H2. apply Z.ltb_lt in H3.
  unfold round.
  rewrite (ilog2_exact num den (Zpos m) e) by (done || lia).
  assert (He : Z.max (Z.log2 (Zpos m) + e - 52) (-1074) = e).
  { apply orb_true_iff in H4 as [H4|H4].
    - apply Z.leb_le in H4.
      rewrite (Z.log2_unique (Zpos m) 52); [lia|lia|]. split; [done|]. exact H3.
    - apply Z.eqb_eq in H4. subst e.
      assert (Z.log2 (Zpos m) < 53); [|lia].
      apply Z.log2_lt_pow2; lia. }
  rewrite He, Heq.
  rewrite rne_exact by (apply Z.mul_pos_pos; [done|apply pow2_pos]).
  destruct (Z.eqb_spec (Zpos m) (2 ^ 53)) as [E|_]; [lia|].
  destruct (Z.ltb_spec 971 e); [lia|]. reflexivity.
Qed.

Lemma val_from_eq a ds :
  val_from a ds = (a * 10 ^ N.of_nat (List.length ds) + val ds)%N.
Proof.
  unfold val. change (fold_left _ ds 0%N) with (val_from 0 ds).
  revert a. induction ds as [|d ds IH]; intros a.
  - cbn. lia.
  - change (val_from a (d :: ds)) with (val_from (10 * a + d) ds).
    change (val_from 0 (d :: ds)) with (val_from (10 * 0 + d) ds).
    rewrite (IH (10 * a + d)%N), (IH (10 * 0 + d)%N).
    cbn [List.length]. rewrite Nat2N.inj_succ, N.pow_succ_r'. lia.
Qed.

Lemma val_app x y : val (x ++ y) = (val x * 10 ^ N.of_nat (List.length y) + val y)%N.
Proof.
  unfold val at 1. rewrite fold_left_app.
  change (fold_left _ y ?a) with (val_from a y). now rewrite val_from_eq.
Qed.

Lemma val_zeros j : val (repeat 0%N j) = 0%N.
Proof.
  induction j as [|j IH]; [done|].
  change (repeat 0%N (S j)) with ([0%N] ++ repeat 0%N j).
  rewrite val_app, IH. cbn. lia.
Qed.

Lemma val_to_digits_from f : forall n acc,
  val (to_digits_from f n acc) = val_from n acc.
Proof.
  induction f as [|f IH]; intros n acc; cbn [to_digits_from].
  - unfold val. cbn [fold_left]. unfold val_from. f_equal; lia.
  - destruct (N.ltb_spec n 10).
    + unfold val. cbn [fold_left]. unfold val_from. f_equal; lia.
    + rewrite IH. unfold val_from. cbn [fold_left]. f_equal.
      pose proof (N.div_mod n 10). lia.
Qed.

Lemma val_to_digits n : val (to_digits n) = n.
Proof. unfold to_digits. rewrite val_to_digits_from. reflexivity. Qed.

Lemma to_digits_from_good f : forall n acc,
  (0 < n)%N -> (n < 10 ^ N.of_nat (S f))%N ->
  forallb (fun x => x <? 10)%N acc = true ->
  good (to_digits_from f n acc) = true.
Proof.
  induction f as [|f IH]; intros n acc Hn Hb Ha; cbn [to_digits_from].
  - cbn [good forallb]. rewrite Ha.
    destruct (N.eqb_spec n 0); [lia|].
    change (10 ^ N.of_nat 1)%N with 10%N in Hb.
    destruct (N.ltb_spec n 10); [done|lia].
  - destruct (N.ltb_spec n 10) as [Hlt|Hge].
    + cbn [good forallb]. rewrite Ha.
      destruct (N.eqb_spec n 0); [lia|].
      destruct (N.ltb_spec n 10); [done|lia].
    + apply IH.
      * apply N.div_str_pos. lia.
      * apply N.Div0.div_lt_upper_bound.
        rewrite <- N.pow_succ_r'. now rewrite <- Nat2N.inj_succ.
      * cbn [forallb]. rewrite Ha.
        pose proof (N.mod_lt n 10).
        destruct (N.ltb_spec (n mod 10) 10); [done|lia].
Qed.

Lemma to_digits_good n : (0 < n)%N -> good (to_digits n) = true.
Proof.
  intros Hn. unfold to_digits. apply to_digits_from_good; [done| |done].
  destruct (N.log2_spec n Hn) as [_ H].
  rewrite Nat2N.inj_succ, N2Nat.id.
  eapply N.lt_le_trans; [exact H|].
  apply N.pow_le_mono_l. lia.
Qed.

Lemma good_digits ds :
  good ds = true ->
  exists d r, ds = d :: r /\ d <> 0%N /\ forallb (fun x => x <? 10)%N ds = true.
Proof.
  destruct ds as [|d r]; [done|]. unfold good.
  intros [H1 H2]%andb_true_iff. exists d, r. split; [done|]. split; [|done].
  now destruct (N.eqb_spec d 0).
Qed.

Lemma to_digits_digits n :
  to_digits n <> [] /\ forallb (fun x => x <? 10)%N (to_digits n) = true.
Proof.
  destruct (N.eq_0_gt_0_cases n) as [->|Hn]; [done|].
  destruct (good_digits _ (to_digits_good n Hn)) as (d & r & -> & _ & H). done.
Qed.

Lemma is_digit_char d : (d < 10)%N -> is_digit (48 + d) = true.
Proof.
  intros H. unfold is_digit.
  destruct (N.leb_spec 48 (48 + d)); [|lia].
  destruct (N.leb_spec (48 + d) 57); [done|lia].
Qed.

Lemma read_digits_chars ds rest :
  forallb (fun x => x <? 10)%N ds = true -> no_digit_head rest = true ->
  read_digits (digit_chars ds ++ rest) = (ds, rest).
Proof.
  intros Hd Hr. induction ds as [|d ds IH].
  - destruct rest as [|c r]; [done|]. cbn [digit_chars List.map app read_digits].
    cbn [no_digit_head] in Hr. now destruct (is_digit c).
  - cbn [forallb] in Hd. apply andb_true_iff in Hd as [Hd1 Hd2].
    apply N.ltb_lt in Hd1.
    cbn [digit_chars List.map app read_digits].
    rewrite is_digit_char by done.
    change (List.map (N.add 48) ds) with (digit_chars ds).
    rewrite (IH Hd2). f_equal. f_equal. lia.
Qed.

Lemma number_end_cases rest :
  number_end rest = true ->
  no_digit_head rest = true /\ read_fraction rest = Some ([], rest) /\
  read_exponent rest = Some (0, rest).
Proof.
  destruct rest as [|c r]; [done|]. cbn [number_end no_digit_head].
  intros H. apply negb_true_iff in H.
  apply orb_false_iff in H as [H H4]. apply orb_false_iff in H as [H H3].
  apply orb_false_iff in H as [H1 H2].
  rewrite H1. split; [done|]. unfold read_fraction, read_exponent.
  now rewrite H2, H3, H4.
Qed.

Lemma forallb_app_digits (a b : list N) :
  forallb (fun x => x <? 10)%N (a ++ b)
  = forallb (fun x => x <? 10)%N a && forallb (fun x => x <? 10)%N b.
Proof. apply forallb_app. Qed.

Lemma forallb_zeros j : forallb (fun x => x <? 10)%N (repeat 0%N j) = true.
Proof. induction j; [done|]. cbn. done. Qed.

Lemma decimal_shift negative s j :
  0 <= j -> decimal negative (s * 10 ^ j) 0 = decimal negative s j.
Proof.
  intros Hj. unfold decimal.
  assert (H10 : 0 < 10 ^ j) by (apply Z.pow_pos_nonneg; lia).
  destruct (Z.leb_spec s 0) as [Hs|Hs].
  - destruct (Z.leb_spec (s * 10 ^ j) 0); [done|nia].
  - destruct (Z.leb_spec (s * 10 ^ j) 0); [nia|].
    unfold pow10. rewrite (Z.max_l 0 0), (Z.max_l 0 (- 0)) by lia.
    rewrite (Z.max_r 0 j), (Z.max_l 0 (- j)) by lia.
    rewrite Z.pow_0_r. f_equal. lia.
Qed.

Lemma exponent_read e rest :
  no_digit_head rest = true ->
  read_exponent (101%N :: exponent_chars e ++ rest) = Some (e, rest).
Proof.
  intros Hr. unfold read_exponent, exponent_chars.
  change ((101 =? 101)%N || (101 =? 69)%N) with true. cbv iota.
  destruct (to_digits_digits (Z.abs_N e)) as [Hne Hd].
  destruct (Z.ltb_spec e 0) as [He|He]; cbn [app].
  - change (45 =? 45)%N with true. cbv iota beta.
    rewrite read_digits_chars by done.
    destruct (to_digits (Z.abs_N e)) eqn:E; [done|]. cbn [no_digits].
    rewrite <- E, val_to_digits. f_equal. f_equal. lia.
  - change (43 =? 45)%N with false. change (43 =? 43)%N with true. cbv iota beta.
    rewrite read_digits_chars by done.
    destruct (to_digits (Z.abs_N e)) eqn:E; [done|]. cbn [no_digits].
    rewrite <- E, val_to_digits. f_equal. f_equal. lia.
Qed.

Lemma format_read negative ds n rest :
  good ds = true -> number_end rest = true ->
  read_unsigned negative (format ds n ++ rest)
  = Some (decimal negative (Z.of_N (val ds)) (n - Z.of_nat (List.length ds)), rest).
Proof.
  intros Hg Hr.
  destruct (good_digits ds Hg) as (d & r & E & Hd0 & Hd).
  destruct (number_end_cases rest Hr) as (Hr1 & Hr2 & Hr3).
  unfold format, read_unsigned.
  set (k := Z.of_nat (List.length ds)).
  destruct ((k <=? n) && (n <=? 21)) eqn:C1.
  { apply andb_true_iff in C1 as [C1 _]. apply Z.leb_le in C1.
    rewrite read_digits_chars
      by (done || now rewrite forallb_app_digits, Hd, forallb_zeros).
    assert (Hlz : no_digits (ds ++ repeat 0%N (Z.to_nat (n - k)))
                  || leading_zero (ds ++ repeat 0%N (Z.to_nat (n - k))) = false).
    { rewrite E. cbn [app no_digits leading_zero orb].
      destruct (r ++ _); [done|]. now destruct (N.eqb_spec d 0). }
    rewrite Hlz, Hr2, Hr3. f_equal. f_equal.
    rewrite app_nil_r, val_app, val_zeros, repeat_length.
    cbn [List.length]. rewrite Z.sub_0_r, N.add_0_r.
    rewrite N2Z.inj_mul, N2Z.inj_pow, nat_N_Z, Z2Nat.id by lia.
    change (Z.of_N 10) with 10.
    apply decimal_shift. lia. }
  destruct ((0 <? n) && (n <=? 21)) eqn:C2.
  { apply andb_true_iff in C2 as [C2 C3]. apply Z.ltb_lt in C2.
    rewrite C3, andb_true_r in C1. apply Z.leb_gt in C1.
    set (j := Z.to_nat n).
    assert (Hj : (0 < j < List.length ds)%nat) by (subst j k; lia).
    assert (Hsplit : forallb (fun x => x <? 10)%N (take j ds) = true /\
                     forallb (fun x => x <? 10)%N (drop j ds) = true).
    { rewrite <- (take_drop j ds), forallb_app_digits in Hd.
      now apply andb_true_iff in Hd. }
    destruct Hsplit as [Ht Hdr].
    rewrite <- app_assoc. cbn [app].
    rewrite read_digits_chars by done.
    assert (Hlz : no_digits (take j ds) || leading_zero (take j ds) = false).
    { rewrite E. destruct j as [|j']; [lia|]. cbn [take no_digits leading_zero orb].
      destruct (take j' r); [done|]. now destruct (N.eqb_spec d 0). }
    rewrite Hlz. unfold read_fraction. change (46 =? 46)%N with true. cbv iota.
    rewrite read_digits_chars by done.
    assert (Hnd : no_digits (drop j ds) = false).
    { destruct (drop j ds) eqn:Ed; [|done].
      apply (f_equal (@List.length N)) in Ed. rewrite length_drop in Ed.
      cbn in Ed. lia. }
    rewrite Hnd, Hr3. f_equal. f_equal.
    rewrite take_drop. f_equal. rewrite length_drop. subst j k. lia. }
  destruct ((-6 <? n) && (n <=? 0)) eqn:C3.
  { apply andb_true_iff in C3 as [_ C3]. apply Z.leb_le in C3.
    cbn [app read_digits].
    change (is_digit 48) with true. change (is_digit 46) with false.
    cbv iota beta. change (48 - 48)%N with 0%N.
    cbn [no_digits leading_zero orb]. unfold read_fraction.
    change (46 =? 46)%N with true. cbv iota.
    rewrite read_digits_chars
      by (done || now rewrite forallb_app_digits, Hd, forallb_zeros).
    assert (Hnd : no_digits (repeat 0%N (Z.to_nat (- n)) ++ ds) = false).
    { rewrite E. now destruct (repeat 0%N (Z.to_nat (- n))). }
    rewrite Hnd, Hr3. f_equal. f_equal.
    change ([0%N] ++ repeat 0%N (Z.to_nat (- n)) ++ ds)
      with (repeat 0%N (S (Z.to_nat (- n))) ++ ds).
    rewrite val_app, val_zeros, N.mul_0_l, N.add_0_l. f_equal.
    rewrite length_app, repeat_length. subst k. lia. }
  rewrite E in Hd. cbn [forallb] in Hd. apply andb_true_iff in Hd as [Hd1 Hd2].
  assert (Hone : forallb (fun x => x <? 10)%N [d] = true)
    by (cbn [forallb]; now rewrite Hd1).
  rewrite E. destruct r as [|d2 r2].
  - repeat (rewrite <- app_assoc || rewrite <- app_comm_cons).
    rewrite (read_digits_chars [d]) by done.
    cbn [no_digits leading_zero orb]. unfold read_fraction.
    change (101 =? 46)%N with false. cbv iota.
    rewrite exponent_read by done. f_equal. f_equal.
    subst k. rewrite E. cbn [List.length app]. f_equal. lia.
  - repeat (rewrite <- app_assoc || rewrite <- app_comm_cons).
    rewrite (read_digits_chars [d]) by done.
    cbn [no_digits leading_zero orb]. unfold read_fraction.
    change (46 =? 46)%N with true. cbv iota.
    rewrite read_digits_chars by done. cbn [no_digits].
    rewrite exponent_read by done. f_equal. f_equal.
    subst k. rewrite E. cbn [List.length app]. f_equal. lia.
Qed.

Lemma pow10_split j : 0 <= j -> 10 ^ j = 2 ^ j * 5 ^ j.
Proof. intros Hj. now rewrite <- Z.pow_mul_l. Qed.

(** The decimal expansion in full denotes the number. *)
Lemma exact_digits_denote negative m e :
  is_double (Finite negative m e) = true ->
  denotes negative (Finite negative m e) (exact_digits m e) = true.
Proof.
  intros Hv. unfold denotes, exact_digits. cbn [fst snd].
  set (s := Zpos m * pow2 e * 5 ^ Z.max 0 (- e)).
  assert (Hs : 0 < s).
  { subst s. apply Z.mul_pos_pos; [apply Z.mul_pos_pos; [lia|apply pow2_pos]|].
    apply Z.pow_pos_nonneg; lia. }
  rewrite to_digits_good by lia. cbn [andb].
  apply bool_decide_eq_true_2.
  rewrite val_to_digits, Z2N.id by lia.
  replace (Z.of_nat (List.length (to_digits (Z.to_N s))) + Z.min 0 e
           - Z.of_nat (List.length (to_digits (Z.to_N s)))) with (Z.min 0 e) by lia.
  unfold decimal. destruct (Z.leb_spec s 0); [lia|].
  apply round_exact; [done| |apply pow10_pos|].
  - apply Z.mul_pos_pos; [done|apply pow10_pos].
  - unfold pow10, pow2 in *. subst s.
    destruct (Z.le_gt_cases 0 e) as [He|He].
    + rewrite (Z.min_l 0 e) by lia.
      change (Z.max 0 0) with 0. change (Z.max 0 (- 0)) with 0.
      rewrite (Z.max_l 0 (- e)), (Z.max_r 0 e) by lia.
      rewrite !Z.pow_0_r. ring.
    + rewrite (Z.min_r 0 e) by lia.
      rewrite (Z.max_l 0 e), (Z.max_r 0 (- e)) by lia.
      rewrite !Z.pow_0_r, (pow10_split (- e)) by lia. ring.
Qed.

Lemma candidate_denotes negative x num den k c :
  candidate negative x num den k = Some c -> denotes negative x c = true.
Proof.
  unfold candidate.
  repeat match goal with
         | |- context [if denotes negative x ?c then _ else _] =>
             destruct (denotes negative x c) eqn:?
         end; intros [= <-]; done.
Qed.

Lemma shortest_denotes negative m e :
  is_double (Finite negative m e) = true ->
  denotes negative (Finite negative m e) (shortest negative m e) = true.
Proof.
  intros Hv. unfold shortest. generalize 1. generalize 17%nat.
  induction n as [|f IH]; intros k; cbn [shortest_from].
  - now apply exact_digits_denote.
  - destruct (candidate _ _ _ _ k) as [c|] eqn:E; [|apply IH].
    now apply candidate_denotes in E.
Qed.

Lemma format_head ds n :
  good ds = true -> exists c t, format ds n = c :: t /\ is_digit c = true.
Proof.
  intros Hg. destruct (good_digits ds Hg) as (d & r & E & Hd0 & Hd).
  rewrite E in Hd. cbn [forallb] in Hd. apply andb_true_iff in Hd as [Hd1 _].
  apply N.ltb_lt in Hd1. pose proof (is_digit_char d Hd1) as Hc.
  unfold format. rewrite E.
  destruct ((Z.of_nat (List.length (d :: r)) <=? n) && (n <=? 21));
    [eexists _, _; split; [reflexivity|done]|].
  destruct ((0 <? n) && (n <=? 21)) eqn:C2.
  { apply andb_true_iff in C2 as [C2 _]. apply Z.ltb_lt in C2.
    destruct (Z.to_nat n) as [|j] eqn:Ej; [lia|].
    eexists _, _; split; [reflexivity|done]. }
  destruct ((-6 <? n) && (n <=? 0));
    [eexists _, _; split; [reflexivity|done]|].
  destruct r; eexists _, _; split; try reflexivity; done.
Qed.

(** [JSON.parse] reads a number that [JSON.stringify] has written. *)
Lemma read_number_to_string x rest :
  exportable x = true -> number_end rest = true ->
  read_number (number_to_string x ++ rest) = Some (x, rest).
Proof.
  intros Hx Hr. destruct x as [| |[]|negative m e]; try done.
  - destruct (number_end_cases rest Hr) as (Hr1 & Hr2 & Hr3).
    change (number_to_string (Zero false) ++ rest)
      with (digit_chars [0%N] ++ rest).
    unfold read_number.
    change (split_sign (digit_chars [0%N] ++ rest))
      with (false, digit_chars [0%N] ++ rest).
    cbv iota beta. unfold read_unsigned.
    rewrite read_digits_chars by done.
    cbn [no_digits leading_zero orb]. now rewrite Hr2, Hr3.
  - cbn [exportable] in Hx. cbn [number_to_string].
    pose proof (shortest_denotes negative m e Hx) as Hd.
    destruct (shortest negative m e) as [ds n].
    unfold denotes in Hd. cbn [fst snd] in Hd.
    apply andb_true_iff in Hd as [Hg Hd]. apply bool_decide_eq_true_1 in Hd.
    rewrite <- Hd. rewrite <- (format_read negative ds n rest Hg Hr).
    unfold read_number. destruct negative.
    + reflexivity.
    + cbn [app].
      destruct (format_head ds n Hg) as (c & t & Ef & Hc).
      rewrite Ef. cbn [app]. unfold split_sign. unfold is_digit in Hc.
      destruct (N.eqb_spec c 45) as [->|]; [done|reflexivity].
Qed.

(** The Number for a positive integer below 2^53: the integer itself,
    with its leading bit moved to the 53rd place. *)
Lemma of_Z_small z :
  0 < z < 2 ^ 53 ->
  let l := Z.log2 z in
  let m := Z.to_pos (z * 2 ^ (52 - l)) in
  0 <= l < 53 /\ Zpos m = z * 2 ^ (52 - l) /\
  is_double (Finite false m (l - 52)) = true /\
  of_Z z = Finite false m (l - 52).
Proof.
  intros [H0 H1]. destruct z as [|p|p]; [lia| |lia]. cbv zeta.
  set (l := Z.log2 (Zpos p)).
  assert (Hl : 0 <= l < 53).
  { subst l. split; [apply Z.log2_nonneg|]. apply Z.log2_lt_pow2; lia. }
  destruct (Z.log2_spec (Zpos p)) as [L1 L2]; [lia|]. fold l in L1, L2.
  set (m := Z.to_pos (Zpos p * 2 ^ (52 - l))).
  assert (Hpos : 0 < 2 ^ (52 - l)) by (apply Z.pow_pos_nonneg; lia).
  assert (Hm : Zpos m = Zpos p * 2 ^ (52 - l)).
  { subst m. rewrite Z2Pos.id; [done|]. now apply Z.mul_pos_pos. }
  assert (E1 : 2 ^ Z.succ l * 2 ^ (52 - l) = 2 ^ 53)
    by (rewrite <- Z.pow_add_r by lia; f_equal; lia).
  assert (E2 : 2 ^ l * 2 ^ (52 - l) = 2 ^ 52)
    by (rewrite <- Z.pow_add_r by lia; f_equal; lia).
  assert (Hd : is_double (Finite false m (l - 52)) = true).
  { cbn [is_double]. rewrite Hm.
    apply andb_true_iff. split; [|apply orb_true_iff; left; apply Z.leb_le; nia].
    apply andb_true_iff. split; [|apply Z.ltb_lt; nia].
    apply andb_true_iff. split; apply Z.leb_le; lia. }
  split; [exact Hl|]. split; [exact Hm|]. split; [exact Hd|].
  cbn [of_Z].
  apply (round_exact false m (l - 52) (Zpos p) 1 Hd); [lia|lia|].
  unfold pow2. rewrite Hm.
  rewrite (Z.max_r 0 (- (l - 52))), (Z.max_l 0 (l - 52)) by lia.
  replace (- (l - 52)) with (52 - l) by lia. lia.
Qed.

(** An integer from 0 to 2^53 - 1 is a double, and not -0. *)
Lemma of_Z_exportable z : 0 <= z < 2 ^ 53 -> exportable (of_Z z) = true.
Proof.
  intros [H0 H1]. destruct (Z.eq_dec z 0) as [->|Hz]; [reflexivity|].
  destruct (of_Z_small z ltac:(lia)) as (_ & _ & Hd & ->). exact Hd.
Qed.

(** It is that integer: nothing is rounded away. *)
Lemma integer_value_of_Z z :
  0 <= z < 2 ^ 53 -> integer_value (of_Z z) = Some z.
Proof.
  intros [H0 H1]. destruct (Z.eq_dec z 0) as [->|Hz]; [reflexivity|].
  destruct (of_Z_small z ltac:(lia)) as (Hl & Hm & _ & ->).
  cbn [integer_value]. unfold pow2.
  rewrite (Z.max_r 0 (- (Z.log2 z - 52))), (Z.max_l 0 (Z.log2 z - 52)) by lia.
  replace (- (Z.log2 z - 52)) with (52 - Z.log2 z) by lia.
  rewrite Hm. change (2 ^ 0) with 1. rewrite Z.mul_1_r.
  assert (Hpos : 0 < 2 ^ (52 - Z.log2 z)) by (apply Z.pow_pos_nonneg; lia).
  rewrite Z.mod_mul, Z.div_mul by lia. reflexivity.
Qed.

End Number_facts.
Import Number_facts.

(** ** [JSON.parse] reads back what [JSON.stringify] writes *)

Module JSON_facts.

Lemma skip_ws_app (w s : jsstring) :
  forallb is_json_ws w = true -> skip_ws (w ++ s) = skip_ws s.
Proof.
  induction w as [|c w IH]; simpl; [done|].
  intros [Hc Hw]%andb_true_iff. rewrite Hc. auto.
Qed.

Lemma hex_value_digit n : n < 16 -> hex_value (hex_digit n) = Some n.
Proof.
  intros Hn. unfold hex_value, hex_digit.
  destruct (N.ltb_spec n 10).
  - replace ((48 <=? 48 + n) && (48 + n <=? 57)) with true.
    + f_equal. lia.
    + symmetry. apply andb_true_iff. split; apply N.leb_le; lia.
  - replace ((48 <=? 87 + n) && (87 + n <=? 57)) with false.
    + replace ((97 <=? 87 + n) && (87 + n <=? 102)) with true.
      * f_equal. lia.
      * symmetry. apply andb_true_iff. split; apply N.leb_le; lia.
    + symmetry. apply andb_false_iff. right. apply N.leb_gt. lia.
Qed.

Lemma hex4_escape c :
  c < 65536 ->
  hex4 (hex_digit (c / 4096 mod 16)) (hex_digit (c / 256 mod 16))
       (hex_digit (c / 16 mod 16)) (hex_digit (c mod 16)) = Some c.
Proof.
  intros Hc. unfold hex4.
  rewrite !hex_value_digit by (apply N.mod_lt; lia).
  f_equal. zify. Z.to_euclidean_division_equations. lia.
Qed.

Lemma parse_unicode_escape c t :
  c < 65536 ->
  parse_string_body (unicode_escape c ++ t) = cons_fst c (parse_string_body t).
Proof.
  intros Hc. unfold unicode_escape.
  cbn [app parse_string_body]. cbn [N.eqb Pos.eqb].
  now rewrite hex4_escape.
Qed.

Lemma parse_quote_unit c t :
  is_high_surrogate c = false -> is_low_surrogate c = false ->
  parse_string_body (quote_unit c ++ t) = cons_fst c (parse_string_body t).
Proof.
  intros _ _. unfold quote_unit.
  repeat match goal with
         | |- context [N.eqb c ?k] =>
             destruct (N.eqb_spec c k) as [->|?]; [reflexivity|]
         end.
  destruct (N.ltb_spec c 32) as [Hlt|Hge].
  - apply parse_unicode_escape. lia.
  - cbn [app parse_string_body].
    destruct (N.eqb_spec c 34); [lia|].
    destruct (N.eqb_spec c 92); [lia|].
    destruct (N.ltb_spec c 32); [lia|]. reflexivity.
Qed.

Lemma surrogate_lt c :
  is_high_surrogate c || is_low_surrogate c = true -> 92 < c /\ c < 65536.
Proof.
  unfold is_high_surrogate, is_low_surrogate.
  rewrite orb_true_iff, !andb_true_iff, !N.leb_le. lia.
Qed.

Lemma parse_literal_unit c t :
  92 < c -> parse_string_body (c :: t) = cons_fst c (parse_string_body t).
Proof.
  intros Hc. cbn [parse_string_body].
  destruct (N.eqb_spec c 34); [lia|].
  destruct (N.eqb_spec c 92); [lia|].
  destruct (N.ltb_spec c 32); [lia|]. reflexivity.
Qed.

Lemma parse_quote_units_upto n : forall s rest,
  (List.length s <= n)%nat ->
  parse_string_body (quote_units s ++ dquote :: rest) = Some (s, rest).
Proof.
  induction n as [|n IH]; intros [|c r] rest Hlen; simpl in Hlen; try lia;
    try reflexivity.
  cbn [quote_units].
  destruct (is_high_surrogate c) eqn:Hh.
  - destruct (surrogate_lt c) as [H1 H2]; [now rewrite Hh|].
    destruct r as [|c2 r2].
    + rewrite parse_unicode_escape by done. reflexivity.
    + destruct (is_low_surrogate c2) eqn:Hl2.
      * destruct (surrogate_lt c2) as [H3 H4]; [now rewrite Hl2, orb_true_r|].
        cbn [app]. rewrite !parse_literal_unit by done.
        rewrite IH by (simpl in Hlen; lia). reflexivity.
      * rewrite <- app_assoc, parse_unicode_escape by done.
        rewrite IH by lia. reflexivity.
  - destruct (is_low_surrogate c) eqn:Hl.
    + destruct (surrogate_lt c) as [H1 H2]; [now rewrite Hl, orb_true_r|].
      rewrite <- app_assoc, parse_unicode_escape by done.
      rewrite IH by lia. reflexivity.
    + rewrite <- app_assoc, parse_quote_unit by done.
      rewrite IH by lia. reflexivity.
Qed.

Lemma parse_quote_units s rest :
  parse_string_body (quote_units s ++ dquote :: rest) = Some (s, rest).
Proof. now apply (parse_quote_units_upto (List.length s)). Qed.

Lemma stop_cases rest :
  stop rest = true ->
  rest = [] \/ exists c r, rest = c :: r /\ (c = 44 \/ c = 93 \/ c = 125 \/ c = 10).
Proof.
  destruct rest as [|c r]; [auto|]. simpl.
  rewrite !orb_true_iff, !N.eqb_eq. intros H. right. exists c, r. intuition.
Qed.

Lemma stop_number_end rest : stop rest = true -> number_end rest = true.
Proof.
  intros Hs.
  destruct (stop_cases rest Hs) as [->|(c & r & -> & [->|[->|[->| ->]]])];
    reflexivity.
Qed.

Lemma exportable_finite x : exportable x = true -> is_finite x = true.
Proof. now destruct x. Qed.

Lemma parse_number_to_string x rest :
  exportable x = true -> stop rest = true ->
  parse_number (number_to_string x ++ rest) = Some (JNum x, rest).
Proof.
  intros Hx Hs. unfold parse_number.
  now rewrite read_number_to_string by auto using stop_number_end.
Qed.

Lemma wrap_eq gap ind o c items :
  items <> [] ->
  wrap gap ind o c items =
  o :: pre gap ind ++ join (44 :: pre gap ind) items ++ post gap ind ++ [c].
Proof.
  intros Hne. unfold wrap, pre, post.
  destruct items as [|x r]; [done|].
  destruct gap as [|g gs]; [reflexivity|].
  cbn [app]. now rewrite <- !app_assoc.
Qed.

Lemma pre_ws gap ind :
  forallb is_json_ws gap = true -> forallb is_json_ws ind = true ->
  forallb is_json_ws (pre gap ind) = true.
Proof.
  intros Hg Hi. unfold pre. destruct gap; [done|].
  cbn [forallb]. rewrite forallb_app, Hi, Hg. reflexivity.
Qed.

Lemma post_stop gap ind c rest :
  c = 93 \/ c = 125 -> stop (post gap ind ++ c :: rest) = true.
Proof.
  intros Hc. unfold post. destruct gap; [|reflexivity].
  destruct Hc as [-> | ->]; reflexivity.
Qed.

Lemma post_skip gap ind rest :
  forallb is_json_ws ind = true ->
  skip_ws (post gap ind ++ rest) = skip_ws rest.
Proof.
  intros Hi. apply skip_ws_app. unfold post. destruct gap; [done|].
  cbn [forallb]. now rewrite Hi.
Qed.

Lemma value_start_not_ws c :
  value_start c = true -> is_json_ws c = false /\ c <> 93 /\ c <> 125.
Proof.
  unfold value_start, is_json_ws.
  rewrite !orb_true_iff, andb_true_iff, !N.eqb_eq, !N.leb_le.
  intros H. split; [|lia].
  rewrite !orb_false_iff, !N.eqb_neq. lia.
Qed.

Lemma skip_ws_start c t : value_start c = true -> skip_ws (c :: t) = c :: t.
Proof.
  intros [H _]%value_start_not_ws. cbn [skip_ws]. now rewrite H.
Qed.

Lemma number_head x :
  exportable x = true ->
  exists c t, number_to_string x = c :: t /\ (c = 45 \/ 48 <= c <= 57).
Proof.
  intros Hx. destruct x as [| |[]|negative m e]; try done.
  - exists 48, []. split; [reflexivity|]. right. lia.
  - cbn [exportable] in Hx. cbn [number_to_string].
    pose proof (shortest_denotes negative m e Hx) as Hd.
    destruct (shortest negative m e) as [ds n].
    unfold denotes in Hd. cbn [fst snd] in Hd.
    apply andb_true_iff in Hd as [Hg _].
    destruct (format_head ds n Hg) as (c & t & Ef & Hc).
    destruct negative.
    + eexists _, _. split; [reflexivity|]. now left.
    + exists c, t. split; [done|]. right. unfold is_digit in Hc.
      apply andb_true_iff in Hc as [H1 H2].
      apply N.leb_le in H1. apply N.leb_le in H2. lia.
Qed.

Lemma ser_head gap ind v :
  plain v -> exists c t, ser gap ind v = c :: t /\ value_start c = true.
Proof.
  intros K. destruct v as [|[]|x|s|l|kvs]; cbn [ser];
    try (eexists _, _; split; reflexivity).
  - cbn [plain] in K. rewrite (exportable_finite x K).
    destruct (number_head x K) as (c & t & -> & Hc). exists c, t. split; [done|].
    unfold value_start. rewrite !orb_true_iff, andb_true_iff, !N.eqb_eq, !N.leb_le.
    lia.
  - unfold wrap. destruct (List.map _ l); [|destruct gap];
      eexists _, _; split; reflexivity.
  - unfold wrap. destruct (List.map _ kvs); [|destruct gap];
      eexists _, _; split; reflexivity.
Qed.

Lemma parse_value_skip fuel w s :
  forallb is_json_ws w = true -> parse_value fuel (w ++ s) = parse_value fuel s.
Proof.
  intros Hw. destruct fuel; [done|]. cbn [parse_value].
  now rewrite skip_ws_app.
Qed.

Lemma parse_value_number n c t :
  c = 45 \/ 48 <= c <= 57 ->
  parse_value (S n) (c :: t) = parse_number (c :: t).
Proof.
  intros Hc. cbn [parse_value skip_ws].
  assert (is_json_ws c = false) as ->.
  { unfold is_json_ws. rewrite !orb_false_iff, !N.eqb_neq. lia. }
  repeat match goal with
         | |- context [N.eqb c ?k] => destruct (N.eqb_spec c k); [lia|]
         end.
  reflexivity.
Qed.

Lemma parse_elements_items gap ind l :
  forallb is_json_ws gap = true -> forallb is_json_ws ind = true ->
  Forall reads_back l ->
  fold_right (fun x P => plain x /\ P) True l ->
  l <> [] ->
  forall rest fuel,
    (fold_right (fun x n => S (weight x + n)) O l <= fuel)%nat ->
    parse_elements fuel
      (pre gap ind ++ join (44 :: pre gap ind) (List.map (ser gap (ind ++ gap)) l)
         ++ post gap ind ++ 93 :: rest) = Some (l, rest).
Proof.
  intros Hg Hi HF. 
  assert (Hi' : forallb is_json_ws (ind ++ gap) = true)
    by now rewrite forallb_app, Hi, Hg.
  pose proof (pre_ws gap ind Hg Hi) as Hpre.
  induction HF as [|x r Hx HF IH]; [done|].
  intros [Kx Kr] _ rest [|n] Hfuel; cbn [fold_right] in Hfuel; [lia|].
  cbn [parse_elements List.map].
  destruct r as [|y r'].
  - cbn [join List.map].
    rewrite parse_value_skip by done.
    rewrite (Hx Kx gap (ind ++ gap) (post gap ind ++ 93 :: rest) n); try done.
    + rewrite post_skip by done. reflexivity.
    + apply post_stop. now left.
    + cbn [fold_right] in Hfuel. lia.
  - change (join ?s (?a :: List.map ?f (y :: r')))
      with (a ++ s ++ join s (List.map f (y :: r'))).
    rewrite <- !app_assoc. rewrite parse_value_skip by done.
    rewrite (Hx Kx gap (ind ++ gap) _ n); try done; [|lia].
    cbn [app skip_ws is_json_ws N.eqb Pos.eqb orb cons_fst].
    rewrite IH; [reflexivity|done|done|lia].
Qed.

Lemma parse_member_key k t :
  parse_string_body (quote_units k ++ [dquote] ++ t) = Some (k, t).
Proof. apply parse_quote_units. Qed.

Lemma parse_members_items gap ind l :
  forallb is_json_ws gap = true -> forallb is_json_ws ind = true ->
  Forall (fun kv => reads_back (snd kv)) l ->
  fold_right (fun kv P => plain (snd kv) /\ P) True l ->
  l <> [] ->
  forall rest fuel,
    (fold_right (fun kv n => S (weight (snd kv) + n)) O l <= fuel)%nat ->
    parse_members fuel
      (pre gap ind
         ++ join (44 :: pre gap ind)
              (List.map (fun kv => member gap (fst kv)
                                     (ser gap (ind ++ gap) (snd kv))) l)
         ++ post gap ind ++ 125 :: rest) = Some (l, rest).
Proof.
  intros Hg Hi HF.
  assert (Hi' : forallb is_json_ws (ind ++ gap) = true)
    by now rewrite forallb_app, Hi, Hg.
  pose proof (pre_ws gap ind Hg Hi) as Hpre.
  assert (Hsp : forall t : jsstring,
             exists w, match gap with [] => t | _ => 32 :: t end = w ++ t /\
                       forallb is_json_ws w = true).
  { intros t. destruct gap; [by exists []|by exists [32]]. }
  induction HF as [|[k x] r Hx HF IH]; [done|].
  intros [Kx Kr] _ rest [|n] Hfuel; cbn [fold_right snd] in Hfuel; [lia|].
  cbn [parse_members List.map fst snd] in *.
  rewrite skip_ws_app by done.
  destruct r as [|y r'].
  - cbn [join List.map]. unfold member at 1, quote.
    cbn [app skip_ws is_json_ws N.eqb Pos.eqb orb dquote].
    rewrite <- !app_assoc. rewrite parse_member_key.
    cbn [app skip_ws is_json_ws N.eqb Pos.eqb orb].
    destruct (Hsp (ser gap (ind ++ gap) x ++ post gap ind ++ 125 :: rest))
      as (w & Ew & Hw).
    replace (match gap with [] => ser gap (ind ++ gap) x | _ => 32 :: ser gap (ind ++ gap) x end
             ++ post gap ind ++ 125 :: rest)
      with (w ++ ser gap (ind ++ gap) x ++ post gap ind ++ 125 :: rest)
      by (rewrite <- Ew; now destruct gap).
    rewrite parse_value_skip by done.
    rewrite (Hx Kx gap (ind ++ gap) (post gap ind ++ 125 :: rest) n); try done.
    + rewrite post_skip by done. reflexivity.
    + apply post_stop. now right.
    + cbn [fold_right] in Hfuel. lia.
  - change (join ?s (?a :: List.map ?f (y :: r')))
      with (a ++ s ++ join s (List.map f (y :: r'))).
    unfold member at 1, quote.
    cbn [app skip_ws is_json_ws N.eqb Pos.eqb orb dquote].
    rewrite <- !app_assoc. rewrite parse_member_key.
    cbn [app skip_ws is_json_ws N.eqb Pos.eqb orb].
    match goal with
    | |- context [parse_value n (?m ++ ?t)] =>
        destruct (Hsp (ser gap (ind ++ gap) x ++ t)) as (w & Ew & Hw);
        replace (m ++ t) with (w ++ ser gap (ind ++ gap) x ++ t)
          by (rewrite <- Ew; now destruct gap)
    end.
    rewrite parse_value_skip by done.
    rewrite (Hx Kx gap (ind ++ gap) _ n); try done; [|lia].
    cbn [app skip_ws is_json_ws N.eqb Pos.eqb orb cons_fst].
    rewrite <- ?app_assoc. rewrite IH; [reflexivity|done|done|lia].
Qed.

Lemma key_before_ne a b : key_before a b = true -> a <> b.
Proof.
  unfold key_before. intros H ->.
  destruct (array_index b).
  - apply N.ltb_lt in H. lia.
  - now rewrite bool_decide_eq_true_2 in H.
Qed.

Lemma get_before k acc :
  Forall (fun k' => key_before k' k = true) (List.map fst acc) -> get k acc = None.
Proof.
  induction acc as [|[k' v'] acc IH]; cbn [List.map fst get]; [done|].
  intros H. inversion H as [|? ? Hk Hr]; subst.
  apply key_before_ne in Hk.
  destruct (decide (k = k')) as [->|]; [done|auto].
Qed.

Lemma add_index_last i k v acc :
  array_index k = Some i ->
  Forall (fun k' => key_before k' k = true) (List.map fst acc) ->
  add_index i k v acc = acc ++ [(k, v)].
Proof.
  intros Ek. induction acc as [|[k' v'] acc IH]; cbn [List.map fst add_index app];
    [done|].
  intros H. inversion H as [|? ? Hk Hr]; subst.
  unfold key_before in Hk. rewrite Ek in Hk.
  destruct (array_index k') as [j|]; [|done].
  apply N.ltb_lt in Hk. destruct (N.ltb_spec i j); [lia|].
  now rewrite IH.
Qed.

(** A key that may come after all the keys of the object is added last. *)
Lemma set_prop_last k v acc :
  Forall (fun k' => key_before k' k = true) (List.map fst acc) ->
  set_prop k v acc = acc ++ [(k, v)].
Proof.
  intros H. unfold set_prop. rewrite get_before by done.
  destruct (array_index k) as [i|] eqn:Ek; [|done].
  now apply add_index_last.
Qed.

Lemma ordered_before a k r :
  ordered (a ++ k :: r) = true -> Forall (fun k' => key_before k' k = true) a.
Proof.
  induction a as [|x a IH]; cbn [app ordered]; [constructor|].
  intros [Hx Ha]%andb_true_iff. constructor; [|auto].
  rewrite forallb_app in Hx. apply andb_true_iff in Hx as [_ Hx].
  cbn [forallb] in Hx. now apply andb_true_iff in Hx as [Hx _].
Qed.

Lemma build_object_from acc l :
  ordered (List.map fst (acc ++ l)) = true ->
  fold_left (fun o kv => set_prop (fst kv) (snd kv) o) l acc = acc ++ l.
Proof.
  revert acc. induction l as [|[k v] l IH]; intros acc Ho; cbn [fold_left].
  - now rewrite app_nil_r.
  - cbn [fst snd]. rewrite set_prop_last.
    + rewrite IH; rewrite <- app_assoc; [done|done].
    + rewrite List.map_app in Ho. cbn [List.map fst] in Ho.
      now apply ordered_before in Ho.
Qed.

(** Members in the order of enumeration give the object that lists them. *)
Lemma build_object_ordered l :
  ordered (List.map fst l) = true -> build_object l = l.
Proof. intros H. unfold build_object. now rewrite build_object_from. Qed.

Lemma join_head sep c t (r : list jsstring) :
  exists t', join sep ((c :: t) :: r) = c :: t'.
Proof. destruct r; eexists; reflexivity. Qed.

Lemma parse_ser v : reads_back v.
Proof.
  induction v as [| b | x | s | l IH | kvs IH] using json_nested_ind;
    intros K gap ind rest [|n] Hg Hi Hs Hfuel; cbn [weight] in Hfuel; try lia.
  - reflexivity.
  - destruct b; reflexivity.
  - cbn [ser]. cbn [plain] in K. rewrite (exportable_finite x K).
    destruct (number_head x K) as (c & t & E & Hc).
    pose proof (parse_number_to_string x rest K Hs) as Hp.
    rewrite E in *. cbn [app] in *. now rewrite parse_value_number.
  - cbn [ser]. unfold quote.
    cbn [app parse_value skip_ws is_json_ws dquote N.eqb Pos.eqb orb].
    rewrite <- app_assoc. cbn [app]. now rewrite parse_quote_units.
  - cbn [ser]. destruct l as [|x r]; [reflexivity|].
    rewrite wrap_eq by done.
    pose proof (parse_elements_items gap ind (x :: r) Hg Hi IH K
                  ltac:(done) rest n ltac:(lia)) as Hp.
    cbn [app parse_value skip_ws is_json_ws N.eqb Pos.eqb orb].
    rewrite <- !app_assoc. cbn [app]. rewrite Hp.
    rewrite skip_ws_app by now apply pre_ws.
    cbn [List.map].
    destruct (ser_head gap (ind ++ gap) x (proj1 K)) as (c & t & -> & Hc).
    destruct (join_head (44 :: pre gap ind) c t
                (List.map (ser gap (ind ++ gap)) r)) as (t' & ->).
    cbn [app]. rewrite skip_ws_start by done.
    destruct (value_start_not_ws c Hc) as (_ & H93 & _).
    destruct (N.eqb_spec c 93); [done|reflexivity].
  - cbn [ser]. destruct kvs as [|[k x] r]; [reflexivity|].
    rewrite wrap_eq by done. destruct K as [Knd K].
    pose proof (parse_members_items gap ind ((k, x) :: r) Hg Hi IH K
                  ltac:(done) rest n ltac:(lia)) as Hp.
    cbn [app parse_value skip_ws is_json_ws N.eqb Pos.eqb orb].
    rewrite <- !app_assoc. cbn [app]. rewrite Hp.
    rewrite skip_ws_app by now apply pre_ws.
    rewrite build_object_ordered by done.
    cbn [List.map fst snd]. unfold member at 1, quote. cbn [app].
    match goal with
    | |- context [join ?sep ((dquote :: ?t) :: ?r)] =>
        destruct (join_head sep dquote t r) as (t' & ->)
    end.
    reflexivity.
Qed.

Lemma length_join sep (items : list jsstring) :
  (total_length items <= List.length (join sep items))%nat.
Proof.
  induction items as [|x r IH]; [cbn; lia|].
  destruct r as [|y r]; [cbn; lia|].
  change (join sep (x :: y :: r)) with (x ++ sep ++ join sep (y :: r)).
  rewrite !length_app. cbn [total_length] in *. lia.
Qed.

Lemma length_wrap gap ind o c (items : list jsstring) :
  (2 + total_length items
   <= List.length (wrap gap ind o c items))%nat.
Proof.
  destruct items as [|x r]; [cbn; lia|].
  rewrite wrap_eq by done. cbn [List.length].
  rewrite !length_app. cbn [List.length].
  pose proof (length_join (44 :: pre gap ind) (x :: r)). lia.
Qed.

Lemma weight_bound v : plain v -> forall gap ind,
  (weight v < 2 * List.length (ser gap ind v))%nat.
Proof.
  induction v as [| b | x | s | l IH | kvs IH] using json_nested_ind;
    intros K gap ind; cbn [ser weight].
  - cbn. lia.
  - destruct b; cbn; lia.
  - cbn [plain] in K. rewrite (exportable_finite x K).
    destruct (number_head x K) as (c & t & -> & _). cbn [List.length]. lia.
  - unfold quote. cbn [List.length]. lia.
  - pose proof (length_wrap gap ind 91 93 (List.map (ser gap (ind ++ gap)) l)) as H.
    enough (fold_right (fun x n => S (weight x + n)) O l
            <= 2 * total_length (List.map (ser gap (ind ++ gap)) l))%nat by lia.
    clear H. cbn [plain] in K.
    induction IH as [|x r Hx _ IHr]; cbn [fold_right List.map total_length] in *;
      [cbn; lia|]. destruct K as [Kx Kr].
    specialize (Hx Kx gap (ind ++ gap)). specialize (IHr Kr). lia.
  - pose proof (length_wrap gap ind 123 125
                  (List.map (fun kv => member gap (fst kv)
                                         (ser gap (ind ++ gap) (snd kv))) kvs)) as H.
    enough (fold_right (fun kv n => S (weight (snd kv) + n)) O kvs
            <= 2 * total_length
                 (List.map (fun kv => member gap (fst kv)
                                        (ser gap (ind ++ gap) (snd kv))) kvs))%nat
      by lia.
    clear H. cbn [plain] in K. destruct K as [_ K].
    induction IH as [|[k x] r Hx _ IHr];
      cbn [fold_right List.map total_length fst snd] in *; [cbn; lia|].
    destruct K as [Kx Kr].
    specialize (Hx Kx gap (ind ++ gap)). specialize (IHr Kr). unfold member at 1.
    rewrite length_app. cbn [List.length].
    destruct gap; cbn [List.length] in *; lia.
Qed.

Lemma parse_stringify v space :
  plain v -> parse (stringify v space) = Some v.
Proof.
  intros K. unfold parse, stringify.
  set (gap := repeat 32 (Nat.min 10 space)).
  assert (Hg : forallb is_json_ws gap = true).
  { subst gap. induction (Nat.min 10 space); [done|]. cbn. done. }
  pose proof (parse_ser v K gap [] [] (2 * List.length (ser gap [] v) + 2)%nat
                Hg eq_refl eq_refl) as H.
  rewrite app_nil_r in H. rewrite H; [reflexivity|].
  pose proof (weight_bound v K gap []). lia.
Qed.

End JSON_facts.
Import JSON_facts.

(** ** An AnalysisResult and its object *)

Module Result_facts.








End Result_facts.
Import Result_facts.

(** ** The analysis service *)

Module Server_facts.
Import Server Examples.

Lemma limiter_admits req : prior_hits req < rate_max -> limiter req = None.
Proof.
  intros H. unfold limiter. destruct (N.ltb_spec rate_max (prior_hits req + 1)); [lia|done].
Qed.

(** A request with a file part has a multipart body, which the body
    parser leaves alone. *)
Lemma parts_express_json req f r : parts req = f :: r -> express_json req = None.
Proof. unfold parts, express_json. now destruct (payload req). Qed.

Lemma upload_single_pdf f :
  fieldname f = str "pdf" -> mimetype f = str "application/pdf" ->
  byteLength (content f) < fileSize_limit ->
  upload_single (str "pdf") [f] None = inr (Some f).
Proof.
  intros Hf Hm Hs. cbn [upload_single].
  rewrite bool_decide_eq_true_2 by done.
  rewrite (bool_decide_eq_false_2 (is_Some None)) by (intros [? ?]; done).
  cbn [negb orb]. unfold fileFilter. rewrite decide_True by done.
  destruct (N.leb_spec fileSize_limit (byteLength (content f))); [lia|done].
Qed.

Ltac run_handler :=
  unfold handler, try_catch, mbind, Handler_bind, mret, Handler_ret, await,
    reply, raise.

Section handler_equations.
Variable JSON_parse : jsstring -> option json.

Lemma handler_blank env f text :
  pdfParse env (content f) = Returned text ->
  forallb is_trim_space text = true ->
  handler JSON_parse env (Some f) =
  (mkResponse 400 (error_body "Could not extract text from PDF"),
   [CallPdfParse (content f)]).
Proof.
  intros Hp Hb. run_handler. rewrite Hp.
  change (negb (truthy text) || (strlen (trim text) =? 0)%Z) with (blank text).
  rewrite blank_spec, Hb. reflexivity.
Qed.

Lemma handler_not_configured env f text :
  pdfParse env (content f) = Returned text ->
  forallb is_trim_space text = false ->
  openai env = None ->
  handler JSON_parse env (Some f) =
  (mkResponse 503
     (JObj [ (str "error", JStr (str "AI service configuration error"));
             (str "message",
              JStr (str "OpenAI API key not configured. Please set OPENAI_API_KEY in environment variables."));
             (str "suggestion",
              JStr (str "Try the demo mode in the frontend for a sample analysis.")) ]),
   [CallPdfParse (content f)]).
Proof.
  intros Hp Hb Ho. run_handler. rewrite Hp.
  change (negb (truthy text) || (strlen (trim text) =? 0)%Z) with (blank text).
  rewrite blank_spec, Hb, Ho. reflexivity.
Qed.

Lemma handler_reply env f text client reply :
  pdfParse env (content f) = Returned text ->
  forallb is_trim_space text = false ->
  openai env = Some client ->
  client (prompt text) = Returned (Some reply) ->
  handler JSON_parse env (Some f) =
  (match JSON_parse (trim reply) with
   | Some analysis =>
       mkResponse 200 (with_metadata analysis (metadata_object f text (now env)))
   | None => mkResponse 500 (error_body "Failed to process AI response")
   end,
   [CallPdfParse (content f); CallModel (prompt text)]).
Proof.
  intros Hp Hb Ho Hc. run_handler. rewrite Hp.
  change (negb (truthy text) || (strlen (trim text) =? 0)%Z) with (blank text).
  rewrite blank_spec, Hb, Ho, Hc. cbn [app].
  destruct (JSON_parse (trim reply)); reflexivity.
Qed.
End handler_equations.

Lemma get_update_eq k v kvs :
  is_Some (get k kvs) -> get k (update k v kvs) = Some v.
Proof.
  induction kvs as [|[k' v'] r IH]; cbn [get update]; [by intros [? ?]|].
  destruct (decide (k = k')) as [->|Hne]; cbn [get].
  - now rewrite decide_True.
  - now rewrite decide_False.
Qed.

Lemma get_update_ne k k' v kvs :
  k <> k' -> get k (update k' v kvs) = get k kvs.
Proof.
  intros Hne. induction kvs as [|[k2 v2] r IH]; cbn [get update]; [done|].
  destruct (decide (k' = k2)) as [->|Hne2]; cbn [get].
  - now rewrite !decide_False.
  - destruct (decide (k = k2)); [done|apply IH].
Qed.

Lemma get_add_index_eq k i v kvs :
  get k kvs = None -> get k (add_index i k v kvs) = Some v.
Proof.
  induction kvs as [|[k2 v2] r IH]; cbn [get add_index].
  - intros _. now rewrite decide_True.
  - destruct (decide (k = k2)) as [->|Hne]; [done|]. intros Hg.
    destruct (array_index k2) as [j|]; [destruct (i <? j)|]; cbn [get];
      rewrite ?decide_True by done; try done.
    rewrite decide_False by done. auto.
Qed.

Lemma get_add_index_ne k k' i v kvs :
  k <> k' -> get k (add_index i k' v kvs) = get k kvs.
Proof.
  intros Hne. induction kvs as [|[k2 v2] r IH]; cbn [get add_index].
  - now rewrite decide_False.
  - destruct (array_index k2) as [j|]; [destruct (i <? j)|]; cbn [get];
      rewrite ?(decide_False (P := k = k')) by done; try done.
    now rewrite IH.
Qed.

Lemma get_snoc_eq k v kvs :
  get k kvs = None -> get k (kvs ++ [(k, v)]) = Some v.
Proof.
  induction kvs as [|[k2 v2] r IH]; cbn [get app].
  - intros _. now rewrite decide_True.
  - destruct (decide (k = k2)); [done|auto].
Qed.

Lemma get_snoc_ne k k' v kvs :
  k <> k' -> get k (kvs ++ [(k', v)]) = get k kvs.
Proof.
  intros Hne. induction kvs as [|[k2 v2] r IH]; cbn [get app].
  - now rewrite decide_False.
  - destruct (decide (k = k2)); [done|auto].
Qed.

(** After [o[k] = v], [o[k]] is [v] and the other properties are as before. *)
Lemma get_set_prop_eq k v kvs : get k (set_prop k v kvs) = Some v.
Proof.
  unfold set_prop. destruct (get k kvs) as [w|] eqn:Eg.
  - apply get_update_eq. now rewrite Eg.
  - destruct (array_index k); [now apply get_add_index_eq|now apply get_snoc_eq].
Qed.

Lemma get_set_prop_ne k k' v kvs :
  k <> k' -> get k (set_prop k' v kvs) = get k kvs.
Proof.
  intros Hne. unfold set_prop. destruct (get k' kvs).
  - now apply get_update_ne.
  - destruct (array_index k'); [now apply get_add_index_ne|now apply get_snoc_ne].
Qed.

Lemma field_with_metadata_ne k analysis m :
  str k <> str "metadata" ->
  field k (with_metadata analysis m) = get (str k) (spread analysis).
Proof. intros H. unfold with_metadata, field. now apply get_set_prop_ne. Qed.

Lemma field_object k v : is_Some (field k v) -> exists kvs, v = JObj kvs.
Proof. destruct v; intros [? ?]; try done. eauto. Qed.

Lemma with_metadata_shape analysis a b c d :
  has_content_shape analysis = true ->
  exists r,
    of_json (with_metadata analysis (metadata_to_json (mkMetadata a b c d))) = Some r
    /\ metadata r = mkMetadata a b c d.
Proof.
  unfold has_content_shape. intros H.
  destruct (field "executiveSummary" analysis) as [v1|] eqn:E1; [|done].
  destruct (field_object "executiveSummary" analysis) as [kvs ->]; [by rewrite E1|].
  unfold of_json.
  rewrite (field_with_metadata_ne "executiveSummary"),
    (field_with_metadata_ne "keyRequirements"),
    (field_with_metadata_ne "pricingOverview"),
    (field_with_metadata_ne "recommendedNextSteps")
    by (intros E; vm_compute in E; discriminate E).
  cbn [spread]. unfold field in *. rewrite E1 in *.
  destruct (Some v1 ≫= as_string) as [x1|]; [|done].
  destruct (get (str "keyRequirements") kvs ≫= as_strings) as [x2|]; [|done].
  destruct (get (str "pricingOverview") kvs ≫= pricing_of_json) as [x3|]; [|done].
  destruct (get (str "recommendedNextSteps") kvs ≫= as_strings) as [x4|]; [|done].
  unfold with_metadata. cbn [spread]. rewrite get_set_prop_eq.
  cbn [mbind option_bind].
  change (metadata_of_json _) with (Some (mkMetadata a b c d)).
  eexists. split; reflexivity.
Qed.


Lemma upload_oversize f r :
  fileSize_limit <= byteLength (content f) ->
  exists e, upload_single (str "pdf") (f :: r) None = inl e /\
            (fieldname f = str "pdf" -> mimetype f = str "application/pdf" ->
             e = mkError true (str "LIMIT_FILE_SIZE") (str "File too large")).
Proof.
  intros Hs. cbn [upload_single].
  rewrite (bool_decide_eq_false_2 (is_Some None)) by (intros [? ?]; done).
  rewrite orb_false_r.
  destruct (bool_decide (fieldname f = str "pdf")) eqn:Ef; cbn [negb].
  - unfold fileFilter.
    destruct (decide (mimetype f = str "application/pdf")) as [Em|Em].
    + destruct (N.leb_spec fileSize_limit (byteLength (content f))); [|lia].
      eexists. split; reflexivity.
    + eexists. split; [reflexivity|]. intros _ Hm. done.
  - eexists. split; [reflexivity|]. intros Hf.
    apply bool_decide_eq_false_1 in Ef. done.
Qed.

Section claims.

Variable JSON_parse : jsstring -> option json.

(** C1 (amended).  A request admitted by the rate limiter that carries one
    file, in the field [pdf], declared [application/pdf] and of less than
    10 MiB, whose extracted text has a character that is not white space,
    with a model configured whose reply, trimmed, parses to an object with
    the content properties of an AnalysisResult: the response is 200, its
    body is the parsed object with [metadata] set, it reads as an
    AnalysisResult, and the metadata are the original name, the byte size
    (the Number that is this integer), the length of the extracted text
    and the time of the server. *)
Theorem analysis_succeeds env req f text client reply analysis :
  prior_hits req < rate_max ->
  parts req = [f] ->
  fieldname f = str "pdf" ->
  mimetype f = str "application/pdf" ->
  byteLength (content f) < fileSize_limit ->
  pdfParse env (content f) = Returned text ->
  forallb is_trim_space text = false ->
  openai env = Some client ->
  client (prompt text) = Returned (Some reply) ->
  JSON_parse (trim reply) = Some analysis ->
  has_content_shape analysis = true ->
  let resp := fst (analyze_proposal JSON_parse env req) in
  status resp = 200%Z /\
  body resp = with_metadata analysis (metadata_object f text (now env)) /\
  exists r, of_json (body resp) = Some r /\
            fileName (metadata r) = originalname f /\
            fileSize (metadata r) = of_Z (size f) /\
            integer_value (fileSize (metadata r)) = Some (size f) /\
            textLength (metadata r) = of_Z (strlen text) /\
            processedAt (metadata r) = now env.
Proof.
  intros Hl Hp Hf Hm Hs Hx Hb Ho Hc Hj Hsh. unfold analyze_proposal.
  rewrite (parts_express_json req f []), limiter_admits, Hp, upload_single_pdf
    by done.
  rewrite (handler_reply JSON_parse env f text client reply) by done.
  rewrite Hj. cbn [fst status body]. split; [done|]. split; [done|].
  destruct (with_metadata_shape analysis (originalname f) (of_Z (size f))
              (now env) (of_Z (strlen text)) Hsh) as (r & Hr & Hmeta).
  exists r. split; [exact Hr|]. rewrite Hmeta. cbn [fileName fileSize
    textLength processedAt]. repeat split.
  apply integer_value_of_Z. unfold size, fileSize_limit in *. lia.
Qed.

(** C4 (amended).  For a request admitted by the rate limiter with one
    file, in the field [pdf], declared [application/pdf] and of less than
    10 MiB: when the extracted text is empty or has only white space, the
    response is 400 with the error message
    [Could not extract text from PDF], and the model is not called. *)
Theorem blank_text_rejected env req f text :
  prior_hits req < rate_max ->
  parts req = [f] ->
  fieldname f = str "pdf" ->
  mimetype f = str "application/pdf" ->
  byteLength (content f) < fileSize_limit ->
  pdfParse env (content f) = Returned text ->
  forallb is_trim_space text = true ->
  fst (analyze_proposal JSON_parse env req)
    = mkResponse 400 (error_body "Could not extract text from PDF") /\
  filter is_model (snd (analyze_proposal JSON_parse env req)) = [].
Proof.
  intros Hl Hp Hf Hm Hs Hx Hb. unfold analyze_proposal.
  rewrite (parts_express_json req f []), limiter_admits, Hp, upload_single_pdf
    by done.
  rewrite (handler_blank JSON_parse env f text) by done. done.
Qed.

(** C6 (amended).  When the first file of an upload is larger than 10 MiB
    no external service is called, so its bytes are never given to the
    text extractor; and when the request is admitted by the rate limiter
    and the file is in the field [pdf] and declared [application/pdf], the
    response is 400 with [File too large. Maximum size is 10MB.]. *)
Theorem oversize_upload_rejected env req f r :
  parts req = f :: r ->
  fileSize_limit < byteLength (content f) ->
  snd (analyze_proposal JSON_parse env req) = [] /\
  (prior_hits req < rate_max ->
   fieldname f = str "pdf" ->
   mimetype f = str "application/pdf" ->
   fst (analyze_proposal JSON_parse env req)
     = mkResponse 400 (error_body "File too large. Maximum size is 10MB.")).
Proof.
  intros Hp Hs. unfold analyze_proposal.
  rewrite (parts_express_json req f r), Hp by done.
  destruct (upload_oversize f r ltac:(lia)) as (e & -> & He).
  split.
  - now destruct (limiter req).
  - intros Hl Hf Hm. rewrite limiter_admits by done.
    now rewrite (He Hf Hm).
Qed.

(** C7 (amended).  For a request admitted by the rate limiter with one
    file, in the field [pdf], declared [application/pdf] and of less than
    10 MiB: when no model client is configured and the extracted text is
    not blank, the response is 503 with the error
    [AI service configuration error], a message and the suggestion to try
    the demo mode of the frontend, and the model is not called. *)
Theorem model_not_configured env req f text :
  prior_hits req < rate_max ->
  parts req = [f] ->
  fieldname f = str "pdf" ->
  mimetype f = str "application/pdf" ->
  byteLength (content f) < fileSize_limit ->
  pdfParse env (content f) = Returned text ->
  forallb is_trim_space text = false ->
  openai env = None ->
  let resp := fst (analyze_proposal JSON_parse env req) in
  status resp = 503%Z /\
  field "error" (body resp) = Some (JStr (str "AI service configuration error")) /\
  field "message" (body resp)
    = Some (JStr (str "OpenAI API key not configured. Please set OPENAI_API_KEY in environment variables.")) /\
  field "suggestion" (body resp)
    = Some (JStr (str "Try the demo mode in the frontend for a sample analysis.")) /\
  filter is_model (snd (analyze_proposal JSON_parse env req)) = [].
Proof.
  intros Hl Hp Hf Hm Hs Hx Hb Ho. unfold analyze_proposal.
  rewrite (parts_express_json req f []), limiter_admits, Hp, upload_single_pdf
    by done.
  rewrite (handler_not_configured JSON_parse env f text) by done.
  cbn [fst snd status body]. repeat split.
Qed.

(** C8 (amended).  For a request admitted by the rate limiter with one
    file, in the field [pdf], declared [application/pdf] and of less than
    10 MiB, whose text is not blank, with a model configured: when the
    reply of the model, trimmed, is rejected by [JSON.parse], the response
    is 500 and its body is exactly the error message
    [Failed to process AI response]. *)
Theorem unparseable_reply_rejected env req f text client reply :
  prior_hits req < rate_max ->
  parts req = [f] ->
  fieldname f = str "pdf" ->
  mimetype f = str "application/pdf" ->
  byteLength (content f) < fileSize_limit ->
  pdfParse env (content f) = Returned text ->
  forallb is_trim_space text = false ->
  openai env = Some client ->
  client (prompt text) = Returned (Some reply) ->
  JSON_parse (trim reply) = None ->
  fst (analyze_proposal JSON_parse env req)
    = mkResponse 500 (error_body "Failed to process AI response").
Proof.
  intros Hl Hp Hf Hm Hs Hx Hb Ho Hc Hj. unfold analyze_proposal.
  rewrite (parts_express_json req f []), limiter_admits, Hp, upload_single_pdf
    by done.
  rewrite (handler_reply JSON_parse env f text client reply) by done.
  now rewrite Hj.
Qed.

End claims.

(** C1, the claim as stated fails.  The text of one space is not empty and
    the response is 400; the reply [[]] parses as JSON and the response is
    200 with a body that is not an AnalysisResult; the eleventh request of
    a client in the window is answered with 429 whatever it carries; and a
    PDF of exactly 10 MiB, which is at most 10 MiB, is answered with 400
    [File too large. Maximum size is 10MB.] and given to no service. *)
Lemma nonempty_text_and_parseable_reply_not_enough :
  status (fst (analyze_proposal JSON.parse
                 (sample_env [32] (Some (stringify sample_analysis 2)))
                 (sample_request sample_pdf))) = 400%Z /\
  JSON.parse (str "[]") = Some (JArr []) /\
  status (fst (analyze_proposal JSON.parse
                 (sample_env (str "Proposal") (Some (str "[]")))
                 (sample_request sample_pdf))) = 200%Z /\
  has_shape (body (fst (analyze_proposal JSON.parse
                          (sample_env (str "Proposal") (Some (str "[]")))
                          (sample_request sample_pdf)))) = false /\
  status (fst (analyze_proposal JSON.parse
                 (sample_env (str "Proposal")
                    (Some (stringify sample_analysis 2)))
                 (eleventh_request sample_pdf))) = 429%Z /\
  byteLength (content limit_pdf) <= fileSize_limit /\
  analyze_proposal JSON.parse
    (sample_env (str "Proposal") (Some (stringify sample_analysis 2)))
    (sample_request limit_pdf)
    = (mkResponse 400 (error_body "File too large. Maximum size is 10MB."), []).
Proof. vm_compute. repeat split; discriminate. Qed.

Lemma analysis_succeeds_witness :
  let resp := fst (analyze_proposal JSON.parse
                     (sample_env (str "Proposal")
                        (Some (stringify sample_analysis 2)))
                     (sample_request sample_pdf)) in
  status resp = 200%Z /\
  body resp = with_metadata sample_analysis
                (metadata_object sample_pdf (str "Proposal") sample_time) /\
  exists r, of_json (body resp) = Some r /\
            fileName (metadata r) = str "proposal.pdf" /\
            fileSize (metadata r) = of_Z 2048 /\
            integer_value (fileSize (metadata r)) = Some 2048%Z /\
            textLength (metadata r) = of_Z 8 /\
            processedAt (metadata r) = sample_time.
Proof.
  apply (analysis_succeeds JSON.parse
           (sample_env (str "Proposal") (Some (stringify sample_analysis 2)))
           (sample_request sample_pdf) sample_pdf (str "Proposal")
           (fun _ => Returned (Some (stringify sample_analysis 2)))
           (stringify sample_analysis 2) sample_analysis);
    vm_compute; (reflexivity || discriminate).
Defined.

(** C4, the claim as stated fails.  For a text of three spaces the body
    of the 400 response is the message [Could not extract text from PDF];
    the identifier [EMPTY_OR_IMAGE_ONLY_PDF] occurs nowhere in it. *)
Lemma blank_text_error_not_typed :
  fst (analyze_proposal JSON.parse
         (sample_env (str "   ") (Some (stringify sample_analysis 2)))
         (sample_request sample_pdf))
    = mkResponse 400 (error_body "Could not extract text from PDF") /\
  mentions (str "EMPTY_OR_IMAGE_ONLY_PDF")
    (body (fst (analyze_proposal JSON.parse
                  (sample_env (str "   ") (Some (stringify sample_analysis 2)))
                  (sample_request sample_pdf)))) = false.
Proof. vm_compute. split; reflexivity. Qed.

Lemma blank_text_rejected_witness :
  fst (analyze_proposal JSON.parse
         (sample_env (str "   ") (Some (stringify sample_analysis 2)))
         (sample_request sample_pdf))
    = mkResponse 400 (error_body "Could not extract text from PDF") /\
  filter is_model
    (snd (analyze_proposal JSON.parse
            (sample_env (str "   ") (Some (stringify sample_analysis 2)))
            (sample_request sample_pdf))) = [].
Proof.
  apply (blank_text_rejected JSON.parse
           (sample_env (str "   ") (Some (stringify sample_analysis 2)))
           (sample_request sample_pdf) sample_pdf (str "   "));
    vm_compute; (reflexivity || discriminate).
Defined.

(** C6, the claim as stated fails.  An upload of 10 MiB and one byte gets
    500, not 400, when it is declared [text/plain], and when it is a PDF in
    a field other than [pdf]; it gets 429 when it is the eleventh request
    of the client in the window. *)
Lemma oversize_upload_not_always_400 :
  fileSize_limit < byteLength (content oversize_text) /\
  fst (analyze_proposal JSON.parse
         (sample_env (str "Proposal") (Some (stringify sample_analysis 2)))
         (sample_request oversize_text))
    = mkResponse 500 (error_body "Internal server error") /\
  fst (analyze_proposal JSON.parse
         (sample_env (str "Proposal") (Some (stringify sample_analysis 2)))
         (sample_request oversize_misfiled))
    = mkResponse 500 (error_body "Internal server error") /\
  status (fst (analyze_proposal JSON.parse
                 (sample_env (str "Proposal")
                    (Some (stringify sample_analysis 2)))
                 (eleventh_request oversize_pdf))) = 429%Z.
Proof. vm_compute. repeat split. Qed.

Lemma oversize_upload_rejected_witness :
  snd (analyze_proposal JSON.parse
         (sample_env (str "Proposal") (Some (stringify sample_analysis 2)))
         (sample_request oversize_pdf)) = [] /\
  fst (analyze_proposal JSON.parse
         (sample_env (str "Proposal") (Some (stringify sample_analysis 2)))
         (sample_request oversize_pdf))
    = mkResponse 400 (error_body "File too large. Maximum size is 10MB.").
Proof.
  destruct (oversize_upload_rejected JSON.parse
              (sample_env (str "Proposal") (Some (stringify sample_analysis 2)))
              (sample_request oversize_pdf) oversize_pdf [])
    as [Hcalls Hresp]; [reflexivity|vm_compute; reflexivity|].
  split; [exact Hcalls|].
  apply Hresp; vm_compute; reflexivity.
Defined.

(** C7, the claim as stated fails.  Without a model the body of the 503
    response has the error [AI service configuration error]; the
    identifier [AI_NOT_CONFIGURED] occurs nowhere in it. *)
Lemma not_configured_error_not_typed :
  status (fst (analyze_proposal JSON.parse
                 (sample_env (str "Proposal") None)
                 (sample_request sample_pdf))) = 503%Z /\
  mentions (str "AI_NOT_CONFIGURED")
    (body (fst (analyze_proposal JSON.parse
                  (sample_env (str "Proposal") None)
                  (sample_request sample_pdf)))) = false.
Proof. vm_compute. split; reflexivity. Qed.

Lemma model_not_configured_witness :
  let resp := fst (analyze_proposal JSON.parse
                     (sample_env (str "Proposal") None)
                     (sample_request sample_pdf)) in
  status resp = 503%Z /\
  field "error" (body resp) = Some (JStr (str "AI service configuration error")) /\
  field "message" (body resp)
    = Some (JStr (str "OpenAI API key not configured. Please set OPENAI_API_KEY in environment variables.")) /\
  field "suggestion" (body resp)
    = Some (JStr (str "Try the demo mode in the frontend for a sample analysis.")) /\
  filter is_model
    (snd (analyze_proposal JSON.parse
            (sample_env (str "Proposal") None)
            (sample_request sample_pdf))) = [].
Proof.
  apply (model_not_configured JSON.parse
           (sample_env (str "Proposal") None)
           (sample_request sample_pdf) sample_pdf (str "Proposal"));
    vm_compute; (reflexivity || discriminate).
Defined.

(** C8, the claim as stated fails.  For the reply [not json] the body of
    the 500 response is the message [Failed to process AI response], in
    which [AI_RESPONSE_UNPARSEABLE] does not occur; and the reply [{}],
    which parses but is no AnalysisResult, is answered with 200. *)
Lemma reply_error_not_typed_and_shape_unchecked :
  fst (analyze_proposal JSON.parse
         (sample_env (str "Proposal") (Some (str "not json")))
         (sample_request sample_pdf))
    = mkResponse 500 (error_body "Failed to process AI response") /\
  mentions (str "AI_RESPONSE_UNPARSEABLE")
    (error_body "Failed to process AI response") = false /\
  has_content_shape (JObj []) = false /\
  status (fst (analyze_proposal JSON.parse
                 (sample_env (str "Proposal") (Some (str "{}")))
                 (sample_request sample_pdf))) = 200%Z.
Proof. vm_compute. repeat split. Qed.

Lemma unparseable_reply_rejected_witness :
  fst (analyze_proposal JSON.parse
         (sample_env (str "Proposal") (Some (str "not json")))
         (sample_request sample_pdf))
    = mkResponse 500 (error_body "Failed to process AI response").
Proof.
  apply (unparseable_reply_rejected JSON.parse
           (sample_env (str "Proposal") (Some (str "not json")))
           (sample_request sample_pdf) sample_pdf (str "Proposal")
           (fun _ => Returned (Some (str "not json"))) (str "not json"));
    vm_compute; (reflexivity || discriminate).
Defined.

End Server_facts.

(** ** The client *)

Module Client_facts.
Import Client Examples.

(** What [resetAnalysis] writes. *)
Lemma resetAnalysis_effect st :
  result (resetAnalysis st) = None /\ error (resetAnalysis st) = None /\
  loading (resetAnalysis st) = false /\
  timeoutRef (resetAnalysis st) = None /\
  abortControllerRef (resetAnalysis st) = None /\
  timers (resetAnalysis st) = match timeoutRef st with
                              | Some t => delete t (timers st)
                              | None => timers st
                              end /\
  controllers (resetAnalysis st)
    = match abortControllerRef st with
      | Some c => <[c := true]> (controllers st)
      | None => controllers st
      end /\
  file (resetAnalysis st) = file st.
Proof.
  destruct st as [f l r e [c|] [t|] cs fs ts n to]; cbn; repeat split.
Qed.

(** [drain] touches the loading flag, the request handle and the requests
    in flight, nothing else. *)
Lemma drain_steps_frame (l : list (positive * File)) st :
  let st' := foldr (fun cf st =>
                      analyze_continuation (snd cf) Aborted
                        (set_fetches (delete (fst cf) (fetches st)) st)) st l in
  file st' = file st /\ result st' = result st /\ error st' = error st /\
  timeoutRef st' = timeoutRef st /\ timers st' = timers st /\
  controllers st' = controllers st /\ fresh st' = fresh st /\
  toasts st' = toasts st.
Proof.
  induction l as [|cf l IH]; cbn [foldr]; [repeat split|].
  destruct IH as (H1 & H2 & H3 & H4 & H5 & H6 & H7 & H8).
  unfold analyze_continuation, finally. cbn. repeat split; assumption.
Qed.

Lemma drain_frame st :
  file (drain st) = file st /\ result (drain st) = result st /\
  error (drain st) = error st /\ timeoutRef (drain st) = timeoutRef st /\
  timers (drain st) = timers st /\ controllers (drain st) = controllers st /\
  fresh (drain st) = fresh st /\ toasts (drain st) = toasts st.
Proof. apply drain_steps_frame. Qed.

Lemma timeoutRef_clearTimeout t st :
  timeoutRef (clearTimeout t st) = timeoutRef st.
Proof. reflexivity. Qed.

Lemma error_clearTimeout t st : error (clearTimeout t st) = error st.
Proof. reflexivity. Qed.

(** After [resetAnalysis] the callback of any timer that still fires
    returns at once: nothing changes on the page. *)
Lemma reset_silences_timers st t now :
  visible (handle (TimerFires t now) (resetAnalysis st))
    = visible (resetAnalysis st) /\
  loading (handle (TimerFires t now) (resetAnalysis st)) = false.
Proof.
  cbn [handle].
  destruct (resetAnalysis_effect st) as (_ & _ & Hl & Hr & _).
  destruct (timers (resetAnalysis st) !! t) as [[|f]|]; [| |done].
  - unfold demo_timeout. now rewrite timeoutRef_clearTimeout, Hr.
  - unfold fallback_timeout. now rewrite timeoutRef_clearTimeout, Hr.
Qed.

Lemma runDemo_effect st :
  timers (runDemo st) !! fresh st = Some DemoTimeout /\
  timeoutRef (runDemo st) = Some (fresh st) /\
  error (runDemo st) = None.
Proof.
  destruct st as [f l r e [c|] [t'|] cs fs ts n to];
    (split; [apply lookup_insert_eq|split; reflexivity]).
Qed.

Lemma handle_click_demo st : handle ClickDemo st = drain (runDemo st).
Proof. reflexivity. Qed.

Lemma handle_demo_timer st t now :
  timers st !! t = Some DemoTimeout ->
  handle (TimerFires t now) st = demo_timeout now (clearTimeout t st).
Proof. intros H. cbn [handle]. now rewrite H. Qed.

Lemma demo_timeout_effect st t now :
  timeoutRef st = Some t ->
  result (demo_timeout now st) = Some (demoResult now) /\
  error (demo_timeout now st) = error st /\
  loading (demo_timeout now st) = false /\
  timeoutRef (demo_timeout now st) = None.
Proof. intros H. unfold demo_timeout. rewrite H. repeat split. Qed.

(** The demo, started in any state, shows the canned result when its own
    timer is the next callback to run. *)
Lemma demo_succeeds_when_undisturbed st now :
  timers (handle ClickDemo st) !! fresh st = Some DemoTimeout /\
  result (handle (TimerFires (fresh st) now) (handle ClickDemo st))
    = Some (demoResult now) /\
  error (handle (TimerFires (fresh st) now) (handle ClickDemo st)) = None /\
  loading (handle (TimerFires (fresh st) now) (handle ClickDemo st)) = false /\
  timeoutRef (handle (TimerFires (fresh st) now) (handle ClickDemo st)) = None.
Proof.
  rewrite handle_click_demo.
  destruct (drain_frame (runDemo st)) as (_ & _ & Herr & Href & Htim & _).
  destruct (runDemo_effect st) as (Ht & Hr & He).
  rewrite <- Htim in Ht. rewrite Hr in Href. rewrite He in Herr.
  split; [exact Ht|].
  rewrite (handle_demo_timer _ _ now Ht).
  destruct (demo_timeout_effect
              (clearTimeout (fresh st) (drain (runDemo st))) (fresh st) now)
    as (H1 & H2 & H3 & H4).
  { now rewrite timeoutRef_clearTimeout. }
  split; [exact H1|]. split; [|split; [exact H3|exact H4]].
  rewrite H2, error_clearTimeout. exact Herr.
Qed.

(** [resetAnalysis] during the delay of the demo removes the timer of the
    demo and leaves no result, no error and no loading flag. *)
Lemma reset_cancels_demo st :
  timers (resetAnalysis (handle ClickDemo st)) !! fresh st = None /\
  result (resetAnalysis (handle ClickDemo st)) = None /\
  error (resetAnalysis (handle ClickDemo st)) = None /\
  loading (resetAnalysis (handle ClickDemo st)) = false.
Proof.
  rewrite handle_click_demo.
  destruct (drain_frame (runDemo st)) as (_ & _ & _ & Href & Htim & _).
  destruct (runDemo_effect st) as (_ & Hr & _).
  rewrite Hr in Href.
  destruct (resetAnalysis_effect (drain (runDemo st)))
    as (H1 & H2 & H3 & _ & _ & H6 & _).
  rewrite Href in H6. rewrite H6, lookup_delete_eq. done.
Qed.

(** C2.  The second analysis is started while the fallback of the first is
    pending; when the timer of the first fires, the second request is
    still in flight, and the callback of the first sets the result and
    shows a notification. *)
Theorem second_analysis_stale_fallback :
  exists st1 st2,
    run [Drop [fileA]; ClickAnalyze; FetchSettles 1 Rejected; ClickAnalyze]
        initial = Some st1 /\
    fetches st1 !! 3%positive = Some fileA /\
    timers st1 !! 2%positive = Some (FallbackTimeout fileA) /\
    result st1 = None /\
    step (TimerFires 2 time1) st1 = Some st2 /\
    fetches st2 !! 3%positive = Some fileA /\
    result st2 = Some (fallbackResult fileA time1) /\
    toasts st2
      = (ToastSuccess, str "Proposal analyzed successfully! (Demo mode)")
          :: toasts st1.
Proof.
  eexists _, _. split; [vm_compute; reflexivity|].
  vm_compute. repeat split.
Qed.

(** C3.  Two analyses fail one after the other, which leaves the fallback
    timer of the first scheduled and forgotten; the demo is then started.
    The forgotten timer fires first and shows the fallback result of the
    file; the timer of the demo then finds the handle cleared and does
    nothing.  No request and no timer is left, the page shows the fallback
    result and is still loading. *)
Theorem demo_lost_to_stale_fallback :
  exists st,
    run [Drop [fileA]; ClickAnalyze; FetchSettles 1 Rejected;
         ClickAnalyze; FetchSettles 3 Rejected;
         ClickDemo; TimerFires 2 time1; TimerFires 5 time2]
        initial = Some st /\
    result st = Some (fallbackResult fileA time1) /\
    result st <> Some (demoResult time2) /\
    loading st = true /\
    timers st = ∅ /\
    fetches st = ∅.
Proof.
  eexists. split; [vm_compute; reflexivity|].
  vm_compute. repeat split. discriminate.
Qed.

Lemma handle_fetch_settles st c f s :
  fetches st !! c = Some f ->
  handle (FetchSettles c s) st
    = analyze_continuation f
        (if bool_decide (controllers st !! c = Some true)
         then Aborted else Settled s)
        (set_fetches (delete c (fetches st)) st).
Proof. intros H. cbn [handle]. now rewrite H. Qed.

Lemma handle_fallback_timer st t f now :
  timers st !! t = Some (FallbackTimeout f) ->
  handle (TimerFires t now) st = fallback_timeout f now (clearTimeout t st).
Proof. intros H. cbn [handle]. now rewrite H. Qed.

(** The continuation on a settlement that is no success: the [catch]
    block schedules the fallback, then the [finally] block runs. *)
Lemma continuation_on_failure f s st :
  is_success s = false ->
  analyze_continuation f (Settled s) st = finally (schedule_fallback f st).
Proof.
  intros Hs. unfold analyze_continuation.
  destruct s as [status [r|]|]; cbn [is_success] in Hs;
    [now rewrite Hs|now destruct (response_ok status)|reflexivity].
Qed.

(** The continuation on an abort or on a success schedules nothing. *)
Lemma continuation_without_fallback f o st :
  match o with Aborted => true | Settled s => is_success s end = true ->
  timers (analyze_continuation f o st) = timers st.
Proof.
  intros Ho. unfold analyze_continuation.
  destruct o as [|[status [r|]|]]; cbn [is_success] in Ho; try discriminate Ho;
    [reflexivity|].
  rewrite Ho. now destruct (signal_aborted st).
Qed.

(** C5 (amended).  When a request settles, the fallback is triggered
    exactly when the request was not aborted and the settlement is not a
    success response whose body is read.  So a response with a status
    outside 200..299 (the 400 of an extraction error among them), a body
    that is not JSON and a rejection of [fetch] all schedule the fallback
    timer and change nothing on the page, and the fallback result for the
    file is shown when that timer fires next; an abort and a success
    schedule no timer. *)
Theorem every_failure_falls_back st c f s now :
  fetches st !! c = Some f ->
  let st' := handle (FetchSettles c s) st in
  if bool_decide (controllers st !! c = Some true) || is_success s
  then timers st' = timers st
  else timers st' = <[fresh st := FallbackTimeout f]> (timers st) /\
       timeoutRef st' = Some (fresh st) /\
       visible st' = visible st /\
       result (handle (TimerFires (fresh st) now) st')
         = Some (fallbackResult f now).
Proof.
  intros Hf. cbv zeta. rewrite (handle_fetch_settles st c f s Hf).
  destruct (bool_decide (controllers st !! c = Some true)) eqn:Ha; cbn [orb].
  - now rewrite continuation_without_fallback.
  - destruct (is_success s) eqn:Hs.
    + now rewrite continuation_without_fallback.
    + rewrite continuation_on_failure by done.
      assert (Ht : timers (finally (schedule_fallback f
                     (set_fetches (delete c (fetches st)) st)))
                   !! fresh st = Some (FallbackTimeout f))
        by apply lookup_insert_eq.
      rewrite (handle_fallback_timer _ _ f now Ht).
      repeat split.
Qed.

(** C5, the claim as stated fails.  The response 400 to the analysis of a
    file makes the client schedule the fallback timer, and the fallback
    result is shown when it fires. *)
Lemma extraction_error_falls_back :
  (run [Drop [fileA]; ClickAnalyze; FetchSettles 1 (Responded 400 None)]
       initial ≫= fun st => timers st !! 2%positive)
    = Some (FallbackTimeout fileA) /\
  (run [Drop [fileA]; ClickAnalyze; FetchSettles 1 (Responded 400 None);
        TimerFires 2 time1] initial ≫= result)
    = Some (fallbackResult fileA time1).
Proof. vm_compute. split; reflexivity. Qed.

Lemma every_failure_falls_back_witness :
  let st := handle ClickAnalyze (handle (Drop [fileA]) initial) in
  let st' := handle (FetchSettles 1 (Responded 400 None)) st in
  timers st' = <[fresh st := FallbackTimeout fileA]> (timers st) /\
  timeoutRef st' = Some (fresh st) /\
  visible st' = visible st /\
  result (handle (TimerFires (fresh st) time1) st')
    = Some (fallbackResult fileA time1).
Proof.
  assert (Hf : fetches (handle ClickAnalyze (handle (Drop [fileA]) initial))
               !! 1%positive = Some fileA) by (vm_compute; reflexivity).
  exact (every_failure_falls_back
           (handle ClickAnalyze (handle (Drop [fileA]) initial))
           1%positive fileA (Responded 400 None) time1 Hf).
Defined.

(** The results the client builds itself have numbers that the export
    keeps: the canned result of the demo, and the fallback result for a
    file whose size is an integer below 2^53. *)
Lemma demoResult_exportable now : exportable_result (demoResult now).
Proof. split; vm_compute; reflexivity. Qed.

Lemma fallbackResult_exportable f now :
  (0 <= size f < 2 ^ 53)%Z -> exportable_result (fallbackResult f now).
Proof.
  intros Hs. split; cbn [fallbackResult metadata fileSize textLength].
  - now apply of_Z_exportable.
  - vm_compute. reflexivity.
Qed.




(** What [resetAnalysis] writes: it clears the result, the error and the
    loading flag, clears both refs, removes the timer the timer ref named
    and aborts the controller the request ref named; the selected file is
    as before.  The button Upload Different File clears the file as well,
    by its own [setFile(null)]. *)
Lemma resetAnalysis_frame st :
  let st' := resetAnalysis st in
  result st' = None /\ error st' = None /\ loading st' = false /\
  timeoutRef st' = None /\ abortControllerRef st' = None /\
  timers st' = match timeoutRef st with
               | Some t => delete t (timers st)
               | None => timers st
               end /\
  controllers st' = match abortControllerRef st with
                    | Some c => <[c := true]> (controllers st)
                    | None => controllers st
                    end /\
  file st' = file st /\
  file (uploadDifferentFile st) = None.
Proof.
  destruct st as [f l r e [c|] [t|] cs fs ts n to]; cbn; repeat split.
Qed.

(** C10.  Two analyses of a file fail one after the other, so that two
    fallback timers are pending and [timeoutRef] names the second.
    [resetAnalysis], run by Start Over, clears the result, the error, the
    loading flag and both refs and keeps the file, but it removes the
    second timer only: the first fallback timer is still pending.  When
    the demo is started next, that timer fires into it and the page shows
    the fallback result of the file. *)
Theorem reset_leaves_fallback_timer :
  exists st,
    run two_failures initial = Some st /\
    timers st !! 2%positive = Some (FallbackTimeout fileA) /\
    timers st !! 4%positive = Some (FallbackTimeout fileA) /\
    timeoutRef st = Some 4%positive /\
    step ClickStartOver st = Some (resetAnalysis st) /\
    result (resetAnalysis st) = None /\
    error (resetAnalysis st) = None /\
    loading (resetAnalysis st) = false /\
    timeoutRef (resetAnalysis st) = None /\
    abortControllerRef (resetAnalysis st) = None /\
    file (resetAnalysis st) = Some fileA /\
    timers (resetAnalysis st) !! 4%positive = None /\
    timers (resetAnalysis st) !! 2%positive = Some (FallbackTimeout fileA) /\
    (run [ClickDemo; TimerFires 2 time1] (resetAnalysis st) ≫= result)
      = Some (fallbackResult fileA time1).
Proof.
  eexists. split; [vm_compute; reflexivity|].
  vm_compute. repeat split.
Qed.

End Client_facts.

(** ** The analysis service: every answer, every call *)

Module Outcomes_facts.
Import Server Server_facts Outcomes Examples Scenarios.

Section handler_table.
Variable JSON_parse : jsstring -> option json.

(** The route handler on a stored file, case by case. *)
Lemma handler_cases env f :
  handler JSON_parse env (Some f) =
  match pdfParse env (content f) with
  | Thrown e => (caught e, [CallPdfParse (content f)])
  | Returned text =>
      if blank text
      then (mkResponse 400 (error_body "Could not extract text from PDF"),
            [CallPdfParse (content f)])
      else
        match openai env with
        | None => (mkResponse 503 not_configured_body, [CallPdfParse (content f)])
        | Some client =>
            (match client (prompt text) with
             | Thrown e => caught e
             | Returned None => mkResponse 500 (error_body "Failed to process proposal")
             | Returned (Some reply) =>
                 match JSON_parse (trim reply) with
                 | None => mkResponse 500 (error_body "Failed to process AI response")
                 | Some analysis =>
                     mkResponse 200
                       (with_metadata analysis (metadata_object f text (now env)))
                 end
             end,
             [CallPdfParse (content f); CallModel (prompt text)])
        end
  end.
Proof.
  run_handler. unfold caught.
  destruct (pdfParse env (content f)) as [text|e]; [|reflexivity].
  change (negb (truthy text) || (strlen (trim text) =? 0)%Z) with (blank text).
  destruct (blank text); [reflexivity|].
  destruct (openai env) as [client|]; [|reflexivity].
  destruct (client (prompt text)) as [[reply|]|e]; [|reflexivity|reflexivity].
  destruct (JSON_parse (trim reply)); reflexivity.
Qed.

End handler_table.

Lemma caught_cases e :
  caught e = mkResponse 500 (error_body "AI service configuration error") \/
  caught e = mkResponse 500 (error_body "Failed to process proposal").
Proof. unfold caught. destruct (includes e _); auto. Qed.

Lemma error_middleware_cases e :
  error_middleware e = mkResponse 400 (error_body "File too large. Maximum size is 10MB.") \/
  error_middleware e = mkResponse 500 (error_body "Internal server error").
Proof. unfold error_middleware. destruct (_ && _); auto. Qed.

(** What [upload.single('pdf')] makes of the file parts. *)
Lemma upload_cases ps :
  match upload_single (str "pdf") ps None with
  | inr None => ps = []
  | inr (Some f) => ps = [f] /\ accepted f
  | inl _ => ps <> []
  end.
Proof.
  destruct ps as [|p r]; [reflexivity|]. cbn [upload_single].
  rewrite (bool_decide_eq_false_2 (is_Some None)) by (intros [? ?]; done).
  rewrite orb_false_r.
  destruct (bool_decide (fieldname p = str "pdf")) eqn:Ef; cbn [negb]; [|done].
  apply bool_decide_eq_true_1 in Ef.
  unfold fileFilter. destruct (decide (mimetype p = str "application/pdf")) as [Em|Em]; [|done].
  destruct (N.leb_spec fileSize_limit (byteLength (content p))) as [Hs|Hs]; [done|].
  destruct r as [|q r']; cbn [upload_single].
  - split; [done|]. repeat split; done.
  - rewrite (bool_decide_eq_true_2 (is_Some (Some p))) by eauto.
    rewrite orb_true_r. done.
Qed.

Lemma upload_second_file f g r :
  exists e, upload_single (str "pdf") (f :: g :: r) None = inl e.
Proof.
  pose proof (upload_cases (f :: g :: r)) as H.
  destruct (upload_single (str "pdf") (f :: g :: r) None) as [e|[x|]]; [eauto| |done].
  now destruct H.
Qed.

Section outcome.
Variable JSON_parse : jsstring -> option json.

(** What the endpoint can answer, and what it has called by then. *)
Lemma analyze_outcome env req :
  let r := analyze_proposal JSON_parse env req in
  (In (fst r) error_responses /\
   (snd r = [] \/
    exists f, parts req = [f] /\ accepted f /\ prior_hits req < rate_max /\
      (snd r = [CallPdfParse (content f)] \/
       exists text client,
         pdfParse env (content f) = Returned text /\ blank text = false /\
         openai env = Some client /\
         snd r = [CallPdfParse (content f); CallModel (prompt text)])))
  \/
  (exists f text client reply analysis,
     parts req = [f] /\ accepted f /\ prior_hits req < rate_max /\
     pdfParse env (content f) = Returned text /\ blank text = false /\
     openai env = Some client /\
     client (prompt text) = Returned (Some reply) /\
     JSON_parse (trim reply) = Some analysis /\
     r = (mkResponse 200 (with_metadata analysis (metadata_object f text (now env))),
          [CallPdfParse (content f); CallModel (prompt text)])).
Proof.
  cbv zeta. unfold analyze_proposal, limiter.
  destruct (express_json req) as [e|].
  { left. split; [|now left]. cbn [fst].
    destruct (error_middleware_cases e) as [-> | ->]; cbn; auto. }
  destruct (N.ltb_spec rate_max (prior_hits req + 1)) as [Hl|Hl].
  { left. split; [left; reflexivity|now left]. }
  assert (Hadm : prior_hits req < rate_max) by lia.
  pose proof (upload_cases (parts req)) as Hu.
  destruct (upload_single (str "pdf") (parts req) None) as [e|[f|]].
  - left. split; [|now left]. cbn [fst].
    destruct (error_middleware_cases e) as [-> | ->]; cbn; auto.
  - destruct Hu as [Hp Ha]. rewrite handler_cases.
    destruct (pdfParse env (content f)) as [text|e] eqn:Ex.
    + destruct (blank text) eqn:Eb.
      { left. split; [cbn; auto 10|]. right. exists f. repeat split; try done; try apply Ha. now left. }
      destruct (openai env) as [client|] eqn:Eo.
      * destruct (client (prompt text)) as [[reply|]|e] eqn:Ec.
        -- destruct (JSON_parse (trim reply)) as [analysis|] eqn:Ej.
           ++ right. exists f, text, client, reply, analysis. repeat split; try done; apply Ha.
           ++ left. split; [cbn; auto 10|]. right. exists f.
              repeat split; try done; try apply Ha. right. exists text, client. done.
        -- left. split; [cbn; auto 10|]. right. exists f.
           repeat split; try done; try apply Ha. right. exists text, client. done.
        -- left. split.
           { cbn [fst]. destruct (caught_cases e) as [-> | ->]; cbn; auto 10. }
           right. exists f. repeat split; try done; try apply Ha.
           right. exists text, client. done.
      * left. split; [cbn; auto 10|]. right. exists f.
        repeat split; try done; try apply Ha. now left.
    + left. split.
      { cbn [fst]. destruct (caught_cases e) as [-> | ->]; cbn; auto 10. }
      right. exists f. repeat split; try done; try apply Ha. now left.
  - left. split; [cbn; auto 10|now left].
Qed.

Lemma admitted_not_429 env req :
  limiter req = None -> status (fst (analyze_proposal JSON_parse env req)) <> 429%Z.
Proof.
  intros Hl. unfold analyze_proposal. rewrite Hl.
  destruct (express_json req) as [e|].
  { cbn [fst]. destruct (error_middleware_cases e) as [-> | ->]; done. }
  destruct (upload_single (str "pdf") (parts req) None) as [e|[f|]].
  - cbn [fst]. destruct (error_middleware_cases e) as [-> | ->]; done.
  - rewrite handler_cases.
    destruct (pdfParse env (content f)) as [text|e].
    + destruct (blank text); [done|]. destruct (openai env) as [client|]; [|done].
      cbn [fst]. destruct (client (prompt text)) as [[reply|]|e]; [|done|].
      * destruct (JSON_parse (trim reply)); done.
      * destruct (caught_cases e) as [-> | ->]; done.
    + cbn [fst]. destruct (caught_cases e) as [-> | ->]; done.
  - done.
Qed.

End outcome.

(** *** The object sent lists its keys in the order of enumeration *)

Lemma update_keys k v kvs : List.map fst (update k v kvs) = List.map fst kvs.
Proof.
  induction kvs as [|[k' v'] r IH]; cbn [update List.map fst]; [done|].
  destruct (decide (k = k')); cbn [List.map fst]; [done|now rewrite IH].
Qed.

Lemma get_none_before k kvs :
  array_index k = None -> get k kvs = None ->
  Forall (fun k' => key_before k' k = true) (List.map fst kvs).
Proof.
  intros Ek. induction kvs as [|[k' v'] r IH]; cbn [get List.map fst];
    [constructor|].
  destruct (decide (k = k')) as [->|Hne]; [done|]. intros Hg.
  constructor; [|auto].
  unfold key_before. rewrite Ek. destruct (array_index k'); [done|].
  now rewrite bool_decide_eq_false_2 by congruence.
Qed.

Lemma ordered_snoc ks k :
  ordered ks = true -> Forall (fun k' => key_before k' k = true) ks ->
  ordered (ks ++ [k]) = true.
Proof.
  induction ks as [|x ks IH]; cbn [ordered app forallb]; [done|].
  intros [Hx Ho]%andb_true_iff H. inversion H as [|? ? Hk Hr]; subst.
  rewrite forallb_app, Hx. cbn [forallb]. rewrite Hk. cbn. auto.
Qed.

Lemma set_prop_ordered k v kvs :
  array_index k = None -> ordered (List.map fst kvs) = true ->
  ordered (List.map fst (set_prop k v kvs)) = true.
Proof.
  intros Ek Ho. unfold set_prop. destruct (get k kvs) eqn:Eg.
  - now rewrite update_keys.
  - rewrite Ek, List.map_app. cbn [List.map fst].
    apply ordered_snoc; [done|]. now apply get_none_before.
Qed.

Lemma members_plain_forall (kvs : list (jsstring * json)) :
  fold_right (fun kv P => plain (snd kv) /\ P) True kvs
  <-> Forall (fun kv => plain (snd kv)) kvs.
Proof.
  induction kvs as [|kv r IH]; cbn [fold_right].
  - split; [constructor|done].
  - rewrite Forall_cons. now rewrite IH.
Qed.

Lemma update_members k v kvs :
  plain v ->
  Forall (fun kv => plain (snd kv)) kvs ->
  Forall (fun kv => plain (snd kv)) (update k v kvs).
Proof.
  intros Hv. induction 1 as [|[k' v'] r Hkv Hr IH]; cbn [update]; [constructor|].
  destruct (decide (k = k')); constructor; done.
Qed.

Lemma set_prop_members k v kvs :
  array_index k = None -> plain v ->
  Forall (fun kv => plain (snd kv)) kvs ->
  Forall (fun kv => plain (snd kv)) (set_prop k v kvs).
Proof.
  intros Ek Hv H. unfold set_prop. rewrite Ek.
  destruct (get k kvs); [now apply update_members|].
  apply Forall_app. split; [done|]. constructor; [done|constructor].
Qed.

Lemma with_metadata_plain kvs m :
  plain (JObj kvs) -> plain m -> plain (with_metadata (JObj kvs) m).
Proof.
  cbn [plain with_metadata spread]. intros [Hk Hm] Hv. split.
  - now apply set_prop_ordered.
  - apply members_plain_forall, set_prop_members; [done|done|].
    now apply members_plain_forall.
Qed.

Lemma metadata_object_plain f text now :
  byteLength (content f) < fileSize_limit -> (strlen text < 2 ^ 53)%Z ->
  plain (metadata_object f text now).
Proof.
  intros Hs Ht.
  cbn [plain metadata_object fold_right List.map fst snd].
  split; [vm_compute; reflexivity|]. repeat split.
  - apply of_Z_exportable. unfold size, fileSize_limit in *. lia.
  - apply of_Z_exportable. unfold strlen in *. lia.
Qed.

Section answers.
Variable JSON_parse : jsstring -> option json.

(** X1.  Whatever the request and whatever the extractor and the model
    do, the answer of [POST /api/analyze-proposal] is one of nine fixed
    error responses, or it is a 200 whose body is the analysis with the
    metadata of the one file of the request, the analysis being what
    [JSON.parse] reads in the trimmed reply that the configured model
    gave to the prompt built from the text extracted from that file. *)
Theorem response_is_fixed_error_or_success env req :
  In (fst (analyze_proposal JSON_parse env req)) error_responses \/
  exists f text client reply analysis,
    parts req = [f] /\ pdfParse env (content f) = Returned text /\
    openai env = Some client /\
    client (prompt text) = Returned (Some reply) /\
    JSON_parse (trim reply) = Some analysis /\
    fst (analyze_proposal JSON_parse env req)
      = mkResponse 200 (with_metadata analysis (metadata_object f text (now env))).
Proof.
  destruct (analyze_outcome JSON_parse env req)
    as [[H _]|(f & text & client & reply & analysis
               & Hp & _ & _ & Hx & _ & Ho & Hc & Hj & Hr)].
  - now left.
  - right. exists f, text, client, reply, analysis. now rewrite Hr.
Qed.

(** X2.  The calls of a request to the external services: none; or the
    extractor once, on the content of the one file of the request, which
    is a PDF below the size limit in the field [pdf] of a request the
    rate limiter admits; or that call and then the model once, with the
    prompt built from the text the extractor returned, a text that is not
    blank, with a model configured. *)
Theorem external_calls_disciplined env req :
  let calls := snd (analyze_proposal JSON_parse env req) in
  calls = [] \/
  exists f, parts req = [f] /\ accepted f /\ prior_hits req < rate_max /\
    (calls = [CallPdfParse (content f)] \/
     exists text client,
       pdfParse env (content f) = Returned text /\ blank text = false /\
       openai env = Some client /\
       calls = [CallPdfParse (content f); CallModel (prompt text)]).
Proof.
  cbv zeta.
  destruct (analyze_outcome JSON_parse env req)
    as [[_ H]|(f & text & client & reply & analysis & Hp & Ha & Hl & Hx & Hb & Ho & _ & _ & Hr)].
  - exact H.
  - right. exists f. repeat split; try done; try apply Ha.
    right. exists text, client. now rewrite Hr.
Qed.

(** X3.  The answer is 429 exactly when the body parser, which runs
    first, raises no error and the rate limiter has already counted ten
    requests of the client in the window: no other stage of the endpoint
    answers 429, and the eleventh request whose body the parser lets
    through is refused whatever it carries. *)
Theorem rate_limited_iff env req :
  status (fst (analyze_proposal JSON_parse env req)) = 429%Z
  <-> express_json req = None /\ rate_max <= prior_hits req.
Proof.
  split.
  - intros Hs. split.
    + unfold analyze_proposal in Hs. destruct (express_json req) as [e|]; [|done].
      cbn [fst] in Hs. now destruct (error_middleware_cases e) as [E | E];
        rewrite E in Hs.
    + destruct (N.le_gt_cases rate_max (prior_hits req)) as [H|H]; [done|].
      exfalso. apply (admitted_not_429 JSON_parse env req); [|done].
      now apply limiter_admits.
  - intros [Hj H]. unfold analyze_proposal, limiter. rewrite Hj.
    destruct (N.ltb_spec rate_max (prior_hits req + 1)); [reflexivity|lia].
Qed.

(** X4.  A request on whose body the body parser raises no error, that
    the limiter admits and that carries no file part is answered 400
    [No PDF file uploaded], and no external service is called. *)
Theorem no_file_uploaded env req :
  express_json req = None ->
  prior_hits req < rate_max ->
  parts req = [] ->
  analyze_proposal JSON_parse env req
  = (mkResponse 400 (error_body "No PDF file uploaded"), []).
Proof.
  intros Hj Hl Hp. unfold analyze_proposal.
  now rewrite Hj, limiter_admits, Hp by done.
Qed.

(** X5.  A request with more than one file part is never answered 200
    and makes no call to the extractor or to the model. *)
Theorem second_file_refused env req f g r :
  parts req = f :: g :: r ->
  snd (analyze_proposal JSON_parse env req) = [] /\
  status (fst (analyze_proposal JSON_parse env req)) <> 200%Z.
Proof.
  intros Hp. unfold analyze_proposal.
  rewrite (parts_express_json req f (g :: r)), Hp by done.
  destruct (upload_second_file f g r) as [e ->].
  destruct (limiter req) as [resp|] eqn:El.
  - split; [done|]. unfold limiter in El.
    destruct (rate_max <? prior_hits req + 1); [|done]. now inversion El.
  - split; [done|]. cbn [fst].
    destruct (error_middleware_cases e) as [-> | ->]; done.
Qed.

(** X6.  When the first file part is in the field [pdf] and its media
    type is not [application/pdf], the error of the file filter reaches
    the error handling middleware, which answers 500 [Internal server
    error]; the message [Only PDF files are allowed!] is not sent, and no
    external service is called. *)
Theorem wrong_type_is_internal_error env req f r :
  prior_hits req < rate_max ->
  parts req = f :: r ->
  fieldname f = str "pdf" ->
  mimetype f <> str "application/pdf" ->
  analyze_proposal JSON_parse env req
  = (mkResponse 500 (error_body "Internal server error"), []).
Proof.
  intros Hl Hp Hf Hm. unfold analyze_proposal.
  rewrite (parts_express_json req f r), limiter_admits, Hp by done.
  cbn [upload_single].
  rewrite bool_decide_eq_true_2 by done.
  rewrite (bool_decide_eq_false_2 (is_Some None)) by (intros [? ?]; done).
  cbn [negb orb]. unfold fileFilter. now rewrite decide_False by done.
Qed.

(** X7.  When the extractor throws on the stored file, the answer is 500
    with the message [AI service configuration error] if the message of
    the error contains [API key], and [Failed to process proposal]
    otherwise; the model is not called. *)
Theorem extractor_failure env req f e :
  prior_hits req < rate_max ->
  parts req = [f] -> accepted f ->
  pdfParse env (content f) = Thrown e ->
  analyze_proposal JSON_parse env req =
  (mkResponse 500
     (error_body (if includes e (str "API key")
                  then "AI service configuration error"
                  else "Failed to process proposal")),
   [CallPdfParse (content f)]).
Proof.
  intros Hl Hp (Hf & Hm & Hs) Hx. unfold analyze_proposal.
  rewrite (parts_express_json req f []), limiter_admits, Hp, upload_single_pdf,
    handler_cases, Hx by done.
  unfold caught. now destruct (includes e _).
Qed.

(** X8.  When the call to the model throws, or returns a completion whose
    content is [null], the answer is 500: [AI service configuration
    error] if an error was thrown whose message contains [API key],
    [Failed to process proposal] otherwise.  Both services have been
    called once. *)
Theorem model_failure env req f text client o :
  prior_hits req < rate_max ->
  parts req = [f] -> accepted f ->
  pdfParse env (content f) = Returned text ->
  blank text = false ->
  openai env = Some client ->
  client (prompt text) = o ->
  (forall reply, o <> Returned (Some reply)) ->
  analyze_proposal JSON_parse env req =
  (mkResponse 500
     (error_body match o with
                 | Thrown e => if includes e (str "API key")
                               then "AI service configuration error"
                               else "Failed to process proposal"
                 | Returned _ => "Failed to process proposal"
                 end),
   [CallPdfParse (content f); CallModel (prompt text)]).
Proof.
  intros Hl Hp (Hf & Hm & Hs) Hx Hb Ho Hc Hn. unfold analyze_proposal.
  rewrite (parts_express_json req f []), limiter_admits, Hp, upload_single_pdf,
    handler_cases, Hx, Hb, Ho, Hc by done.
  destruct o as [[reply|]|e]; [now destruct (Hn reply)|reflexivity|].
  unfold caught. now destruct (includes e _).
Qed.

(** X9.  On success the property [metadata] of the body is the object the
    server builds, whatever the reply of the model holds under that key,
    and under every other key, any string of code units, the body has
    what the analysis read in the reply has. *)
Theorem metadata_is_the_servers env req f text client reply analysis :
  prior_hits req < rate_max ->
  parts req = [f] -> accepted f ->
  pdfParse env (content f) = Returned text ->
  blank text = false ->
  openai env = Some client ->
  client (prompt text) = Returned (Some reply) ->
  JSON_parse (trim reply) = Some analysis ->
  let resp := fst (analyze_proposal JSON_parse env req) in
  status resp = 200%Z /\
  get (str "metadata") (spread (body resp))
    = Some (metadata_object f text (now env)) /\
  forall k : jsstring,
    k <> str "metadata" ->
    get k (spread (body resp)) = get k (spread analysis).
Proof.
  intros Hl Hp (Hf & Hm & Hs) Hx Hb Ho Hc Hj. cbv zeta. unfold analyze_proposal.
  rewrite (parts_express_json req f []), limiter_admits, Hp, upload_single_pdf,
    handler_cases, Hx, Hb, Ho, Hc, Hj by done.
  cbn [fst status body]. unfold with_metadata. cbn [spread].
  split; [done|]. split.
  - apply get_set_prop_eq.
  - intros k Hk. now apply get_set_prop_ne.
Qed.

(** X10.  From the server to the page: on success, when the analysis read
    in the reply has the four content fields, lists the keys of its
    objects in the order of enumeration and has only finite numbers other
    than -0, and the extracted text has fewer than 2^53 code units, the
    text [res.json] sends, read by [response.json()], is the body itself,
    and it is an AnalysisResult whose metadata are the name and the size
    of the file, the time of the server and the length of the text, the
    two numbers being these integers. *)
Theorem wire_round_trip env req f text client reply analysis :
  prior_hits req < rate_max ->
  parts req = [f] -> accepted f ->
  pdfParse env (content f) = Returned text ->
  blank text = false ->
  openai env = Some client ->
  client (prompt text) = Returned (Some reply) ->
  JSON_parse (trim reply) = Some analysis ->
  has_content_shape analysis = true ->
  plain analysis ->
  (strlen text < 2 ^ 53)%Z ->
  let resp := fst (analyze_proposal JSON_parse env req) in
  JSON.parse (stringify (body resp) 0) = Some (body resp) /\
  exists r, JSON.parse (stringify (body resp) 0) ≫= of_json = Some r /\
            metadata r = mkMetadata (originalname f) (of_Z (size f)) (now env)
                                    (of_Z (strlen text)) /\
            integer_value (fileSize (metadata r)) = Some (size f) /\
            integer_value (textLength (metadata r)) = Some (strlen text).
Proof.
  intros Hl Hp (Hf & Hm & Hs) Hx Hb Ho Hc Hj Hsh Hd Ht. cbv zeta.
  unfold analyze_proposal.
  rewrite (parts_express_json req f []), limiter_admits, Hp, upload_single_pdf,
    handler_cases, Hx, Hb, Ho, Hc, Hj by done.
  cbn [fst body].
  assert (Hobj : exists kvs, analysis = JObj kvs).
  { unfold has_content_shape in Hsh.
    destruct (field "executiveSummary" analysis) eqn:E; [|done].
    apply (field_object "executiveSummary"). now rewrite E. }
  destruct Hobj as [kvs ->].
  rewrite parse_stringify
    by (apply with_metadata_plain; [done|now apply metadata_object_plain]).
  split; [done|]. cbn [mbind option_bind].
  destruct (with_metadata_shape (JObj kvs) (originalname f) (of_Z (size f))
              (now env) (of_Z (strlen text)) Hsh) as (r & Hr & Hmeta).
  exists r. split; [exact Hr|]. split; [exact Hmeta|].
  rewrite Hmeta. cbn [fileSize textLength].
  split; apply integer_value_of_Z; unfold size, strlen, fileSize_limit in *; lia.
Qed.

(** X24.  The body parser runs before the rate limiter.  A request whose
    body is declared JSON and on which [express.json()] raises an error
    is answered 500 [Internal server error] by the error handling
    middleware, whatever the number of requests the limiter has counted;
    no external service is called. *)
Theorem body_parser_failure env req e :
  express_json req = Some e ->
  analyze_proposal JSON_parse env req
  = (mkResponse 500 (error_body "Internal server error"), []).
Proof.
  intros He. unfold analyze_proposal. rewrite He.
  unfold express_json in He.
  destruct (payload req) as [ps|[msg|]|]; try discriminate He.
  now injection He as <-.
Qed.

(** X25.  The size limit is reached at 10 MiB.  When the first file of an
    upload has 10 MiB or more, no external service is called; and when
    the request is admitted by the rate limiter and the file is in the
    field [pdf] and declared [application/pdf], the response is 400 with
    [File too large. Maximum size is 10MB.]. *)
Theorem upload_at_limit_rejected env req f r :
  parts req = f :: r ->
  fileSize_limit <= byteLength (content f) ->
  snd (analyze_proposal JSON_parse env req) = [] /\
  (prior_hits req < rate_max ->
   fieldname f = str "pdf" ->
   mimetype f = str "application/pdf" ->
   fst (analyze_proposal JSON_parse env req)
     = mkResponse 400 (error_body "File too large. Maximum size is 10MB.")).
Proof.
  intros Hp Hs. unfold analyze_proposal.
  rewrite (parts_express_json req f r), Hp by done.
  destruct (upload_oversize f r Hs) as (e & -> & He).
  split.
  - now destruct (limiter req).
  - intros Hl Hf Hm. rewrite limiter_admits by done.
    now rewrite (He Hf Hm).
Qed.

End answers.

Ltac by_evaluation :=
  first [ reflexivity
        | vm_compute; first [ reflexivity | discriminate
                            | repeat split; first [reflexivity | discriminate] ] ].

Lemma sample_pdf_accepted : accepted sample_pdf.
Proof. repeat split; by_evaluation. Qed.

Lemma sample_analysis_plain : plain sample_analysis.
Proof.
  unfold sample_analysis. cbn [plain fold_right List.map fst snd].
  repeat split; vm_compute; reflexivity.
Qed.

Lemma no_file_uploaded_witness :
  analyze_proposal JSON.parse
    (sample_env (str "Proposal") (Some (stringify sample_analysis 2)))
    (first_request [])
  = (mkResponse 400 (error_body "No PDF file uploaded"), []).
Proof.
  apply (no_file_uploaded JSON.parse
           (sample_env (str "Proposal") (Some (stringify sample_analysis 2)))
           (first_request [])); by_evaluation.
Defined.

Lemma body_parser_failure_witness :
  rate_max <= prior_hits (malformed_json_request 10) /\
  analyze_proposal JSON.parse
    (sample_env (str "Proposal") (Some (stringify sample_analysis 2)))
    (malformed_json_request 10)
  = (mkResponse 500 (error_body "Internal server error"), []).
Proof.
  split; [by_evaluation|].
  exact (body_parser_failure JSON.parse
           (sample_env (str "Proposal") (Some (stringify sample_analysis 2)))
           (malformed_json_request 10) _ eq_refl).
Defined.

Lemma upload_at_limit_rejected_witness :
  byteLength (content limit_pdf) = fileSize_limit /\
  snd (analyze_proposal JSON.parse
         (sample_env (str "Proposal") (Some (stringify sample_analysis 2)))
         (sample_request limit_pdf)) = [] /\
  fst (analyze_proposal JSON.parse
         (sample_env (str "Proposal") (Some (stringify sample_analysis 2)))
         (sample_request limit_pdf))
    = mkResponse 400 (error_body "File too large. Maximum size is 10MB.").
Proof.
  split; [reflexivity|].
  destruct (upload_at_limit_rejected JSON.parse
              (sample_env (str "Proposal") (Some (stringify sample_analysis 2)))
              (sample_request limit_pdf) limit_pdf [])
    as [Hcalls Hresp]; [reflexivity|vm_compute; discriminate|].
  split; [exact Hcalls|].
  apply Hresp; vm_compute; reflexivity.
Defined.

Lemma second_file_refused_witness :
  snd (analyze_proposal JSON.parse
         (sample_env (str "Proposal") (Some (stringify sample_analysis 2)))
         (first_request [sample_pdf; sample_pdf])) = [] /\
  status (fst (analyze_proposal JSON.parse
                 (sample_env (str "Proposal")
                    (Some (stringify sample_analysis 2)))
                 (first_request [sample_pdf; sample_pdf]))) <> 200%Z.
Proof.
  apply (second_file_refused JSON.parse
           (sample_env (str "Proposal") (Some (stringify sample_analysis 2)))
           (first_request [sample_pdf; sample_pdf]) sample_pdf sample_pdf []).
  reflexivity.
Defined.

Lemma wrong_type_is_internal_error_witness :
  analyze_proposal JSON.parse
    (sample_env (str "Proposal") (Some (stringify sample_analysis 2)))
    (first_request [text_file])
  = (mkResponse 500 (error_body "Internal server error"), []).
Proof.
  apply (wrong_type_is_internal_error JSON.parse
           (sample_env (str "Proposal") (Some (stringify sample_analysis 2)))
           (first_request [text_file]) text_file []); by_evaluation.
Defined.

Lemma extractor_failure_witness :
  analyze_proposal JSON.parse
    (failing_extractor (str "Invalid PDF structure"))
    (sample_request sample_pdf)
  = (mkResponse 500 (error_body "Failed to process proposal"),
     [CallPdfParse (content sample_pdf)]).
Proof.
  apply (extractor_failure JSON.parse
           (failing_extractor (str "Invalid PDF structure"))
           (sample_request sample_pdf) sample_pdf
           (str "Invalid PDF structure"));
    first [exact sample_pdf_accepted | by_evaluation].
Defined.

Lemma model_failure_witness :
  analyze_proposal JSON.parse
    (failing_model (str "Proposal") (Thrown (str "Incorrect API key provided")))
    (sample_request sample_pdf)
  = (mkResponse 500 (error_body "AI service configuration error"),
     [CallPdfParse (content sample_pdf); CallModel (prompt (str "Proposal"))]).
Proof.
  apply (model_failure JSON.parse
           (failing_model (str "Proposal")
              (Thrown (str "Incorrect API key provided")))
           (sample_request sample_pdf) sample_pdf (str "Proposal")
           (fun _ => Thrown (str "Incorrect API key provided"))
           (Thrown (str "Incorrect API key provided")));
    first [exact sample_pdf_accepted | by_evaluation | discriminate].
Defined.

Lemma metadata_is_the_servers_witness :
  let resp := fst (analyze_proposal JSON.parse
                     (sample_env (str "Proposal")
                        (Some (stringify sample_analysis 2)))
                     (sample_request sample_pdf)) in
  status resp = 200%Z /\
  get (str "metadata") (spread (body resp))
    = Some (metadata_object sample_pdf (str "Proposal") sample_time) /\
  forall k : jsstring,
    k <> str "metadata" ->
    get k (spread (body resp)) = get k (spread sample_analysis).
Proof.
  apply (metadata_is_the_servers JSON.parse
           (sample_env (str "Proposal") (Some (stringify sample_analysis 2)))
           (sample_request sample_pdf) sample_pdf (str "Proposal")
           (fun _ => Returned (Some (stringify sample_analysis 2)))
           (stringify sample_analysis 2) sample_analysis);
    first [exact sample_pdf_accepted | by_evaluation].
Defined.

Lemma wire_round_trip_witness :
  let resp := fst (analyze_proposal JSON.parse
                     (sample_env (str "Proposal")
                        (Some (stringify sample_analysis 2)))
                     (sample_request sample_pdf)) in
  JSON.parse (stringify (body resp) 0) = Some (body resp) /\
  exists r, JSON.parse (stringify (body resp) 0) ≫= of_json = Some r /\
            metadata r = mkMetadata (str "proposal.pdf") (of_Z 2048)
                                    sample_time (of_Z 8) /\
            integer_value (fileSize (metadata r)) = Some 2048%Z /\
            integer_value (textLength (metadata r)) = Some 8%Z.
Proof.
  apply (wire_round_trip JSON.parse
           (sample_env (str "Proposal") (Some (stringify sample_analysis 2)))
           (sample_request sample_pdf) sample_pdf (str "Proposal")
           (fun _ => Returned (Some (stringify sample_analysis 2)))
           (stringify sample_analysis 2) sample_analysis);
    first [exact sample_pdf_accepted | exact sample_analysis_plain
          | by_evaluation].
Defined.

End Outcomes_facts.

(** ** The sample content endpoint *)

Module SampleContent_facts.
Import Server Server_facts SampleContent Examples Scenarios.

Lemma nonblank_test l :
  (0 <? strlen (trim l))%Z = negb (forallb is_trim_space l).
Proof.
  destruct (forallb is_trim_space l) eqn:E.
  - now rewrite (trim_blank l E).
  - pose proof (trim_nonblank l E) as H. unfold strlen.
    destruct (trim l); [done|]. cbn [negb List.length]. apply Z.ltb_lt. lia.
Qed.

Lemma split_lines_cons s : exists l ls, split_lines s = l :: ls.
Proof.
  induction s as [|c s (l & ls & IH)]; cbn [split_lines]; [eauto|].
  destruct (c =? lf); [eauto|]. rewrite IH. eauto.
Qed.

(** A text is blank exactly when each of its lines is. *)
Lemma forallb_split_lines s :
  forallb (forallb is_trim_space) (split_lines s) = forallb is_trim_space s.
Proof.
  induction s as [|c s IH]; [done|]. cbn [split_lines forallb].
  destruct (N.eqb_spec c lf) as [->|Hne].
  - cbn [forallb]. now rewrite IH.
  - destruct (split_lines_cons s) as (l & ls & E). rewrite E in *.
    cbn [forallb] in *. now rewrite <- IH, andb_assoc.
Qed.

Lemma filter_nil_forallb {A} (p : A -> bool) l :
  List.filter (fun x => negb (p x)) l = [] -> forallb p l = true.
Proof.
  induction l as [|x l IH]; [done|]. cbn [List.filter forallb].
  destruct (p x); cbn [negb]; [auto|done].
Qed.

Lemma forallb_filter_nil {A} (p : A -> bool) l :
  forallb p l = true -> List.filter (fun x => negb (p x)) l = [].
Proof.
  induction l as [|x l IH]; [done|]. cbn [List.filter forallb].
  intros [-> Hr]%andb_true_iff. cbn [negb]. auto.
Qed.

Lemma forallb_of_map {A B} (p : B -> bool) (f : A -> B) l :
  forallb p (List.map f l) = forallb (fun x => p (f x)) l.
Proof. induction l as [|x l IH]; [done|]. cbn. now rewrite IH. Qed.

Lemma nonblank_lines_nonempty text :
  blank text = false -> nonblank_lines text <> [].
Proof.
  rewrite blank_spec. intros Hb E. unfold nonblank_lines in E.
  rewrite (List.filter_ext _ (fun l => negb (forallb is_trim_space l))) in E
    by apply nonblank_test.
  apply filter_nil_forallb in E. rewrite forallb_split_lines in E. congruence.
Qed.

Section structure_facts.
Variable toUpperCase : jsstring -> jsstring.

Lemma concat_map_snoc (secs : list DocSection) s :
  concat (List.map content (secs ++ [s]))
  = concat (List.map content secs) ++ content s.
Proof. rewrite List.map_app, concat_app. cbn. now rewrite app_nil_r. Qed.

Lemma flat_scan_line st line :
  flat (scan_line toUpperCase st line)
  = flat st ++ body_lines toUpperCase [line].
Proof.
  unfold scan_line, flat, body_lines. cbn [List.map List.filter].
  destruct (is_header toUpperCase (trim line)); cbn [negb fst snd content].
  - rewrite !app_nil_r. destruct (content (snd st)) eqn:E.
    + now rewrite app_nil_r.
    + now rewrite concat_map_snoc, E.
  - now rewrite app_assoc.
Qed.

Lemma body_lines_app l1 l2 :
  body_lines toUpperCase (l1 ++ l2)
  = body_lines toUpperCase l1 ++ body_lines toUpperCase l2.
Proof. unfold body_lines. now rewrite List.map_app, List.filter_app. Qed.

Lemma flat_fold lines : forall st,
  flat (fold_left (scan_line toUpperCase) lines st)
  = flat st ++ body_lines toUpperCase lines.
Proof.
  induction lines as [|l r IH]; intros st; cbn [fold_left].
  - unfold body_lines. cbn. now rewrite app_nil_r.
  - rewrite IH, flat_scan_line, <- app_assoc.
    now rewrite <- body_lines_app.
Qed.

Lemma structure_flat st :
  concat (List.map content
            (match content (snd st) with
             | [] => fst st
             | _ => fst st ++ [snd st]
             end)) = flat st.
Proof.
  unfold flat. destruct (content (snd st)) eqn:E.
  - now rewrite app_nil_r.
  - now rewrite concat_map_snoc, E.
Qed.

Lemma structure_content lines :
  concat (List.map content (structure toUpperCase lines))
  = body_lines toUpperCase lines.
Proof.
  unfold structure. cbv zeta. rewrite structure_flat, flat_fold. reflexivity.
Qed.

Lemma well_titled_snoc secs s :
  well_titled toUpperCase secs -> headed toUpperCase s ->
  well_titled toUpperCase (secs ++ [s]).
Proof.
  destruct secs as [|a r]; cbn; [auto|].
  intros [Ha Hr] Hs. split; [done|]. apply Forall_app. split; [done|]. now constructor.
Qed.

Lemma well_titled_init secs s :
  well_titled toUpperCase (secs ++ [s]) -> well_titled toUpperCase secs.
Proof.
  destruct secs as [|a r]; cbn; [auto|].
  intros [Ha Hr]. split; [done|]. now apply Forall_app in Hr as [? _].
Qed.

Lemma well_titled_retitle secs t c c' :
  well_titled toUpperCase (secs ++ [mkSection t c]) ->
  well_titled toUpperCase (secs ++ [mkSection t c']).
Proof.
  destruct secs as [|a r]; cbn; [auto|].
  intros [Ha Hr]. split; [done|]. apply Forall_app in Hr as [H1 H2].
  apply Forall_app. split; [done|]. inversion H2; subst. now constructor.
Qed.

Lemma scan_line_inv st line :
  scan_inv toUpperCase st -> scan_inv toUpperCase (scan_line toUpperCase st line).
Proof.
  intros [Hf Ht]. unfold scan_line, scan_inv.
  destruct (is_header toUpperCase (trim line)) eqn:Eh; cbn [fst snd].
  - destruct (content (snd st)) eqn:Ec.
    + split; [done|]. apply well_titled_snoc; [|exact Eh].
      now apply well_titled_init in Ht.
    + split.
      * apply Forall_app. split; [done|]. constructor; [|constructor].
        unfold filled. now rewrite Ec.
      * now apply well_titled_snoc.
  - split; [done|]. destruct (snd st) as [t c]. cbn [title content].
    now apply (well_titled_retitle _ t c).
Qed.

Lemma fold_scan_inv lines : forall st,
  scan_inv toUpperCase st ->
  scan_inv toUpperCase (fold_left (scan_line toUpperCase) lines st).
Proof.
  induction lines as [|l r IH]; intros st H; cbn [fold_left]; [done|].
  apply IH, scan_line_inv, H.
Qed.

Lemma structure_inv lines :
  Forall filled (structure toUpperCase lines) /\
  well_titled toUpperCase (structure toUpperCase lines).
Proof.
  unfold structure. cbv zeta.
  destruct (fold_scan_inv lines ([], mkSection [] [])) as [Hf Ht].
  { split; [constructor|]. cbn. split; [now left|constructor]. }
  destruct (content (snd (fold_left (scan_line toUpperCase) lines ([], mkSection [] []))))
    eqn:Ec.
  - split; [exact Hf|]. now apply well_titled_init in Ht.
  - split; [|exact Ht]. apply Forall_app. split; [exact Hf|].
    constructor; [|constructor]. unfold filled. now rewrite Ec.
Qed.

Lemma length_concat_filled (secs : list DocSection) :
  Forall filled secs ->
  (List.length secs <= List.length (concat (List.map content secs)))%nat.
Proof.
  induction 1 as [|s r Hs _ IH]; cbn [List.map concat List.length]; [lia|].
  rewrite length_app. unfold filled in Hs.
  destruct (content s); [done|]. cbn [List.length]. lia.
Qed.

Lemma sections_le_lines lines :
  (List.length (structure toUpperCase lines) <= List.length lines)%nat.
Proof.
  pose proof (length_concat_filled _ (proj1 (structure_inv lines))) as H.
  rewrite structure_content in H. unfold body_lines in H.
  pose proof (List.filter_length_le
                (fun t => negb (is_header toUpperCase t)) (List.map trim lines)) as H2.
  rewrite List.length_map in H2. lia.
Qed.

(** The route handler, case by case. *)
Lemma sample_content_handler_cases fs env :
  sample_content_handler toUpperCase fs env =
  if existsSync fs then
    match readFileSync fs with
    | Thrown _ =>
        (mkResponse 500 (error_body "Failed to process sample PDF"), [])
    | Returned b =>
        match pdfParse env b with
        | Thrown _ =>
            (mkResponse 500 (error_body "Failed to process sample PDF"),
             [CallPdfParse b])
        | Returned text =>
            if blank text
            then (mkResponse 400
                    (error_body "Could not extract text from sample PDF"),
                  [CallPdfParse b])
            else (mkResponse 200
                    (sample_body text (nonblank_lines text)
                       (structure toUpperCase (nonblank_lines text)) (now env)),
                  [CallPdfParse b])
        end
    end
  else (mkResponse 404 (error_body "Sample PDF not found"), []).
Proof.
  unfold sample_content_handler.
  destruct (existsSync fs); [|reflexivity].
  destruct (readFileSync fs) as [b|e]; [|reflexivity].
  unfold try_catch, mbind, Handler_bind, mret, Handler_ret, await, reply, raise.
  destruct (pdfParse env b) as [text|e]; [|reflexivity].
  change (negb (truthy text) || (strlen (trim text) =? 0)%Z) with (blank text).
  destruct (blank text); reflexivity.
Qed.

(** The answers of [GET /api/sample-content], stage by stage. *)
Lemma sample_content_outcomes fs env req :
  express_json req = None ->
  sample_content toUpperCase fs env req =
  if rate_max <=? prior_hits req then
    (mkResponse 429
       (JStr (str "Too many requests from this IP, please try again later.")),
     [])
  else if negb (existsSync fs) then
    (mkResponse 404 (error_body "Sample PDF not found"), [])
  else
    match readFileSync fs with
    | Thrown _ =>
        (mkResponse 500 (error_body "Failed to process sample PDF"), [])
    | Returned b =>
        (match pdfParse env b with
         | Thrown _ =>
             mkResponse 500 (error_body "Failed to process sample PDF")
         | Returned text =>
             if blank text
             then mkResponse 400
                    (error_body "Could not extract text from sample PDF")
             else mkResponse 200
                    (sample_body text (nonblank_lines text)
                       (structure toUpperCase (nonblank_lines text))
                       (now env))
         end,
         [CallPdfParse b])
    end.
Proof.
  intros Hj. unfold sample_content, limiter. rewrite Hj.
  destruct (N.ltb_spec rate_max (prior_hits req + 1)) as [Hl|Hl];
    destruct (N.leb_spec rate_max (prior_hits req)) as [Hr|Hr]; try lia;
    [reflexivity|].
  rewrite sample_content_handler_cases.
  destruct (existsSync fs); [|reflexivity]. cbn [negb].
  destruct (readFileSync fs) as [b|e]; [|reflexivity].
  destruct (pdfParse env b) as [text|e]; [|reflexivity].
  destruct (blank text); reflexivity.
Qed.

(** X12.  When the body parser raises no error on the request, the rate
    limiter admits it, the sample is read and its text is not blank, the
    answer is 200 with [rawText] the text as extracted, [totalLines] the
    number of its lines that are not blank, which is at least one, and
    [sectionsCount] the number of sections, which is at most
    [totalLines]. *)
Theorem sample_content_success fs env req b text :
  express_json req = None ->
  prior_hits req < rate_max ->
  existsSync fs = true ->
  readFileSync fs = Returned b ->
  pdfParse env b = Returned text ->
  blank text = false ->
  let lines := nonblank_lines text in
  let sections := structure toUpperCase lines in
  sample_content toUpperCase fs env req
    = (mkResponse 200 (sample_body text lines sections (now env)),
       [CallPdfParse b]) /\
  (1 <= List.length lines)%nat /\
  (List.length sections <= List.length lines)%nat.
Proof.
  intros Hj Hl He Hr Hx Hb. cbv zeta. split; [|split].
  - unfold sample_content. rewrite Hj, limiter_admits by done.
    now rewrite sample_content_handler_cases, He, Hr, Hx, Hb.
  - pose proof (nonblank_lines_nonempty text Hb) as Hn.
    destruct (nonblank_lines text); [done|]. cbn [List.length]. lia.
  - apply sections_le_lines.
Qed.

(** X13.  The sections keep the body of the text: the content lines of
    the sections, one section after the other, are the lines that are no
    headers, trimmed, in the order of the text; none is lost, repeated or
    moved. *)
Theorem structure_keeps_body_lines lines :
  concat (List.map content (structure toUpperCase lines))
  = List.filter (fun t => negb (is_header toUpperCase t)) (List.map trim lines).
Proof.
  unfold structure. cbv zeta.
  rewrite structure_flat, flat_fold. reflexivity.
Qed.

(** X14.  No section is empty, and every section has a header of the
    text for its title, but the first one, whose title is empty when the
    text begins with body lines. *)
Theorem structure_sections_complete lines :
  Forall (fun s => content s <> []) (structure toUpperCase lines) /\
  match structure toUpperCase lines with
  | [] => True
  | s :: r =>
      (title s = [] \/ is_header toUpperCase (title s) = true) /\
      Forall (fun s' => is_header toUpperCase (title s') = true) r
  end.
Proof.
  unfold structure. cbv zeta.
  destruct (fold_scan_inv lines ([], mkSection [] [])) as [Hf Ht].
  { split; [constructor|]. cbn. split; [now left|constructor]. }
  destruct (content (snd (fold_left (scan_line toUpperCase) lines
                            ([], mkSection [] [])))) eqn:Ec.
  - split; [exact Hf|]. now apply well_titled_init in Ht.
  - split; [|exact Ht]. apply Forall_app. split; [exact Hf|].
    constructor; [|constructor]. now rewrite Ec.
Qed.

(** There is no section at all exactly when every line is a header. *)
Lemma no_sections_iff_all_headers lines :
  structure toUpperCase lines = [] <->
  forallb (fun line => is_header toUpperCase (trim line)) lines = true.
Proof.
  pose proof (structure_content lines) as Hk. unfold body_lines in Hk.
  pose proof (proj1 (structure_inv lines)) as Hc.
  split.
  - intros E. rewrite E in Hk. cbn in Hk. symmetry in Hk.
    apply filter_nil_forallb in Hk. now rewrite forallb_of_map in Hk.
  - intros Ha.
    rewrite forallb_filter_nil in Hk by now rewrite forallb_of_map.
    destruct (structure toUpperCase lines) as [|s r]; [done|].
    inversion Hc as [|? ? Hs _]; subst. cbn in Hk. unfold filled in Hs.
    destruct (content s); [done|discriminate].
Qed.

Lemma section_of_pushed secs cur :
  match content cur with
  | [] => secs
  | _ => secs ++ [cur]
  end = secs ++ section_of (title cur) (content cur).
Proof.
  destruct cur as [t c]. cbn [title content]. unfold section_of.
  destruct c; [now rewrite app_nil_r|done].
Qed.

(** The loop, started on [sections] and [currentSection] in any state. *)
Lemma scan_runs lines : forall secs cur,
  (let st := fold_left (scan_line toUpperCase) lines (secs, cur) in
   match content (snd st) with
   | [] => fst st
   | _ => fst st ++ [snd st]
   end)
  = secs
      ++ section_of (title cur) (content cur ++ leading_body toUpperCase lines)
      ++ runs toUpperCase lines.
Proof.
  induction lines as [|l r IH]; intros secs cur; cbv zeta in *;
    cbn [fold_left leading_body runs].
  - rewrite !app_nil_r. apply section_of_pushed.
  - destruct (scan_line toUpperCase (secs, cur) l) as [secs' cur'] eqn:E.
    rewrite IH. unfold scan_line in E. cbv zeta in E. cbn [fst snd] in E.
    destruct (is_header toUpperCase (trim l)); injection E as <- <-;
      cbn [title content app].
    + rewrite app_nil_r, section_of_pushed, <- !app_assoc. reflexivity.
    + now rewrite <- app_assoc.
Qed.

(** X15.  The sections are the runs of the text.  The lines before the
    first header, if there are any, make a first section with an empty
    title; then every header that is followed at once by a line which is
    no header makes a section, with the header for its title and the
    lines up to the next header, trimmed, for its content.  A header that
    is followed by another header, or by nothing, makes no section. *)
Theorem structure_is_runs lines :
  structure toUpperCase lines
  = section_of [] (leading_body toUpperCase lines) ++ runs toUpperCase lines.
Proof.
  unfold structure. pose proof (scan_runs lines [] (mkSection [] [])) as H.
  cbv zeta in *. rewrite H. reflexivity.
Qed.

End structure_facts.

Lemma sample_content_success_witness :
  let lines := nonblank_lines sample_text in
  let sections := structure upper lines in
  sample_content upper sample_file (sample_env sample_text None)
    (first_request [])
    = (mkResponse 200 (sample_body sample_text lines sections sample_time),
       [CallPdfParse (sample_buffer 2048)]) /\
  (1 <= List.length lines)%nat /\
  (List.length sections <= List.length lines)%nat.
Proof.
  apply (sample_content_success upper sample_file
           (sample_env sample_text None) (first_request [])
           (sample_buffer 2048) sample_text); vm_compute; reflexivity.
Defined.

(** The sample text has five lines that are not blank and two sections;
    the header [NEXT STEPS], which no line follows, gives none. *)
Example sample_text_sections :
  List.length (nonblank_lines sample_text) = 5%nat /\
  structure upper (nonblank_lines sample_text)
  = [ mkSection (str "OVERVIEW") [str "We propose a migration."];
      mkSection (str "PRICING") [str "Total: $100"] ].
Proof. vm_compute. split; reflexivity. Qed.

(** Of two headers in a row the first gives no section. *)
Example consecutive_headers :
  structure upper [str "SCOPE"; str "PRICING"; str "fixed fee"]
  = [ mkSection (str "PRICING") [str "fixed fee"] ].
Proof. vm_compute. reflexivity. Qed.

End SampleContent_facts.

(** ** The client between two events *)

Module ClientInvariant_facts.
Import Client Client_facts ClientInvariant Examples Scenarios.

(** *** [drain] *)

Lemma drain_unfold st : drain st = foldr deliver_abort st (aborted_fetches st).
Proof. reflexivity. Qed.

Lemma deliver_abort_fetches cf st :
  fetches (deliver_abort cf st) = delete (fst cf) (fetches st).
Proof. reflexivity. Qed.

Lemma deliver_abort_ref cf st : abortControllerRef (deliver_abort cf st) = None.
Proof. reflexivity. Qed.

Lemma deliver_abort_loading cf st : loading (deliver_abort cf st) = false.
Proof. reflexivity. Qed.

Lemma deliveries_fetches l st c f :
  fetches (foldr deliver_abort st l) !! c = Some f ->
  fetches st !! c = Some f /\ ~ In c (List.map fst l).
Proof.
  induction l as [|cf l IH]; cbn [foldr List.map In]; [tauto|].
  rewrite deliver_abort_fetches. intros [Hne H]%lookup_delete_Some.
  destruct (IH H) as [H1 H2]. split; [done|]. intros [E|E]; [done|auto].
Qed.

Lemma deliveries_removed l st c :
  In c (List.map fst l) -> fetches (foldr deliver_abort st l) !! c = None.
Proof.
  induction l as [|cf l IH]; cbn [foldr List.map In]; [done|].
  rewrite deliver_abort_fetches. intros [E|E].
  - subst c. apply lookup_delete_eq.
  - destruct (decide (fst cf = c)) as [->|Hne]; [apply lookup_delete_eq|].
    rewrite lookup_delete_ne by done. auto.
Qed.

Lemma deliveries_kept l st c :
  ~ In c (List.map fst l) ->
  fetches (foldr deliver_abort st l) !! c = fetches st !! c.
Proof.
  induction l as [|cf l IH]; cbn [foldr List.map In]; [done|].
  rewrite deliver_abort_fetches. intros Hn.
  rewrite lookup_delete_ne by tauto. apply IH. tauto.
Qed.

Lemma deliveries_ref l st c :
  abortControllerRef (foldr deliver_abort st l) = Some c ->
  abortControllerRef st = Some c.
Proof. destruct l as [|cf l]; cbn [foldr]; [done|]. now rewrite deliver_abort_ref. Qed.

Lemma deliveries_end cf l st :
  abortControllerRef (foldr deliver_abort st (cf :: l)) = None /\
  loading (foldr deliver_abort st (cf :: l)) = false.
Proof. cbn [foldr]. now rewrite deliver_abort_ref, deliver_abort_loading. Qed.

Lemma in_aborted_fetches st c f :
  In (c, f) (aborted_fetches st)
  <-> fetches st !! c = Some f /\ controllers st !! c = Some true.
Proof.
  unfold aborted_fetches. rewrite <- list_elem_of_In, list_elem_of_filter.
  rewrite elem_of_map_to_list. cbn [fst]. tauto.
Qed.

Lemma drain_fetches st c f :
  fetches (drain st) !! c = Some f ->
  fetches st !! c = Some f /\ controllers st !! c <> Some true.
Proof.
  rewrite drain_unfold. intros [H Hn]%deliveries_fetches. split; [done|].
  intros Ha. apply Hn. apply in_map_iff. exists (c, f). split; [done|].
  now apply in_aborted_fetches.
Qed.

Lemma drain_removes st c f :
  fetches st !! c = Some f -> controllers st !! c = Some true ->
  fetches (drain st) !! c = None /\ abortControllerRef (drain st) = None /\
  loading (drain st) = false.
Proof.
  intros Hf Ha. rewrite drain_unfold.
  assert (Hin : In (c, f) (aborted_fetches st)) by now apply in_aborted_fetches.
  split.
  - apply deliveries_removed. apply in_map_iff. now exists (c, f).
  - destruct (aborted_fetches st) as [|cf l]; [done|]. apply deliveries_end.
Qed.

Lemma drain_ref st c :
  abortControllerRef (drain st) = Some c -> abortControllerRef st = Some c.
Proof. rewrite drain_unfold. apply deliveries_ref. Qed.

Lemma drain_quiet st :
  (forall c f, fetches st !! c = Some f -> controllers st !! c <> Some true) ->
  drain st = st.
Proof.
  intros H. rewrite drain_unfold.
  destruct (aborted_fetches st) as [|[c f] l] eqn:E; [done|].
  assert (Hin : In (c, f) (aborted_fetches st)) by (rewrite E; now left).
  apply in_aborted_fetches in Hin as [Hf Ha]. now destruct (H c f Hf).
Qed.

(** [drain] after a handler that kept the store in order. *)
Lemma drain_consistent st :
  error st = None -> known st ->
  (forall c, abortControllerRef st = Some c -> controllers st !! c = Some false) ->
  pdf_only st ->
  consistent (drain st).
Proof.
  intros He Hk Hr [Hp1 Hp2].
  destruct (drain_frame st) as (Hfile & _ & Herr & _ & _ & Hctl & _).
  split; [now rewrite Herr|]. split; [split|split].
  - intros c f [Hf Hn]%drain_fetches. rewrite Hctl.
    destruct (Hk c f Hf) as [[|] Hb]; [done|exact Hb].
  - intros c Hc%drain_ref. rewrite Hctl. auto.
  - rewrite Hfile. exact Hp1.
  - intros c f [Hf _]%drain_fetches. eauto.
Qed.

Lemma resetAnalysis_fetches st : fetches (resetAnalysis st) = fetches st.
Proof. destruct st as [f l r e [c|] [t|] cs fs ts n to]; reflexivity. Qed.

Lemma is_Some_insert_keep {A} (m : gmap positive A) i j x :
  is_Some (m !! j) -> is_Some (<[i := x]> m !! j).
Proof.
  intros H. destruct (decide (i = j)) as [->|Hne].
  - rewrite lookup_insert_eq. eauto.
  - now rewrite lookup_insert_ne.
Qed.

Lemma live_known st : live st -> known st.
Proof. intros [H _] c f Hf. rewrite (H c f Hf). eauto. Qed.

(** [resetAnalysis] leaves the store ready for [drain]. *)
Lemma resetAnalysis_ready st :
  consistent st ->
  error (resetAnalysis st) = None /\ known (resetAnalysis st) /\
  abortControllerRef (resetAnalysis st) = None /\
  pdf_only (resetAnalysis st).
Proof.
  intros (He & Hl & Hp1 & Hp2).
  destruct (resetAnalysis_effect st) as (_ & He' & _ & _ & Hr & _ & Hc & Hf).
  pose proof (resetAnalysis_fetches st) as Hfe.
  split; [done|]. split; [|split; [done|]].
  - intros c f. rewrite Hfe, Hc. intros H%(live_known st Hl).
    destruct (abortControllerRef st); [now apply is_Some_insert_keep|done].
  - split; [now rewrite Hf|]. intros c f. rewrite Hfe. apply Hp2.
Qed.

Lemma runDemo_frame st :
  error (runDemo st) = None /\
  fetches (runDemo st) = fetches (resetAnalysis st) /\
  controllers (runDemo st) = controllers (resetAnalysis st) /\
  abortControllerRef (runDemo st) = None /\
  file (runDemo st) = Some demoFile /\
  loading (runDemo st) = true.
Proof.
  destruct st as [f l r e [c|] [t|] cs fs ts n to];
    cbn -[demoFile]; repeat split.
Qed.

(** A handler that resets, then writes neither the requests nor the
    controllers, leaves the store ready for [drain]. *)
Lemma drain_after_reset st st' :
  consistent st ->
  error st' = None ->
  fetches st' = fetches (resetAnalysis st) ->
  controllers st' = controllers (resetAnalysis st) ->
  abortControllerRef st' = None ->
  (forall f, file st' = Some f -> pdf f) ->
  consistent (drain st').
Proof.
  intros Hc He Hf Hct Hr Hfile.
  destruct (resetAnalysis_ready st Hc) as (_ & Hk & _ & _ & Hp).
  apply drain_consistent; [done| | |].
  - intros c f. rewrite Hf, Hct. apply Hk.
  - intros c. now rewrite Hr.
  - split; [done|]. intros c f. rewrite Hf. apply Hp.
Qed.

Lemma analyzeProposal_ready st :
  consistent st ->
  error (analyzeProposal st) = None /\ known (analyzeProposal st) /\
  (forall c, abortControllerRef (analyzeProposal st) = Some c ->
             controllers (analyzeProposal st) !! c = Some false) /\
  pdf_only (analyzeProposal st).
Proof.
  intros (He & Hl & Hp1 & Hp2). pose proof (live_known st Hl) as Hk.
  destruct Hl as [Hl1 Hl2].
  unfold analyzeProposal. destruct (file st) as [f|] eqn:Ef.
  2:{ split; [done|]. split; [done|]. split; [done|]. split; [|done].
      intros f. rewrite Ef. done. }
  unfold known, pdf_only in *.
  destruct st as [fi l r e [c0|] t cs fs ts n to]; cbn in *.
  - split; [done|]. split; [|split; [|split]].
    + intros c g. destruct (decide (n = c)) as [->|Hne].
      * intros _. rewrite lookup_insert_eq. eauto.
      * rewrite !lookup_insert_ne by done. intros H%Hk.
        now apply is_Some_insert_keep.
    + intros c [= <-]. apply lookup_insert_eq.
    + rewrite Ef. exact Hp1.
    + intros c g. destruct (decide (n = c)) as [->|Hne].
      * rewrite lookup_insert_eq. intros [= <-]. auto.
      * rewrite lookup_insert_ne by done. apply Hp2.
  - split; [done|]. split; [|split; [|split]].
    + intros c g. destruct (decide (n = c)) as [->|Hne].
      * intros _. rewrite lookup_insert_eq. eauto.
      * rewrite !lookup_insert_ne by done. apply Hk.
    + intros c [= <-]. apply lookup_insert_eq.
    + rewrite Ef. exact Hp1.
    + intros c g. destruct (decide (n = c)) as [->|Hne].
      * rewrite lookup_insert_eq. intros [= <-]. auto.
      * rewrite lookup_insert_ne by done. apply Hp2.
Qed.

(** What the rest of [analyzeProposal] leaves as it found it, and what
    its [finally] block writes. *)
Lemma analyze_continuation_frame f o st :
  error (analyze_continuation f o st) = error st /\
  file (analyze_continuation f o st) = file st /\
  fetches (analyze_continuation f o st) = fetches st /\
  controllers (analyze_continuation f o st) = controllers st /\
  abortControllerRef (analyze_continuation f o st) = None /\
  loading (analyze_continuation f o st) = false.
Proof.
  unfold analyze_continuation.
  destruct o as [|[status [r|]|]]; try (repeat split; fail);
    destruct (response_ok status); try (repeat split; fail).
  destruct (signal_aborted st); repeat split.
Qed.

Lemma timer_frame t now st :
  error (handle (TimerFires t now) st) = error st /\
  file (handle (TimerFires t now) st) = file st /\
  fetches (handle (TimerFires t now) st) = fetches st /\
  controllers (handle (TimerFires t now) st) = controllers st /\
  abortControllerRef (handle (TimerFires t now) st) = abortControllerRef st.
Proof.
  cbn [handle]. destruct (timers st !! t) as [[|f]|]; [| |done].
  - unfold demo_timeout. rewrite timeoutRef_clearTimeout.
    destruct (timeoutRef st); repeat split.
  - unfold fallback_timeout.
    destruct (bool_decide _ || signal_aborted _); repeat split.
Qed.

Lemma handle_consistent e st : consistent st -> consistent (handle e st).
Proof.
  intros Hc. destruct (resetAnalysis_ready st Hc) as (Re & Rk & Rr & Rp).
  destruct e as [fs| | | | | | |c s|t now].
  - change (handle (Drop fs) st) with (drain (onDrop fs st)). unfold onDrop.
    assert (Ht : forall msg, consistent (drain (toast ToastError msg st))).
    { intros msg. destruct Hc as (He & Hl & Hp).
      apply drain_consistent;
        [exact He|exact (live_known st Hl)|exact (proj2 Hl)|exact Hp]. }
    destruct fs as [|f fs]; [apply Ht|].
    destruct (decide (type f = str "application/pdf")) as [Hpdf|]; [|apply Ht].
    apply (drain_after_reset st);
      [exact Hc|exact Re|reflexivity|reflexivity|exact Rr|].
    cbn [setFile file]. now intros g [= <-].
  - change (handle ClickUploadDifferentFile st)
      with (drain (setFile None (resetAnalysis st))).
    apply (drain_after_reset st);
      [exact Hc|exact Re|reflexivity|reflexivity|exact Rr|done].
  - change (handle ClickDemo st) with (drain (runDemo st)).
    destruct (runDemo_frame st) as (D1 & D2 & D3 & D4 & D5 & _).
    apply (drain_after_reset st); [exact Hc|exact D1|exact D2|exact D3|exact D4|].
    rewrite D5. now intros g [= <-].
  - change (handle ClickAnalyze st) with (drain (analyzeProposal st)).
    destruct (analyzeProposal_ready st Hc) as (H1 & H2 & H3 & H4).
    now apply drain_consistent.
  - change (handle ClickStartOver st) with (drain (resetAnalysis st)).
    apply (drain_after_reset st);
      [exact Hc|exact Re|reflexivity|reflexivity|exact Rr|exact (proj1 Rp)].
  - change (handle ClickReset st) with (drain (resetAnalysis st)).
    apply (drain_after_reset st);
      [exact Hc|exact Re|reflexivity|reflexivity|exact Rr|exact (proj1 Rp)].
  - change (handle ClickTryAnotherDemo st) with (drain (runDemo st)).
    destruct (runDemo_frame st) as (D1 & D2 & D3 & D4 & D5 & _).
    apply (drain_after_reset st); [exact Hc|exact D1|exact D2|exact D3|exact D4|].
    rewrite D5. now intros g [= <-].
  - destruct (fetches st !! c) as [f|] eqn:Ef.
    2:{ cbn [handle]. now rewrite Ef. }
    rewrite (handle_fetch_settles st c f s Ef).
    destruct (analyze_continuation_frame f
                (if bool_decide (controllers st !! c = Some true)
                 then Aborted else Settled s)
                (set_fetches (delete c (fetches st)) st))
      as (H1 & H2 & H3 & H4 & H5 & _).
    destruct Hc as (He & [Hl1 Hl2] & Hp1 & Hp2).
    split; [now rewrite H1|]. split; [split|split].
    + intros c' f'. rewrite H3, H4. cbn [set_fetches fetches controllers].
      intros [_ H]%lookup_delete_Some. eauto.
    + intros c'. now rewrite H5.
    + now rewrite H2.
    + intros c' f'. rewrite H3. cbn [set_fetches fetches].
      intros [_ H]%lookup_delete_Some. eauto.
  - destruct (timer_frame t now st) as (H1 & H2 & H3 & H4 & H5).
    destruct Hc as (He & [Hl1 Hl2] & Hp1 & Hp2).
    split; [now rewrite H1|]. split; [split|split].
    + intros c f. rewrite H3, H4. apply Hl1.
    + intros c. rewrite H5, H4. apply Hl2.
    + now rewrite H2.
    + intros c f. rewrite H3. apply Hp2.
Qed.

Lemma run_consistent es : forall st st',
  consistent st -> run es st = Some st' -> consistent st'.
Proof.
  induction es as [|e es IH]; intros st st' Hc; cbn [run].
  - now intros [= <-].
  - unfold step. destruct (enabled e st); [|done].
    apply IH. now apply handle_consistent.
Qed.

Lemma initial_consistent : consistent initial.
Proof.
  split; [done|]. split; split; intros *; cbn; try done;
    rewrite lookup_empty; done.
Qed.

Lemma consistent_not_aborted st : consistent st -> signal_aborted st = false.
Proof.
  intros (_ & [_ H] & _). unfold signal_aborted.
  destruct (abortControllerRef st) as [c|]; [|done]. now rewrite (H c).
Qed.

(** *** What holds of every state the page can reach *)

(** X16.  The state variable [error] is never set: whatever the user
    does and however requests and timers end, it is [null], so the error
    panel of the page is never rendered.  Every failure of an analysis
    goes to the fallback instead. *)
Theorem error_never_set es st : run es initial = Some st -> error st = None.
Proof. intros H. apply (run_consistent es initial st initial_consistent H). Qed.

(** X17.  Between two events no request in flight has an aborted signal,
    since an aborted request resumes with its [AbortError] before the next
    event, and the controller that [abortControllerRef] holds is not
    aborted, since [resetAnalysis] drops the controller it aborts and
    [analyzeProposal] replaces it.  So the two tests of
    [abortControllerRef.current?.signal.aborted], after [response.json()]
    and in the fallback callback, never find it true. *)
Theorem aborted_signal_never_observed es st :
  run es initial = Some st ->
  signal_aborted st = false /\
  forall c f, fetches st !! c = Some f -> controllers st !! c = Some false.
Proof.
  intros H. pose proof (run_consistent es initial st initial_consistent H) as Hc.
  split; [now apply consistent_not_aborted|]. apply Hc.
Qed.

(** X18.  The file selected, and the file of every request in flight,
    has the media type [application/pdf]. *)
Theorem only_pdf_sent es st :
  run es initial = Some st ->
  (forall f, file st = Some f -> type f = str "application/pdf") /\
  (forall c f, fetches st !! c = Some f -> type f = str "application/pdf").
Proof.
  intros H. apply (run_consistent es initial st initial_consistent H).
Qed.

Lemma signal_aborted_set_fetches m st :
  signal_aborted (set_fetches m st) = signal_aborted st.
Proof. reflexivity. Qed.

Lemma success_continuation f status r st :
  response_ok status = true -> signal_aborted st = false ->
  analyze_continuation f (Settled (Responded status (Some r))) st
  = finally (toast ToastSuccess "Proposal analyzed successfully!"
               (setResult (Some r) st)).
Proof. intros Ho Ha. unfold analyze_continuation. now rewrite Ho, Ha. Qed.

(** X19.  A success response to a request in flight is always shown:
    the result is the body of the response, the loading flag is cleared,
    the success notification is added, and no timer is scheduled. *)
Theorem success_response_shown es st c f status r :
  run es initial = Some st ->
  fetches st !! c = Some f ->
  response_ok status = true ->
  let st' := handle (FetchSettles c (Responded status (Some r))) st in
  result st' = Some r /\ loading st' = false /\ error st' = None /\
  toasts st' = (ToastSuccess, str "Proposal analyzed successfully!") :: toasts st /\
  timers st' = timers st /\ fetches st' = delete c (fetches st).
Proof.
  intros H Hf Ho. cbv zeta.
  pose proof (run_consistent es initial st initial_consistent H) as Hc.
  pose proof (consistent_not_aborted st Hc) as Ha.
  destruct Hc as (He & [Hl _] & _).
  rewrite (handle_fetch_settles st c f _ Hf).
  rewrite (Hl c f Hf).
  rewrite bool_decide_eq_false_2 by done.
  rewrite success_continuation by done.
  cbn. now rewrite He.
Qed.

Lemma fallback_timeout_fires f now st :
  timeoutRef st <> None -> signal_aborted st = false ->
  fallback_timeout f now st
  = set_timeoutRef None
      (toast ToastSuccess "Proposal analyzed successfully! (Demo mode)"
         (setResult (Some (fallbackResult f now)) st)).
Proof.
  intros Ht Ha. unfold fallback_timeout.
  rewrite bool_decide_eq_false_2 by done. now rewrite Ha.
Qed.

Lemma fallback_timeout_returns f now st :
  timeoutRef st = None -> fallback_timeout f now st = st.
Proof.
  intros Ht. unfold fallback_timeout. now rewrite bool_decide_eq_true_2 by done.
Qed.

(** X20.  When the fallback timer of a failed analysis fires, its
    callback looks at the shared [timeoutRef] only.  If that is [null]
    nothing changes; if it holds any timer, this one or another, the
    fallback result for the file of the failed analysis replaces the
    result on the page, the notification is shown and [timeoutRef] is
    cleared, while the loading flag and the requests in flight stay as
    they are. *)
Theorem fallback_timer_effect es st t f now :
  run es initial = Some st ->
  timers st !! t = Some (FallbackTimeout f) ->
  let st' := handle (TimerFires t now) st in
  match timeoutRef st with
  | None => st' = clearTimeout t st
  | Some _ =>
      result st' = Some (fallbackResult f now) /\
      toasts st'
        = (ToastSuccess, str "Proposal analyzed successfully! (Demo mode)")
            :: toasts st /\
      timeoutRef st' = None /\ loading st' = loading st /\
      fetches st' = fetches st
  end.
Proof.
  intros H Ht. cbv zeta.
  pose proof (run_consistent es initial st initial_consistent H) as Hc.
  pose proof (consistent_not_aborted st Hc) as Ha.
  rewrite (handle_fallback_timer st t f now Ht).
  destruct (timeoutRef st) as [t'|] eqn:Er.
  - rewrite fallback_timeout_fires; [repeat split| |exact Ha].
    rewrite timeoutRef_clearTimeout, Er. done.
  - apply fallback_timeout_returns. now rewrite timeoutRef_clearTimeout.
Qed.

Lemma resetAnalysis_aborts st c :
  abortControllerRef st = Some c ->
  controllers (resetAnalysis st) !! c = Some true.
Proof.
  intros Hr. destruct (resetAnalysis_effect st) as (_ & _ & _ & _ & _ & _ & Hc & _).
  rewrite Hc, Hr. apply lookup_insert_eq.
Qed.

(** X21.  Start Over cancels the request that [abortControllerRef]
    tracks: the request is no longer in flight, so no response to it can
    reach the page, and the page is idle. *)
Theorem reset_cancels_tracked_request st c f s :
  abortControllerRef st = Some c ->
  fetches st !! c = Some f ->
  let st' := handle ClickStartOver st in
  fetches st' !! c = None /\ step (FetchSettles c s) st' = None /\
  result st' = None /\ error st' = None /\ loading st' = false /\
  abortControllerRef st' = None /\ timeoutRef st' = None.
Proof.
  intros Hr Hf. cbv zeta.
  change (handle ClickStartOver st) with (drain (resetAnalysis st)).
  destruct (drain_removes (resetAnalysis st) c f) as (H1 & H2 & H3).
  { now rewrite resetAnalysis_fetches. }
  { now apply resetAnalysis_aborts. }
  destruct (drain_frame (resetAnalysis st)) as (_ & Hres & Herr & Href & _).
  destruct (resetAnalysis_effect st) as (R1 & R2 & _ & R4 & _).
  split; [exact H1|]. split.
  { unfold step, enabled. rewrite H1.
    rewrite bool_decide_eq_false_2; [done|]. intros [? ?]; done. }
  rewrite Hres, Herr, Href. done.
Qed.

(** X22.  Try Another Demo, pressed in a state the page can reach,
    schedules the timer of the demo, and the canned result is shown when
    that timer fires next.  But the loading flag it sets is still set
    afterwards only if no tracked request was in flight: the [finally]
    block of the request it cancels runs after [runDemo] and clears the
    flag, so the demo then runs with the page not loading. *)
Theorem demo_over_request_drops_loading es st now :
  run es initial = Some st ->
  let st' := handle ClickTryAnotherDemo st in
  loading st'
    = negb (bool_decide (is_Some (abortControllerRef st ≫= (fetches st !!.)))) /\
  timers st' !! fresh st = Some DemoTimeout /\
  result (handle (TimerFires (fresh st) now) st') = Some (demoResult now).
Proof.
  intros H. cbv zeta.
  pose proof (run_consistent es initial st initial_consistent H) as Hc.
  change (handle ClickTryAnotherDemo st) with (drain (runDemo st)).
  destruct (runDemo_frame st) as (D1 & D2 & D3 & D4 & D5 & D6).
  destruct (runDemo_effect st) as (Ht & Hr & _).
  destruct (drain_frame (runDemo st)) as (_ & _ & _ & Href & Htim & _).
  rewrite <- Htim in Ht. rewrite Hr in Href.
  split; [|split; [exact Ht|]].
  - rewrite resetAnalysis_fetches in D2.
    destruct (abortControllerRef st ≫= (fetches st !!.)) as [f|] eqn:E.
    + rewrite bool_decide_eq_true_2 by eauto. cbn [negb].
      destruct (abortControllerRef st) as [c|] eqn:Ec; [|done].
      cbn [mbind option_bind] in E.
      apply (drain_removes (runDemo st) c f).
      * now rewrite D2.
      * rewrite D3. now apply resetAnalysis_aborts.
    + rewrite bool_decide_eq_false_2 by (intros [? ?]; done). cbn [negb].
      rewrite drain_quiet; [exact D6|].
      intros c f. rewrite D2, D3. intros Hf Ha.
      destruct (resetAnalysis_effect st) as (_ & _ & _ & _ & _ & _ & Hct & _).
      rewrite Hct in Ha. destruct Hc as (_ & [Hl _] & _).
      pose proof (Hl c f Hf) as Hlive.
      destruct (abortControllerRef st) as [c0|] eqn:Ec.
      * cbn [mbind option_bind] in E.
        destruct (decide (c0 = c)) as [->|Hne]; [congruence|].
        rewrite lookup_insert_ne in Ha by done. congruence.
      * congruence.
  - rewrite (handle_demo_timer _ _ now Ht).
    apply (demo_timeout_effect _ (fresh st)).
    now rewrite timeoutRef_clearTimeout.
Qed.

(** *** The name of the exported file *)

Lemma includes_cons c s p :
  includes (c :: s) p = starts_with p (c :: s) || includes s p.
Proof. reflexivity. Qed.

Lemma replace_step c s p by_ :
  starts_with p (c :: s) = false ->
  JS.replace (c :: s) p by_ = c :: JS.replace s p by_.
Proof. intros H. cbn [JS.replace]. now rewrite H. Qed.

Lemma starts_with_app p s t :
  starts_with p s = true -> starts_with p (s ++ t) = true.
Proof.
  revert s. induction p as [|a p IH]; intros [|b s]; cbn; try done.
  intros [-> H]%andb_true_iff. cbn. auto.
Qed.

(** No occurrence of [.pdf] begins in a string that has none and is
    followed by [.pdf]. *)
Lemma no_straddle c a rest :
  starts_with (str ".pdf") (c :: a) = false ->
  starts_with (str ".pdf") (c :: a ++ str ".pdf" ++ rest) = false.
Proof.
  change (str ".pdf") with [46; 112; 100; 102].
  destruct a as [|a1 [|a2 [|a3 a']]]; cbn [app starts_with].
  - intros _. destruct (46 =? c); [|done]. reflexivity.
  - intros _. destruct (46 =? c); [|done]. cbn [andb].
    destruct (112 =? a1); [|done]. reflexivity.
  - intros _. destruct (46 =? c); [|done]. cbn [andb].
    destruct (112 =? a1); [|done]. cbn [andb].
    destruct (100 =? a2); [|done]. reflexivity.
  - intros H. destruct (46 =? c); [|done]. cbn [andb] in *.
    destruct (112 =? a1); [|done]. cbn [andb] in *.
    destruct (100 =? a2); [|done]. cbn [andb] in *.
    destruct (102 =? a3); [|done]. done.
Qed.

Lemma replace_first_pdf a rest :
  includes a (str ".pdf") = false ->
  JS.replace (a ++ str ".pdf" ++ rest) (str ".pdf") [] = a ++ rest.
Proof.
  induction a as [|c a IH].
  - intros _. reflexivity.
  - rewrite includes_cons. intros [Hs Hi]%orb_false_iff.
    cbn [app]. rewrite replace_step by now apply no_straddle.
    f_equal. auto.
Qed.

(** X23.  The name of the exported file is [analysis-], the file name
    of the result without its first [.pdf], and [.json]: only the first
    occurrence is removed, wherever it is in the name. *)
Theorem export_file_name st r a rest :
  result st = Some r ->
  fileName (metadata r) = a ++ str ".pdf" ++ rest ->
  includes a (str ".pdf") = false ->
  exists d, fst (exportResultsAsJSON st) = Some d /\
            download d = str "analysis-" ++ a ++ rest ++ str ".json" /\
            blob_type d = str "application/json".
Proof.
  intros Hr Hn Hi. unfold exportResultsAsJSON. rewrite Hr. cbn [fst].
  eexists. split; [reflexivity|]. cbn [download blob_type]. split; [|done].
  rewrite Hn, replace_first_pdf by done. now rewrite <- app_assoc.
Qed.


Lemma error_never_set_witness : error (after second_attempt) = None.
Proof.
  apply (error_never_set second_attempt). vm_compute. reflexivity.
Defined.

Lemma aborted_signal_never_observed_witness :
  signal_aborted (after second_attempt) = false /\
  forall c f, fetches (after second_attempt) !! c = Some f ->
              controllers (after second_attempt) !! c = Some false.
Proof.
  apply (aborted_signal_never_observed second_attempt). vm_compute. reflexivity.
Defined.

Lemma only_pdf_sent_witness :
  (forall f, file (after second_attempt) = Some f ->
             type f = str "application/pdf") /\
  (forall c f, fetches (after second_attempt) !! c = Some f ->
               type f = str "application/pdf").
Proof.
  apply (only_pdf_sent second_attempt). vm_compute. reflexivity.
Defined.

Lemma success_response_shown_witness :
  let st := after request_sent in
  let st' := handle (FetchSettles 1 (Responded 200 (Some (demoResult time1)))) st in
  result st' = Some (demoResult time1) /\ loading st' = false /\
  error st' = None /\
  toasts st'
    = (ToastSuccess, str "Proposal analyzed successfully!") :: toasts st /\
  timers st' = timers st /\ fetches st' = delete 1%positive (fetches st).
Proof.
  apply (success_response_shown request_sent (after request_sent) 1%positive
           fileA 200 (demoResult time1)); vm_compute; reflexivity.
Defined.

Lemma fallback_timer_effect_witness :
  let st := after second_attempt in
  let st' := handle (TimerFires 2 time1) st in
  result st' = Some (fallbackResult fileA time1) /\
  toasts st'
    = (ToastSuccess, str "Proposal analyzed successfully! (Demo mode)")
        :: toasts st /\
  timeoutRef st' = None /\ loading st' = loading st /\
  fetches st' = fetches st.
Proof.
  assert (Hrun : run second_attempt initial = Some (after second_attempt))
    by (vm_compute; reflexivity).
  assert (Ht : timers (after second_attempt) !! 2%positive
               = Some (FallbackTimeout fileA)) by (vm_compute; reflexivity).
  exact (fallback_timer_effect second_attempt (after second_attempt)
           2%positive fileA time1 Hrun Ht).
Defined.

Lemma reset_cancels_tracked_request_witness :
  let st' := handle ClickStartOver (after request_sent) in
  fetches st' !! 1%positive = None /\
  step (FetchSettles 1 (Responded 200 None)) st' = None /\
  result st' = None /\ error st' = None /\ loading st' = false /\
  abortControllerRef st' = None /\ timeoutRef st' = None.
Proof.
  apply (reset_cancels_tracked_request (after request_sent)
           1%positive fileA (Responded 200 None)); vm_compute; reflexivity.
Defined.

Lemma demo_over_request_drops_loading_witness :
  let st := after (analysed_again (demoResult time1)) in
  let st' := handle ClickTryAnotherDemo st in
  loading st = true /\
  loading st' = false /\
  timers st' !! fresh st = Some DemoTimeout /\
  result (handle (TimerFires (fresh st) time2) st') = Some (demoResult time2).
Proof.
  split; [vm_compute; reflexivity|].
  assert (Hrun : run (analysed_again (demoResult time1)) initial
                 = Some (after (analysed_again (demoResult time1))))
    by (vm_compute; reflexivity).
  exact (demo_over_request_drops_loading (analysed_again (demoResult time1))
           (after (analysed_again (demoResult time1))) time2 Hrun).
Defined.

Lemma export_file_name_witness :
  exists d,
    fst (exportResultsAsJSON (setResult (Some (demoResult time1)) initial))
      = Some d /\
    download d = str "analysis-sample-proposal.json" /\
    blob_type d = str "application/json".
Proof.
  apply (export_file_name (setResult (Some (demoResult time1)) initial)
           (demoResult time1) (str "sample-proposal") []);
    vm_compute; reflexivity.
Defined.

End ClientInvariant_facts.
